(** * Shared-memory transports: BARQ, CASIR and SAHM

    A shallow embedding of the three transport engines of the library
    (src/barq.cpp, src/casir.cpp, src/sahm.cpp) and of the derived helpers of
    the platform probe (include/cache_utils.hpp, src/cache_utils.cpp).

    Conventions of the embedding.
    - Unsigned machine integers ([size_t], [uint64_t], [uint32_t]) are [Z]
      with the wrap-around of the C++ arithmetic written out ([wrap64],
      [wrap32]); [int64_t] timestamps are plain [Z] (no arithmetic is done
      on them by the modelled code).
    - A mapped region is a typed record (header fields and payload areas);
      a pointer to a mapped object is the identifier of the object, and a
      pointer a reader holds into the payload of a double-buffer region is
      the byte offset from the start of the mapping.
    - The POSIX shared-memory name space is a finite map from names to
      object identifiers; unlinking removes the name and leaves the object
      to the processes that still map it.
    - The clock and the outcome of system calls that depend on the host
      (mmap, ftruncate, /proc and /sys contents) are explicit arguments. *)

From Stdlib Require Import ZArith Lia Bool.
From Stdlib Require Import Init.Byte.
From stdpp Require Import base gmap list strings pretty.

Open Scope Z_scope.

(** ** Machine integers *)

Definition wrap64 (z : Z) : Z := z mod 2 ^ 64.
Definition wrap32 (z : Z) : Z := z mod 2 ^ 32.

(** [std::memcpy(dst, src, n)] on byte areas: the first [n] bytes of [dst]
    are replaced by the first [n] bytes of [src]. *)
Definition memcpy (dst src : list byte) (n : Z) : list byte :=
  take (Z.to_nat n) src ++ drop (Z.to_nat n) dst.

(** ** POSIX shared-memory objects *)

Module Shm.

(** [names] is the name space seen by [shm_open]; [objs] holds the content
    of every object that has been sized and written; [next_id] is the next
    unused object identifier. *)
Record fs (R : Type) : Type := Fs {
  names : gmap string nat;
  objs : gmap nat R;
  next_id : nat
}.
Arguments Fs {R} _ _ _.
Arguments names {R} _.
Arguments objs {R} _.
Arguments next_id {R} _.

Definition empty {R : Type} : fs R := Fs ∅ ∅ 0%nat.

(** [shm_unlink(name)] *)
Definition shm_unlink {R : Type} (name : string) (s : fs R) : fs R :=
  Fs (delete name (names s)) (objs s) (next_id s).

(** [shm_open(name, O_RDWR)] and [shm_open(name, O_RDONLY)]: the object
    must exist. *)
Definition shm_open {R : Type} (name : string) (s : fs R) : option nat :=
  names s !! name.

(** [shm_open(name, O_CREAT | O_RDWR [| O_EXCL])]. [ok] is false when the
    call fails for a reason that is not the name (descriptor limit,
    permissions). With [excl] an existing name makes the call fail. *)
Definition shm_open_creat {R : Type} (ok excl : bool) (name : string) (s : fs R)
  : option nat * fs R :=
  if negb ok then (None, s) else
  match names s !! name with
  | Some id => if excl then (None, s) else (Some id, s)
  | None => (Some (next_id s),
             Fs (<[name := next_id s]> (names s)) (objs s) (S (next_id s)))
  end.

(** The content of object [id] after the owner has sized, mapped and
    initialised it. *)
Definition store {R : Type} (id : nat) (r : R) (s : fs R) : fs R :=
  Fs (names s) (<[id := r]> (objs s)) (next_id s).

End Shm.

(** ** Platform probe (cache_utils.hpp / cache_utils.cpp) *)

Module SIM.

Definition CACHE_LINE_SIZE : Z := 64.
Definition HUGE_PAGE_SIZE : Z := 2 * 1024 * 1024.

Record CacheInfo : Type := {
  l1d_size : Z;
  l1i_size : Z;
  l2_size : Z;
  l3_size : Z;
  line_size : Z;
  num_cores : Z
}.

Definition optimal_prefetch_distance (c : CacheInfo) : Z :=
  if 0 <? l2_size c then l2_size c / 4 else 64 * 1024.


Definition DEFAULT_L1_SIZE : Z := 32 * 1024.
Definition DEFAULT_L2_SIZE : Z := 256 * 1024.
Definition DEFAULT_L3_SIZE : Z := 8 * 1024 * 1024.

(** One [index*] directory of /sys/devices/system/cpu/cpu0/cache as
    [detectCacheInfo] reads it: the [type] file ([None] when it cannot be
    read), the [level] file (0 when it cannot be read), the result of
    [readCacheSize] on the [size] file (0 when it cannot be read), and the
    [coherency_line_size] file. *)
Record CacheIndex : Type := {
  index_type : option string;
  index_level : Z;
  index_size : Z;
  index_line : option Z
}.

(** The body of the directory loop of [detectCacheInfo]. *)
Definition assign_index (info : CacheInfo) (e : CacheIndex) : CacheInfo :=
  match index_type e with
  | None => info
  | Some type =>
      let line := match index_line e with
                  | Some l => if 0 <? l then l else line_size info
                  | None => line_size info
                  end in
      let level := index_level e in
      let size := index_size e in
      if (level =? 1) && String.eqb type "Data" then
        {| l1d_size := size; l1i_size := l1i_size info; l2_size := l2_size info;
           l3_size := l3_size info; line_size := line; num_cores := num_cores info |}
      else if (level =? 1) && String.eqb type "Instruction" then
        {| l1d_size := l1d_size info; l1i_size := size; l2_size := l2_size info;
           l3_size := l3_size info; line_size := line; num_cores := num_cores info |}
      else if level =? 2 then
        {| l1d_size := l1d_size info; l1i_size := l1i_size info; l2_size := size;
           l3_size := l3_size info; line_size := line; num_cores := num_cores info |}
      else if level =? 3 then
        {| l1d_size := l1d_size info; l1i_size := l1i_size info; l2_size := l2_size info;
           l3_size := size; line_size := line; num_cores := num_cores info |}
      else
        {| l1d_size := l1d_size info; l1i_size := l1i_size info; l2_size := l2_size info;
           l3_size := l3_size info; line_size := line; num_cores := num_cores info |}
  end.

(** [CacheUtils::detectCacheInfo]: [cores] is what [sysconf] reports and
    [dir] the [index*] entries of the cache directory, [None] when the
    directory cannot be opened. *)
Definition detectCacheInfo (cores : Z) (dir : option (list CacheIndex)) : CacheInfo :=
  fold_left assign_index (default [] dir)
    {| l1d_size := DEFAULT_L1_SIZE; l1i_size := DEFAULT_L1_SIZE;
       l2_size := DEFAULT_L2_SIZE; l3_size := DEFAULT_L3_SIZE;
       line_size := CACHE_LINE_SIZE; num_cores := cores |}.

(** [CacheUtils::fitsInL3]; the arguments are those of the
    [detectCacheInfo] call it makes. *)
Definition fitsInL3 (cores : Z) (dir : option (list CacheIndex)) (size : Z) : bool :=
  let cache := detectCacheInfo cores dir in
  size <=? l3_size cache / 2.

Record HugePagesInfo : Type := {
  available : bool;
  usable : bool;
  total : Z;
  free : Z;
  page_size : Z
}.

(** [CacheUtils::shouldUseHugePages]; [hp] is what [detectHugePages]
    reads from the host. *)
Definition shouldUseHugePages (hp : HugePagesInfo) (size : Z) : bool :=
  if size <? 1024 * 1024 then false
  else if negb (usable hp) then false
  else
    let pages_needed := wrap64 (size + page_size hp - 1) / page_size hp in
    pages_needed <=? free hp.

Definition alignToCacheLine (size : Z) : Z :=
  wrap64 (wrap64 (size + CACHE_LINE_SIZE - 1) / CACHE_LINE_SIZE * CACHE_LINE_SIZE).

Definition alignToHugePage (size : Z) : Z :=
  wrap64 (wrap64 (size + HUGE_PAGE_SIZE - 1) / HUGE_PAGE_SIZE * HUGE_PAGE_SIZE).

Record SiCConfig : Type := {
  use_huge_pages : bool;
  enable_prefetch : bool;
  numa_aware : bool;
  cpu_affinity : Z;
  prefetch_distance : Z
}.

Record SiCStats : Type := {
  huge_pages_active : bool;
  prefetch_active : bool;
  numa_node : Z;
  pinned_cpu : Z;
  cache_info : CacheInfo;
  total_writes : Z;
  total_reads : Z;
  bytes_transferred : Z
}.

Definition set_prefetch_distance (d : Z) (c : SiCConfig) : SiCConfig :=
  {| use_huge_pages := use_huge_pages c;
     enable_prefetch := enable_prefetch c;
     numa_aware := numa_aware c;
     cpu_affinity := cpu_affinity c;
     prefetch_distance := d |}.

Definition portable : SiCConfig :=
  {| use_huge_pages := false;
     enable_prefetch := true;
     numa_aware := false;
     cpu_affinity := -1;
     prefetch_distance := 64 * 1024 |}.

End SIM.

(** Outcome of the host-dependent system calls of one [init]. *)
Record SysCalls : Type := {
  shm_open_ok : bool;      (* shm_open does not fail for an unrelated reason *)
  ftruncate_ok : bool;
  mmap_hugetlb_ok : bool;  (* mmap with MAP_HUGETLB *)
  mmap_ok : bool           (* ordinary mmap *)
}.

Definition all_ok : SysCalls :=
  {| shm_open_ok := true; ftruncate_ok := true;
     mmap_hugetlb_ok := true; mmap_ok := true |}.

(** The calls every [init] needs succeed; a failed huge-page mapping is
    tolerated by the code and not part of this. *)
Definition calls_succeed (sys : SysCalls) : Prop :=
  shm_open_ok sys = true /\ ftruncate_ok sys = true /\ mmap_ok sys = true.

(** ** Double-buffer engine, basic tier (barq.hpp / barq.cpp) *)

Module BARQ.

Definition MAGIC : Z := 0x53484D32.
Definition VERSION : Z := 0x00020000.
Definition CACHE_LINE : Z := 64.
Definition HUGE_PAGE : Z := 2 * 1024 * 1024.
Definition sizeof_Header : Z := 5 * CACHE_LINE.

Record Header : Type := {
  magic : Z;
  version : Z;
  capacity : Z;
  buffer_offset : Z;
  flags : Z;
  reserved : Z;
  front_idx : Z;
  seq0 : Z;
  ts0 : Z;
  len0 : Z;
  seq1 : Z;
  ts1 : Z;
  len1 : Z;
  heartbeat_ns : Z;
  total_writes : Z;
  total_bytes : Z
}.

(** A mapped region: the header and the two payload slots
    ([buffer_[0]], [buffer_[1]]). *)
Record Region : Type := {
  hdr : Header;
  buffer0 : list byte;
  buffer1 : list byte
}.

(** Relaxed and release stores to the atomic header fields. *)
Definition store_front_idx (v : Z) (h : Header) : Header :=
  {| magic := magic h; version := version h; capacity := capacity h;
     buffer_offset := buffer_offset h; flags := flags h; reserved := reserved h;
     front_idx := v;
     seq0 := seq0 h; ts0 := ts0 h; len0 := len0 h;
     seq1 := seq1 h; ts1 := ts1 h; len1 := len1 h;
     heartbeat_ns := heartbeat_ns h; total_writes := total_writes h;
     total_bytes := total_bytes h |}.

Definition store_slot0 (len ts seq : Z) (h : Header) : Header :=
  {| magic := magic h; version := version h; capacity := capacity h;
     buffer_offset := buffer_offset h; flags := flags h; reserved := reserved h;
     front_idx := front_idx h;
     seq0 := seq; ts0 := ts; len0 := len;
     seq1 := seq1 h; ts1 := ts1 h; len1 := len1 h;
     heartbeat_ns := heartbeat_ns h; total_writes := total_writes h;
     total_bytes := total_bytes h |}.

Definition store_slot1 (len ts seq : Z) (h : Header) : Header :=
  {| magic := magic h; version := version h; capacity := capacity h;
     buffer_offset := buffer_offset h; flags := flags h; reserved := reserved h;
     front_idx := front_idx h;
     seq0 := seq0 h; ts0 := ts0 h; len0 := len0 h;
     seq1 := seq; ts1 := ts; len1 := len;
     heartbeat_ns := heartbeat_ns h; total_writes := total_writes h;
     total_bytes := total_bytes h |}.

Definition store_heartbeat_ns (v : Z) (h : Header) : Header :=
  {| magic := magic h; version := version h; capacity := capacity h;
     buffer_offset := buffer_offset h; flags := flags h; reserved := reserved h;
     front_idx := front_idx h;
     seq0 := seq0 h; ts0 := ts0 h; len0 := len0 h;
     seq1 := seq1 h; ts1 := ts1 h; len1 := len1 h;
     heartbeat_ns := v; total_writes := total_writes h;
     total_bytes := total_bytes h |}.

(** [total_writes.fetch_add(1)] followed by [total_bytes.fetch_add(size)]. *)
Definition fetch_add_totals (size : Z) (h : Header) : Header :=
  {| magic := magic h; version := version h; capacity := capacity h;
     buffer_offset := buffer_offset h; flags := flags h; reserved := reserved h;
     front_idx := front_idx h;
     seq0 := seq0 h; ts0 := ts0 h; len0 := len0 h;
     seq1 := seq1 h; ts1 := ts1 h; len1 := len1 h;
     heartbeat_ns := heartbeat_ns h;
     total_writes := wrap64 (total_writes h + 1);
     total_bytes := wrap64 (total_bytes h + size) |}.

Definition with_hdr (h : Header) (r : Region) : Region :=
  {| hdr := h; buffer0 := buffer0 r; buffer1 := buffer1 r |}.

(** [alignUp]: [(value + alignment - 1) & ~(alignment - 1)] on [size_t]. *)
Definition alignUp (value alignment : Z) : Z :=
  Z.land (wrap64 (value + alignment - 1)) (wrap64 (Z.lnot (alignment - 1))).

(** [ntMemcpy]: 16-byte streaming stores for [size / 16] chunks, then an
    ordinary copy of the remainder. *)
Definition ntMemcpy (dst src : list byte) (size : Z) : list byte :=
  let chunks := size / 16 in
  let remainder := size mod 16 in
  let d := memcpy dst src (chunks * 16) in
  if 0 <? remainder
  then take (Z.to_nat (chunks * 16)) d
       ++ memcpy (drop (Z.to_nat (chunks * 16)) d)
                 (drop (Z.to_nat (chunks * 16)) src) remainder
  else d.

(** Writing the payload area [buffer_[back]]. An index other than 0 or 1
    is outside the two-element pointer array; no slot is then changed. *)
Definition copy_payload (back : Z) (data : list byte) (size : Z) (r : Region) : Region :=
  let cp dst := if 4096 <=? size then ntMemcpy dst data size else memcpy dst data size in
  if back =? 0 then {| hdr := hdr r; buffer0 := cp (buffer0 r); buffer1 := buffer1 r |}
  else if back =? 1 then {| hdr := hdr r; buffer0 := buffer0 r; buffer1 := cp (buffer1 r) |}
  else r.

(** The sequence number of the slot the front index selects: the frame
    published last. *)
Definition front_seq (r : Region) : Z :=
  if front_idx (hdr r) =? 0 then seq0 (hdr r) else seq1 (hdr r).

(** The payload length recorded for slot [i]. *)
Definition slot_len (i : Z) (r : Region) : Z :=
  if i =? 0 then len0 (hdr r) else len1 (hdr r).

(** The bytes at the writer's [buffer_[i]]; nothing is modelled outside
    the two slots. *)
Definition buffer_at (i : Z) (r : Region) : list byte :=
  if i =? 0 then buffer0 r
  else if i =? 1 then buffer1 r
  else [].

(** Reading [n] bytes through a pointer into the mapping. A pointer is the
    byte offset [p] from the start of the mapping, at or after the end of
    the header. The two payload areas follow the header one after the
    other, [buffer0] first, so that the writer's [buffer_[1]] is where
    [buffer0] ends; what follows them in the mapping is never written and
    reads as zero. The mapping ends with the last page of the object; a
    read that runs past it is a fault of the process, which is not
    represented: the model has zero bytes there as well. *)
Definition read_bytes (p n : Z) (r : Region) : list byte :=
  take (Z.to_nat n)
    (drop (Z.to_nat (p - sizeof_Header)) (buffer0 r ++ buffer1 r)
     ++ replicate (Z.to_nat n) Byte.x00).



Module Writer.

Record t : Type := {
  name_ : string;
  max_size_ : Z;
  use_huge_pages_ : bool;
  initialized_ : bool;
  huge_pages_active_ : bool;
  fd_ : option nat;      (* -1 is [None] *)
  ptr_ : option nat;     (* the mapped object; [header_] and [buffer_] point into it *)
  shm_size_ : Z;
  frame_count_ : Z
}.

(** [Writer::Writer] *)
Definition new (name : string) (max_size : Z) (use_huge_pages : bool) : t :=
  {| name_ := name; max_size_ := max_size; use_huge_pages_ := use_huge_pages;
     initialized_ := false; huge_pages_active_ := false;
     fd_ := None; ptr_ := None; shm_size_ := 0; frame_count_ := 0 |}.

Definition set_frame_count (v : Z) (w : t) : t :=
  {| name_ := name_ w; max_size_ := max_size_ w; use_huge_pages_ := use_huge_pages_ w;
     initialized_ := initialized_ w; huge_pages_active_ := huge_pages_active_ w;
     fd_ := fd_ w; ptr_ := ptr_ w; shm_size_ := shm_size_ w; frame_count_ := v |}.

(** The header and slots as [Writer::init] leaves them: zeroed by
    [memset], then the static fields and the heartbeat. *)
Definition init_region (w : t) (huge : bool) (buffer_size now : Z) : Region :=
  {| hdr := {| magic := MAGIC; version := VERSION; capacity := max_size_ w;
               buffer_offset := sizeof_Header;
               flags := if huge then 1 else 0; reserved := 0;
               front_idx := 0;
               seq0 := 0; ts0 := 0; len0 := 0;
               seq1 := 0; ts1 := 0; len1 := 0;
               heartbeat_ns := now; total_writes := 0; total_bytes := 0 |};
     buffer0 := replicate (Z.to_nat buffer_size) Byte.x00;
     buffer1 := replicate (Z.to_nat buffer_size) Byte.x00 |}.

(** [Writer::init]. The failure paths keep the stale descriptor in [fd_],
    as the source does. *)
Definition init (w : t) (sys : SysCalls) (now : Z) (s : Shm.fs Region)
  : bool * t * Shm.fs Region :=
  if initialized_ w then (true, w, s) else
  let buffer_size := alignUp (max_size_ w) CACHE_LINE in
  let shm_size := wrap64 (sizeof_Header + buffer_size * 2) in
  let shm_size :=
    if use_huge_pages_ w && (HUGE_PAGE <=? shm_size)
    then alignUp shm_size HUGE_PAGE else shm_size in
  let s1 := Shm.shm_unlink (name_ w) s in
  match Shm.shm_open_creat (shm_open_ok sys) true (name_ w) s1 with
  | (None, s2) =>
      (false,
       {| name_ := name_ w; max_size_ := max_size_ w;
          use_huge_pages_ := use_huge_pages_ w; initialized_ := false;
          huge_pages_active_ := huge_pages_active_ w;
          fd_ := None; ptr_ := ptr_ w; shm_size_ := shm_size;
          frame_count_ := frame_count_ w |}, s2)
  | (Some id, s2) =>
      if negb (ftruncate_ok sys) then
        (false,
         {| name_ := name_ w; max_size_ := max_size_ w;
            use_huge_pages_ := use_huge_pages_ w; initialized_ := false;
            huge_pages_active_ := huge_pages_active_ w;
            fd_ := Some id; ptr_ := ptr_ w; shm_size_ := shm_size;
            frame_count_ := frame_count_ w |},
         Shm.shm_unlink (name_ w) s2)
      else
        let try_huge := use_huge_pages_ w && (HUGE_PAGE <=? shm_size) in
        (* [ptr_] after the huge-page attempt; [None] is nullptr or MAP_FAILED *)
        let ptr1 := if try_huge
                    then (if mmap_hugetlb_ok sys then Some id else None)
                    else ptr_ w in
        let huge1 := if try_huge && mmap_hugetlb_ok sys then true
                     else huge_pages_active_ w in
        match ptr1 with
        | None =>
            if negb (mmap_ok sys) then
              (false,
               {| name_ := name_ w; max_size_ := max_size_ w;
                  use_huge_pages_ := use_huge_pages_ w; initialized_ := false;
                  huge_pages_active_ := huge1;
                  fd_ := Some id; ptr_ := None; shm_size_ := shm_size;
                  frame_count_ := frame_count_ w |},
               Shm.shm_unlink (name_ w) s2)
            else
              (true,
               {| name_ := name_ w; max_size_ := max_size_ w;
                  use_huge_pages_ := use_huge_pages_ w; initialized_ := true;
                  huge_pages_active_ := false;
                  fd_ := Some id; ptr_ := Some id; shm_size_ := shm_size;
                  frame_count_ := frame_count_ w |},
               Shm.store id (init_region w false buffer_size now) s2)
        | Some p =>
            (true,
             {| name_ := name_ w; max_size_ := max_size_ w;
                use_huge_pages_ := use_huge_pages_ w; initialized_ := true;
                huge_pages_active_ := huge1;
                fd_ := Some id; ptr_ := Some p; shm_size_ := shm_size;
                frame_count_ := frame_count_ w |},
             Shm.store p (init_region w huge1 buffer_size now) s2)
        end
  end.

(** The buffer pointers [Writer::init] sets, as byte offsets from the
    start of the mapping. *)
Definition buffer_ (w : t) (i : Z) : Z :=
  let buffer_size := alignUp (max_size_ w) CACHE_LINE in
  let base := sizeof_Header in
  if i =? 0 then base else base + buffer_size.

(** [Writer::write] on the mapped region. *)
Definition write (w : t) (r : Region) (data : list byte) (size now : Z)
  : bool * t * Region :=
  if negb (initialized_ w) || (max_size_ w <? size) then (false, w, r) else
  let front := front_idx (hdr r) in
  let back := wrap32 (1 - front) in
  let r1 := copy_payload back data size r in
  let fc := wrap64 (frame_count_ w + 1) in
  let h1 := if back =? 0 then store_slot0 size now fc (hdr r1)
            else store_slot1 size now fc (hdr r1) in
  let h2 := store_heartbeat_ns now h1 in
  let h3 := store_front_idx back h2 in
  (true, set_frame_count fc w, with_hdr h3 r1).

(** [Writer::getWriteBuffer]: the index of the back slot. *)
Definition getWriteBuffer (w : t) (r : Region) : option Z :=
  if negb (initialized_ w) then None
  else Some (wrap32 (1 - front_idx (hdr r))).

(** [Writer::commit] *)
Definition commit (w : t) (r : Region) (size now : Z)
  : bool * t * Region :=
  if negb (initialized_ w) || (max_size_ w <? size) then (false, w, r) else
  let front := front_idx (hdr r) in
  let back := wrap32 (1 - front) in
  let fc := wrap64 (frame_count_ w + 1) in
  let h1 := if back =? 0 then store_slot0 size now fc (hdr r)
            else store_slot1 size now fc (hdr r) in
  let h2 := store_heartbeat_ns now h1 in
  let h3 := fetch_add_totals size h2 in
  let h4 := store_front_idx back h3 in
  (true, set_frame_count fc w, with_hdr h4 r).

(** [Writer::destroy] *)
Definition destroy (w : t) (s : Shm.fs Region) : t * Shm.fs Region :=
  ({| name_ := name_ w; max_size_ := max_size_ w;
      use_huge_pages_ := use_huge_pages_ w; initialized_ := false;
      huge_pages_active_ := huge_pages_active_ w;
      fd_ := None; ptr_ := None; shm_size_ := shm_size_ w;
      frame_count_ := frame_count_ w |},
   match fd_ w with
   | Some _ => Shm.shm_unlink (name_ w) s
   | None => s
   end).

(** *** Runs of a writer

    A publish operation of the writer's interface, and the states a
    sequence of them goes through. *)
Inductive publish_op : Type :=
  | OpWrite (data : list byte) (size now : Z)
  | OpCommit (size now : Z).

Definition op_size (op : publish_op) : Z :=
  match op with
  | OpWrite _ size _ => size
  | OpCommit size _ => size
  end.

(** The value of [nowNs()] the operation reads. *)
Definition op_now (op : publish_op) : Z :=
  match op with
  | OpWrite _ _ now => now
  | OpCommit _ now => now
  end.

Definition publish (op : publish_op) (st : t * Region) : bool * t * Region :=
  match op with
  | OpWrite data size now => write (fst st) (snd st) data size now
  | OpCommit size now => commit (fst st) (snd st) size now
  end.

(** The states after each operation of [ops], in order. *)
Fixpoint run (ops : list publish_op) (st : t * Region) : list (t * Region) :=
  match ops with
  | [] => []
  | op :: rest =>
      let '(_, w', r') := publish op st in
      (w', r') :: run rest (w', r')
  end.

End Writer.

Module Reader.

Record t : Type := {
  name_ : string;
  max_size_ : Z;
  initialized_ : bool;
  fd_ : option nat;
  ptr_ : option nat;
  last_seq_ : Z;
  dropped_ : Z
}.

(** [Reader::Reader] *)
Definition new (name : string) (max_size : Z) : t :=
  {| name_ := name; max_size_ := max_size; initialized_ := false;
     fd_ := None; ptr_ := None; last_seq_ := 0; dropped_ := 0 |}.

(** [Reader::init]. An object that exists but was never sized has no
    content to map: [fstat] reports size 0 and [mmap] fails. *)
Definition init (rd : t) (sys : SysCalls) (s : Shm.fs Region)
  : bool * t :=
  if initialized_ rd then (true, rd) else
  match Shm.shm_open (name_ rd) s with
  | None => (false, rd)
  | Some id =>
      match (if mmap_ok sys then Shm.objs s !! id else None) with
      | None => (false, rd)
      | Some r =>
          if negb (magic (hdr r) =? MAGIC) then (false, rd)
          else (true,
                {| name_ := name_ rd; max_size_ := max_size_ rd;
                   initialized_ := true; fd_ := Some id; ptr_ := Some id;
                   last_seq_ := last_seq_ rd; dropped_ := dropped_ rd |})
      end
  end.

(** The buffer pointers [Reader::init] sets, as byte offsets from the
    start of the mapping; the size is computed from the reader's own
    maximum size. *)
Definition buffer_ (rd : t) (i : Z) : Z :=
  let buffer_size := alignUp (max_size_ rd) CACHE_LINE in
  let base := sizeof_Header in
  if i =? 0 then base else base + buffer_size.

(** [Reader::getLatest]. [size] and [timestamp_ns] are the current values
    of the two reference parameters; the result carries their values on
    return. The returned pointer is the reader's own [buffer_[front]], as
    a byte offset from the start of the mapping. *)
Definition getLatest (rd : t) (r : Region) (size timestamp_ns : Z)
  : option Z * t * Z * Z :=
  if negb (initialized_ rd) then (None, rd, size, timestamp_ns) else
  let front := front_idx (hdr r) in
  let seq := if front =? 0 then seq0 (hdr r) else seq1 (hdr r) in
  let len := if front =? 0 then len0 (hdr r) else len1 (hdr r) in
  let ts := if front =? 0 then ts0 (hdr r) else ts1 (hdr r) in
  if seq =? last_seq_ rd then (None, rd, size, timestamp_ns) else
  let dropped :=
    if (0 <? last_seq_ rd) && (wrap64 (last_seq_ rd + 1) <? seq)
    then wrap64 (dropped_ rd + wrap64 (seq - last_seq_ rd - 1))
    else dropped_ rd in
  (Some (buffer_ rd front),
   {| name_ := name_ rd; max_size_ := max_size_ rd;
      initialized_ := initialized_ rd; fd_ := fd_ rd; ptr_ := ptr_ rd;
      last_seq_ := seq; dropped_ := dropped |},
   len, ts).

(** [Reader::isWriterAlive]; [now] is the value of [nowNs()]. The
    division of the two [int64_t] values truncates toward zero. *)
Definition isWriterAlive (rd : t) (r : Region) (now timeout_ms : Z) : bool :=
  if negb (initialized_ rd) then false
  else
    let hb := heartbeat_ns (hdr r) in
    let diff_ms := Z.quot (now - hb) 1000000 in
    diff_ms <? timeout_ms.

(** Successive calls of [getLatest] by one reader, each against the region
    as it is at the time of the call: the number of calls that returned a
    frame, and the final reader. *)
Fixpoint getLatest_all (rs : list Region) (rd : t) : nat * t :=
  match rs with
  | [] => (0%nat, rd)
  | r :: rest =>
      let '(p, rd1, _, _) := getLatest rd r 0 0 in
      let '(n, rd2) := getLatest_all rest rd1 in
      (match p with Some _ => S n | None => n end, rd2)
  end.

(** The front sequence numbers of the regions [rs], met in this order, never
    go down, starting from [l], and stay within 64 bits: the states one
    writer's region goes through. *)
Fixpoint nondecreasing_from (l : Z) (rs : list Region) : Prop :=
  match rs with
  | [] => True
  | r :: rest => l <= front_seq r < 2 ^ 64 /\ nondecreasing_from (front_seq r) rest
  end.

End Reader.

End BARQ.

(** ** Double-buffer engine, cache-tuned tier (casir.hpp / casir.cpp) *)

Module CASIR.

Definition CASIR_MAGIC : Z := 0x43415352.
Definition CASIR_VERSION : Z := 0x00010000.
Definition sizeof_Header : Z := 6 * SIM.CACHE_LINE_SIZE.

(** The header has one length field, [published_length], in the writer
    state line; the per-buffer lines hold frame number, timestamp and
    checksum. *)
Record Header : Type := {
  magic : Z;
  version : Z;
  capacity : Z;
  huge_page_size : Z;
  flags : Z;
  front_idx : Z;
  frame0 : Z;
  timestamp0_ns : Z;
  checksum0 : Z;
  frame1 : Z;
  timestamp1_ns : Z;
  checksum1 : Z;
  published_length : Z;
  writer_heartbeat_ns : Z;
  checksum_enabled : bool;
  total_writes : Z;
  total_bytes : Z
}.

Record Region : Type := {
  hdr : Header;
  buffer0 : list byte;
  buffer1 : list byte
}.

Definition store_front_idx (v : Z) (h : Header) : Header :=
  {| magic := magic h; version := version h; capacity := capacity h;
     huge_page_size := huge_page_size h; flags := flags h;
     front_idx := v;
     frame0 := frame0 h; timestamp0_ns := timestamp0_ns h; checksum0 := checksum0 h;
     frame1 := frame1 h; timestamp1_ns := timestamp1_ns h; checksum1 := checksum1 h;
     published_length := published_length h;
     writer_heartbeat_ns := writer_heartbeat_ns h;
     checksum_enabled := checksum_enabled h;
     total_writes := total_writes h; total_bytes := total_bytes h |}.

Definition store_frame0 (frame ts : Z) (h : Header) : Header :=
  {| magic := magic h; version := version h; capacity := capacity h;
     huge_page_size := huge_page_size h; flags := flags h;
     front_idx := front_idx h;
     frame0 := frame; timestamp0_ns := ts; checksum0 := checksum0 h;
     frame1 := frame1 h; timestamp1_ns := timestamp1_ns h; checksum1 := checksum1 h;
     published_length := published_length h;
     writer_heartbeat_ns := writer_heartbeat_ns h;
     checksum_enabled := checksum_enabled h;
     total_writes := total_writes h; total_bytes := total_bytes h |}.

Definition store_frame1 (frame ts : Z) (h : Header) : Header :=
  {| magic := magic h; version := version h; capacity := capacity h;
     huge_page_size := huge_page_size h; flags := flags h;
     front_idx := front_idx h;
     frame0 := frame0 h; timestamp0_ns := timestamp0_ns h; checksum0 := checksum0 h;
     frame1 := frame; timestamp1_ns := ts; checksum1 := checksum1 h;
     published_length := published_length h;
     writer_heartbeat_ns := writer_heartbeat_ns h;
     checksum_enabled := checksum_enabled h;
     total_writes := total_writes h; total_bytes := total_bytes h |}.

(** [published_length.store(size)] then [writer_heartbeat_ns.store(now)]. *)
Definition store_length_heartbeat (size now : Z) (h : Header) : Header :=
  {| magic := magic h; version := version h; capacity := capacity h;
     huge_page_size := huge_page_size h; flags := flags h;
     front_idx := front_idx h;
     frame0 := frame0 h; timestamp0_ns := timestamp0_ns h; checksum0 := checksum0 h;
     frame1 := frame1 h; timestamp1_ns := timestamp1_ns h; checksum1 := checksum1 h;
     published_length := size;
     writer_heartbeat_ns := now;
     checksum_enabled := checksum_enabled h;
     total_writes := total_writes h; total_bytes := total_bytes h |}.

(** [total_writes.fetch_add(1)] then [total_bytes.fetch_add(size)]. *)
Definition fetch_add_totals (size : Z) (h : Header) : Header :=
  {| magic := magic h; version := version h; capacity := capacity h;
     huge_page_size := huge_page_size h; flags := flags h;
     front_idx := front_idx h;
     frame0 := frame0 h; timestamp0_ns := timestamp0_ns h; checksum0 := checksum0 h;
     frame1 := frame1 h; timestamp1_ns := timestamp1_ns h; checksum1 := checksum1 h;
     published_length := published_length h;
     writer_heartbeat_ns := writer_heartbeat_ns h;
     checksum_enabled := checksum_enabled h;
     total_writes := wrap64 (total_writes h + 1);
     total_bytes := wrap64 (total_bytes h + size) |}.

Definition with_hdr (h : Header) (r : Region) : Region :=
  {| hdr := h; buffer0 := buffer0 r; buffer1 := buffer1 r |}.

(** Applying [f] to the payload area [buffer_[back]]; an index other than
    0 or 1 is outside the pointer array and changes no slot. *)
Definition update_buffer (back : Z) (f : list byte -> list byte) (r : Region) : Region :=
  if back =? 0 then {| hdr := hdr r; buffer0 := f (buffer0 r); buffer1 := buffer1 r |}
  else if back =? 1 then {| hdr := hdr r; buffer0 := buffer0 r; buffer1 := f (buffer1 r) |}
  else r.

(** The bytes at the writer's [buffer_[front]]; nothing is modelled
    outside the two slots. *)
Definition buffer_at (front : Z) (r : Region) : list byte :=
  if front =? 0 then buffer0 r
  else if front =? 1 then buffer1 r
  else [].

(** Reading [n] bytes through a pointer into the mapping. A pointer is the
    byte offset [p] from the start of the mapping, at or after the end of
    the header. The two payload areas follow the header one after the
    other, [buffer0] first, so that the writer's [buffer_[1]] is where
    [buffer0] ends; what follows them in the mapping is never written and
    reads as zero. The mapping ends with the last page of the object; a
    read that runs past it is a fault of the process, which is not
    represented: the model has zero bytes there as well. *)
Definition read_bytes (p n : Z) (r : Region) : list byte :=
  take (Z.to_nat n)
    (drop (Z.to_nat (p - sizeof_Header)) (buffer0 r ++ buffer1 r)
     ++ replicate (Z.to_nat n) Byte.x00).

(** The frame number of the slot the front index selects. *)
Definition front_frame (r : Region) : Z :=
  if front_idx (hdr r) =? 0 then frame0 (hdr r) else frame1 (hdr r).

(** The frame number and timestamp recorded for slot [i]. *)
Definition slot_frame (i : Z) (r : Region) : Z :=
  if i =? 0 then frame0 (hdr r) else frame1 (hdr r).

Definition slot_timestamp (i : Z) (r : Region) : Z :=
  if i =? 0 then timestamp0_ns (hdr r) else timestamp1_ns (hdr r).

Module Writer.

Record t : Type := {
  shm_name_ : string;
  max_size_ : Z;
  config_ : SIM.SiCConfig;
  is_initialized_ : bool;
  shm_fd_ : option nat;
  shm_ptr_ : option nat;   (* [header_] and [buffer_] point into this object *)
  shm_size_ : Z;
  using_huge_pages_ : bool;
  frame_count_ : Z;
  cache_info_ : SIM.CacheInfo
}.

(** [Writer::Writer]; [detected] is the result of [detectCacheInfo]. *)
Definition new (shm_name : string) (max_size : Z) (config : SIM.SiCConfig)
    (detected : SIM.CacheInfo) : t :=
  {| shm_name_ := shm_name; max_size_ := max_size;
     config_ := if SIM.prefetch_distance config =? 0
                then SIM.set_prefetch_distance
                       (SIM.optimal_prefetch_distance detected) config
                else config;
     is_initialized_ := false; shm_fd_ := None; shm_ptr_ := None;
     shm_size_ := 0; using_huge_pages_ := false; frame_count_ := 0;
     cache_info_ := detected |}.

Definition set_frame_count (v : Z) (w : t) : t :=
  {| shm_name_ := shm_name_ w; max_size_ := max_size_ w; config_ := config_ w;
     is_initialized_ := is_initialized_ w; shm_fd_ := shm_fd_ w;
     shm_ptr_ := shm_ptr_ w; shm_size_ := shm_size_ w;
     using_huge_pages_ := using_huge_pages_ w; frame_count_ := v;
     cache_info_ := cache_info_ w |}.

(** The fields [init] and [allocateMemory] assign. *)
Definition set_mapping (init_ok : bool) (fd ptr : option nat) (size : Z)
    (huge : bool) (w : t) : t :=
  {| shm_name_ := shm_name_ w; max_size_ := max_size_ w; config_ := config_ w;
     is_initialized_ := init_ok; shm_fd_ := fd;
     shm_ptr_ := ptr; shm_size_ := size;
     using_huge_pages_ := huge; frame_count_ := frame_count_ w;
     cache_info_ := cache_info_ w |}.

(** [Writer::allocateMemory]: success, the mapping and the huge-page
    flag. [hp] is what [detectHugePages] reads. *)
Definition allocateMemory (w : t) (sys : SysCalls) (hp : SIM.HugePagesInfo)
    (id : nat) : bool * option nat * bool :=
  if SIM.use_huge_pages (config_ w) && SIM.usable hp && mmap_hugetlb_ok sys
  then (true, Some id, true)
  else if negb (mmap_ok sys) then (false, None, using_huge_pages_ w)
  else (true, Some id, false).

(** The region as [Writer::init] leaves it: zeroed by [memset], then the
    static fields. *)
Definition init_region (w : t) (huge : bool) (aligned_buffer : Z) : Region :=
  {| hdr := {| magic := CASIR_MAGIC; version := CASIR_VERSION;
               capacity := max_size_ w;
               huge_page_size := if huge then SIM.HUGE_PAGE_SIZE else 0;
               flags := if huge then 1 else 0;
               front_idx := 0;
               frame0 := 0; timestamp0_ns := 0; checksum0 := 0;
               frame1 := 0; timestamp1_ns := 0; checksum1 := 0;
               published_length := 0; writer_heartbeat_ns := 0;
               checksum_enabled := false;
               total_writes := 0; total_bytes := 0 |};
     buffer0 := replicate (Z.to_nat aligned_buffer) Byte.x00;
     buffer1 := replicate (Z.to_nat aligned_buffer) Byte.x00 |}.

(** [Writer::init] *)
Definition init (w : t) (sys : SysCalls) (hp : SIM.HugePagesInfo)
    (s : Shm.fs Region) : bool * t * Shm.fs Region :=
  if is_initialized_ w then (true, w, s) else
  let aligned_buffer := SIM.alignToCacheLine (max_size_ w) in
  let shm_size := wrap64 (sizeof_Header + aligned_buffer * 2) in
  let shm_size :=
    if SIM.use_huge_pages (config_ w) && SIM.shouldUseHugePages hp shm_size
    then SIM.alignToHugePage shm_size else shm_size in
  let s1 := Shm.shm_unlink (shm_name_ w) s in
  match Shm.shm_open_creat (shm_open_ok sys) true (shm_name_ w) s1 with
  | (None, s2) =>
      (false, set_mapping false None (shm_ptr_ w) shm_size (using_huge_pages_ w) w, s2)
  | (Some id, s2) =>
      if negb (ftruncate_ok sys) then
        (false,
         set_mapping false (Some id) (shm_ptr_ w) shm_size (using_huge_pages_ w) w,
         Shm.shm_unlink (shm_name_ w) s2)
      else
        match allocateMemory w sys hp id with
        | (false, ptr, huge) =>
            (false, set_mapping false (Some id) ptr shm_size huge w,
             Shm.shm_unlink (shm_name_ w) s2)
        | (true, ptr, huge) =>
            (true, set_mapping true (Some id) ptr shm_size huge w,
             Shm.store id (init_region w huge aligned_buffer) s2)
        end
  end.

(** The buffer pointers [Writer::init] sets, as byte offsets from the
    start of the mapping. *)
Definition buffer_ (w : t) (i : Z) : Z :=
  let aligned_buffer_size := SIM.alignToCacheLine (max_size_ w) in
  let base := sizeof_Header in
  if i =? 0 then base else base + aligned_buffer_size.

(** The metadata stores shared by the three publish operations:
    [frame0/1], [timestamp0/1_ns], [published_length],
    [writer_heartbeat_ns]. *)
Definition store_meta (back fc size now : Z) (h : Header) : Header :=
  let h1 := if back =? 0 then store_frame0 fc now h else store_frame1 fc now h in
  store_length_heartbeat size now h1.

(** [Writer::write] *)
Definition write (w : t) (r : Region) (data : list byte) (size now : Z)
  : bool * t * Region :=
  if negb (is_initialized_ w) || (max_size_ w <? size) then (false, w, r) else
  let front := front_idx (hdr r) in
  let back := wrap32 (1 - front) in
  let r1 := update_buffer back (fun dst => memcpy dst data size) r in
  let fc := wrap64 (frame_count_ w + 1) in
  let h2 := store_meta back fc size now (hdr r1) in
  let h3 := store_front_idx back h2 in
  (true, set_frame_count fc w, with_hdr h3 r1).

(** [Writer::writeZeroCopy]; [fill_func] acts on the back buffer. *)
Definition writeZeroCopy (w : t) (r : Region)
    (fill_func : list byte -> list byte) (size now : Z) : bool * t * Region :=
  if negb (is_initialized_ w) || (max_size_ w <? size) then (false, w, r) else
  let front := front_idx (hdr r) in
  let back := wrap32 (1 - front) in
  let r1 := update_buffer back fill_func r in
  let fc := wrap64 (frame_count_ w + 1) in
  let h2 := store_meta back fc size now (hdr r1) in
  let h3 := store_front_idx back h2 in
  let h4 := fetch_add_totals size h3 in
  (true, set_frame_count fc w, with_hdr h4 r1).

(** [Writer::getWriteBuffer] *)
Definition getWriteBuffer (w : t) (r : Region) : option Z :=
  if negb (is_initialized_ w) then None
  else Some (wrap32 (1 - front_idx (hdr r))).

(** [Writer::commitWrite] *)
Definition commitWrite (w : t) (r : Region) (size now : Z) : bool * t * Region :=
  if negb (is_initialized_ w) || (max_size_ w <? size) then (false, w, r) else
  let front := front_idx (hdr r) in
  let back := wrap32 (1 - front) in
  let fc := wrap64 (frame_count_ w + 1) in
  let h2 := store_meta back fc size now (hdr r) in
  let h3 := store_front_idx back h2 in
  let h4 := fetch_add_totals size h3 in
  (true, set_frame_count fc w, with_hdr h4 r).

(** [Writer::getStats]. [header_] is set by a successful [init] and
    cleared by [destroy]: it is non-null exactly on an initialised
    writer, where it points to the header of [r]. *)
Definition getStats (w : t) (r : Region) : SIM.SiCStats :=
  let header_ := if is_initialized_ w then Some (hdr r) else None in
  {| SIM.huge_pages_active := using_huge_pages_ w;
     SIM.prefetch_active := SIM.enable_prefetch (config_ w);
     SIM.numa_node := 0;
     SIM.pinned_cpu := SIM.cpu_affinity (config_ w);
     SIM.cache_info := cache_info_ w;
     SIM.total_writes := match header_ with Some h => total_writes h | None => 0 end;
     SIM.total_reads := 0;
     SIM.bytes_transferred := match header_ with Some h => total_bytes h | None => 0 end |}.

(** [Writer::destroy] *)
Definition destroy (w : t) (s : Shm.fs Region) : t * Shm.fs Region :=
  (set_mapping false None None (shm_size_ w) (using_huge_pages_ w) w,
   match shm_fd_ w with
   | Some _ => if String.eqb (shm_name_ w) "" then s
               else Shm.shm_unlink (shm_name_ w) s
   | None => s
   end).

(** *** Runs of a writer *)
Inductive publish_op : Type :=
  | OpWrite (data : list byte) (size now : Z)
  | OpWriteZeroCopy (fill_func : list byte -> list byte) (size now : Z)
  | OpCommitWrite (size now : Z).

Definition op_size (op : publish_op) : Z :=
  match op with
  | OpWrite _ size _ => size
  | OpWriteZeroCopy _ size _ => size
  | OpCommitWrite size _ => size
  end.

(** The value of [getCurrentTimestampNs()] the operation reads. *)
Definition op_now (op : publish_op) : Z :=
  match op with
  | OpWrite _ _ now => now
  | OpWriteZeroCopy _ _ now => now
  | OpCommitWrite _ now => now
  end.

(** The operations that go through the statistics counters. *)
Definition counted (op : publish_op) : bool :=
  match op with
  | OpWrite _ _ _ => false
  | OpWriteZeroCopy _ _ _ => true
  | OpCommitWrite _ _ => true
  end.

Definition publish (op : publish_op) (st : t * Region) : bool * t * Region :=
  match op with
  | OpWrite data size now => write (fst st) (snd st) data size now
  | OpWriteZeroCopy fill_func size now =>
      writeZeroCopy (fst st) (snd st) fill_func size now
  | OpCommitWrite size now => commitWrite (fst st) (snd st) size now
  end.

(** The states after each operation of [ops], in order. *)
Fixpoint run (ops : list publish_op) (st : t * Region) : list (t * Region) :=
  match ops with
  | [] => []
  | op :: rest =>
      let '(_, w', r') := publish op st in
      (w', r') :: run rest (w', r')
  end.

End Writer.

Module Reader.

Record t : Type := {
  shm_name_ : string;
  max_size_ : Z;
  config_ : SIM.SiCConfig;
  is_initialized_ : bool;
  shm_fd_ : option nat;
  shm_ptr_ : option nat;
  using_huge_pages_ : bool;
  last_frame_ : Z;
  last_timestamp_ns_ : Z;
  dropped_frames_ : Z;
  last_checksum_valid_ : bool;
  zero_copy_active_ : bool;
  cache_info_ : SIM.CacheInfo
}.

(** [Reader::Reader] *)
Definition new (shm_name : string) (max_size : Z) (config : SIM.SiCConfig)
    (detected : SIM.CacheInfo) : t :=
  {| shm_name_ := shm_name; max_size_ := max_size;
     config_ := if SIM.prefetch_distance config =? 0
                then SIM.set_prefetch_distance
                       (SIM.optimal_prefetch_distance detected) config
                else config;
     is_initialized_ := false; shm_fd_ := None; shm_ptr_ := None;
     using_huge_pages_ := false;
     last_frame_ := 0; last_timestamp_ns_ := 0; dropped_frames_ := 0;
     last_checksum_valid_ := true; zero_copy_active_ := false;
     cache_info_ := detected |}.

Definition set_mapping (init_ok : bool) (fd ptr : option nat) (huge : bool)
    (rd : t) : t :=
  {| shm_name_ := shm_name_ rd; max_size_ := max_size_ rd; config_ := config_ rd;
     is_initialized_ := init_ok; shm_fd_ := fd; shm_ptr_ := ptr;
     using_huge_pages_ := huge;
     last_frame_ := last_frame_ rd; last_timestamp_ns_ := last_timestamp_ns_ rd;
     dropped_frames_ := dropped_frames_ rd;
     last_checksum_valid_ := last_checksum_valid_ rd;
     zero_copy_active_ := zero_copy_active_ rd;
     cache_info_ := cache_info_ rd |}.

(** The cursor fields [read] and [readZeroCopy] assign. *)
Definition set_cursor (frame ts dropped : Z) (zc : bool) (rd : t) : t :=
  {| shm_name_ := shm_name_ rd; max_size_ := max_size_ rd; config_ := config_ rd;
     is_initialized_ := is_initialized_ rd; shm_fd_ := shm_fd_ rd;
     shm_ptr_ := shm_ptr_ rd; using_huge_pages_ := using_huge_pages_ rd;
     last_frame_ := frame; last_timestamp_ns_ := ts;
     dropped_frames_ := dropped;
     last_checksum_valid_ := last_checksum_valid_ rd;
     zero_copy_active_ := zc;
     cache_info_ := cache_info_ rd |}.

(** [Reader::init]. An object that was never sized has nothing to map. *)
Definition init (rd : t) (sys : SysCalls) (s : Shm.fs Region) : bool * t :=
  if is_initialized_ rd then (true, rd) else
  match Shm.shm_open (shm_name_ rd) s with
  | None => (false, set_mapping false None (shm_ptr_ rd) (using_huge_pages_ rd) rd)
  | Some id =>
      let try_huge := SIM.use_huge_pages (config_ rd) && mmap_hugetlb_ok sys in
      let ptr1 := if try_huge then Some id else shm_ptr_ rd in
      let huge1 := if try_huge then true else using_huge_pages_ rd in
      let mapped :=
        match ptr1 with
        | Some p => Some (p, huge1)
        | None => if mmap_ok sys then Some (id, false) else None
        end in
      match mapped with
      | None => (false, set_mapping false None None huge1 rd)
      | Some (p, huge) =>
          match Shm.objs s !! p with
          | None => (false, set_mapping false None None huge rd)
          | Some r =>
              if negb (magic (hdr r) =? CASIR_MAGIC)
              then (false, set_mapping false None None huge rd)
              else (true, set_mapping true (Some id) (Some p) huge rd)
          end
      end
  end.

(** The buffer pointers [Reader::init] sets, as byte offsets from the
    start of the mapping; the size is computed from the reader's own
    maximum size. *)
Definition buffer_ (rd : t) (i : Z) : Z :=
  let aligned_buffer_size := SIM.alignToCacheLine (max_size_ rd) in
  let base := sizeof_Header in
  if i =? 0 then base else base + aligned_buffer_size.

(** [Reader::read]. [data] is the caller's buffer and [size] the current
    value of the reference parameter; both are returned. The bytes are
    copied from the reader's own [buffer_[front]]. *)
Definition read (rd : t) (r : Region) (data : list byte) (size : Z)
  : bool * t * list byte * Z :=
  if negb (is_initialized_ rd) then (false, rd, data, size) else
  let front := front_idx (hdr r) in
  let current_frame := if front =? 0 then frame0 (hdr r) else frame1 (hdr r) in
  if current_frame =? last_frame_ rd then (false, rd, data, size) else
  let dropped :=
    if (0 <? last_frame_ rd) && (wrap64 (last_frame_ rd + 1) <? current_frame)
    then wrap64 (dropped_frames_ rd + wrap64 (current_frame - last_frame_ rd - 1))
    else dropped_frames_ rd in
  let rd1 := set_cursor (last_frame_ rd) (last_timestamp_ns_ rd) dropped
               (zero_copy_active_ rd) rd in
  let data_size := published_length (hdr r) in
  if max_size_ rd <? data_size then (false, rd1, data, size) else
  let data' := memcpy data (read_bytes (buffer_ rd front) data_size r) data_size in
  let ts := if front =? 0 then timestamp0_ns (hdr r) else timestamp1_ns (hdr r) in
  (true, set_cursor current_frame ts dropped (zero_copy_active_ rd) rd1,
   data', data_size).

(** [Reader::readZeroCopy]: the returned pointer is the reader's own
    [buffer_[front]], as a byte offset from the start of the mapping. *)
Definition readZeroCopy (rd : t) (r : Region) (size : Z) : option Z * t * Z :=
  if negb (is_initialized_ rd) || zero_copy_active_ rd then (None, rd, size) else
  let front := front_idx (hdr r) in
  let current_frame := if front =? 0 then frame0 (hdr r) else frame1 (hdr r) in
  if current_frame =? last_frame_ rd then (None, rd, size) else
  let ts := if front =? 0 then timestamp0_ns (hdr r) else timestamp1_ns (hdr r) in
  (Some (buffer_ rd front), set_cursor current_frame ts (dropped_frames_ rd) true rd,
   published_length (hdr r)).

(** [Reader::releaseZeroCopy] *)
Definition releaseZeroCopy (rd : t) : t :=
  set_cursor (last_frame_ rd) (last_timestamp_ns_ rd) (dropped_frames_ rd) false rd.

(** Successive calls of [read] by one reader, each against the region as
    it is at the time of the call; the results in order, and the final
    reader, caller buffer and size. *)
Fixpoint read_all (rs : list Region) (rd : t) (data : list byte) (size : Z)
  : list bool * t * list byte * Z :=
  match rs with
  | [] => ([], rd, data, size)
  | r :: rest =>
      let '(ok, rd1, data1, size1) := read rd r data size in
      let '(oks, rd2, data2, size2) := read_all rest rd1 data1 size1 in
      (ok :: oks, rd2, data2, size2)
  end.

(** [Reader::getStats], on a reader that is attached ([header_] points
    to the header of [r]) or was never attached ([header_] is null). *)
Definition getStats (rd : t) (r : Region) : SIM.SiCStats :=
  let header_ := if is_initialized_ rd then Some (hdr r) else None in
  {| SIM.huge_pages_active := using_huge_pages_ rd;
     SIM.prefetch_active := SIM.enable_prefetch (config_ rd);
     SIM.numa_node := 0;
     SIM.pinned_cpu := SIM.cpu_affinity (config_ rd);
     SIM.cache_info := cache_info_ rd;
     SIM.total_writes := match header_ with Some h => total_writes h | None => 0 end;
     SIM.total_reads := last_frame_ rd;
     SIM.bytes_transferred := match header_ with Some h => total_bytes h | None => 0 end |}.

(** [Reader::isWriterAlive] *)
Definition isWriterAlive (rd : t) (r : Region) (now timeout_ms : Z) : bool :=
  if negb (is_initialized_ rd) then false
  else
    let heartbeat := writer_heartbeat_ns (hdr r) in
    let diff_ms := Z.quot (now - heartbeat) 1000000 in
    diff_ms <? timeout_ms.

(** [Reader::readWithTimeout]. Each iteration of the loop reads the region
    as it is then and afterwards the steady clock; [obs] lists, per
    iteration, that region and the milliseconds elapsed since the call
    started. [None] when the loop is still running after the last listed
    iteration. *)
Fixpoint readWithTimeout (obs : list (Region * Z)) (rd : t) (data : list byte)
    (size timeout_ms : Z) : option (bool * t * list byte * Z) :=
  match obs with
  | [] => None
  | (r, elapsed) :: rest =>
      let '(ok, rd1, data1, size1) := read rd r data size in
      if ok then Some (true, rd1, data1, size1)
      else if timeout_ms <=? elapsed then Some (false, rd1, data1, size1)
      else readWithTimeout rest rd1 data1 size1 timeout_ms
  end.

End Reader.

End CASIR.

(** ** Ring fan-out engine (sahm.hpp / sahm.cpp) *)

Module SAHM.

Definition DIRECT_MAGIC : Z := 0xD1EC7002.
Definition MAX_READERS : nat := 16.
Definition SHM_NAME_LEN : nat := 64.
Definition DEFAULT_RING_SIZE : Z := 30.
Definition sizeof_RingSlot : Z := 64.
Definition sizeof_RingBufferHeader : Z := 64.

(** The three per-reader arrays of the directory have [MAX_READERS]
    entries each. *)
Record ControlHeader : Type := {
  magic : Z;
  version : Z;
  max_slot_size : Z;
  num_readers : Z;
  writer_heartbeat_ns : Z;
  reader_shm_names : list string;
  reader_active : list bool;
  reader_ring_sizes : list Z
}.

(** A slot record and the payload area that follows it. *)
Record RingSlot : Type := {
  sequence : Z;
  timestamp_ns : Z;
  data_size : Z;
  slot_data : list byte
}.

Record RingBufferHeader : Type := {
  rh_magic : Z;
  ring_size : Z;
  slot_data_size : Z;
  slot_total_size : Z;
  write_idx : Z;
  total_writes : Z
}.

(** The content of a shared-memory object of this engine. *)
Inductive Obj : Type :=
  | Control (h : ControlHeader)
  | Ring (rh : RingBufferHeader) (slots : list RingSlot).

Abbreviation World := (Shm.fs Obj).

(** Dereferencing a pointer to a mapped object. [None] is an access to
    memory that holds no such object: a fault of the process, or a read
    of another object's bytes through the wrong type, which the typed
    regions do not describe. *)
Definition load_control (s : World) (p : option nat) : option ControlHeader :=
  match p with
  | Some id => match Shm.objs s !! id with
               | Some (Control h) => Some h
               | _ => None
               end
  | None => None
  end.

Definition load_ring (s : World) (p : option nat)
  : option (RingBufferHeader * list RingSlot) :=
  match p with
  | Some id => match Shm.objs s !! id with
               | Some (Ring rh slots) => Some (rh, slots)
               | _ => None
               end
  | None => None
  end.

Definition store_at (p : option nat) (o : Obj) (s : World) : World :=
  match p with
  | Some id => Shm.store id o s
  | None => s
  end.

(** Array read with the element type's zero for an index outside the
    array (not reached: every loop below is bounded by [MAX_READERS]). *)
Definition at_idx {A : Type} (d : A) (l : list A) (i : nat) : A :=
  default d (l !! i).

(** Stores to the directory. *)
Definition set_heartbeat (v : Z) (h : ControlHeader) : ControlHeader :=
  {| magic := magic h; version := version h; max_slot_size := max_slot_size h;
     num_readers := num_readers h; writer_heartbeat_ns := v;
     reader_shm_names := reader_shm_names h;
     reader_active := reader_active h;
     reader_ring_sizes := reader_ring_sizes h |}.

Definition set_num_readers (v : Z) (h : ControlHeader) : ControlHeader :=
  {| magic := magic h; version := version h; max_slot_size := max_slot_size h;
     num_readers := v; writer_heartbeat_ns := writer_heartbeat_ns h;
     reader_shm_names := reader_shm_names h;
     reader_active := reader_active h;
     reader_ring_sizes := reader_ring_sizes h |}.

Definition set_active (i : nat) (v : bool) (h : ControlHeader) : ControlHeader :=
  {| magic := magic h; version := version h; max_slot_size := max_slot_size h;
     num_readers := num_readers h; writer_heartbeat_ns := writer_heartbeat_ns h;
     reader_shm_names := reader_shm_names h;
     reader_active := <[i := v]> (reader_active h);
     reader_ring_sizes := reader_ring_sizes h |}.

Definition set_name (i : nat) (v : string) (h : ControlHeader) : ControlHeader :=
  {| magic := magic h; version := version h; max_slot_size := max_slot_size h;
     num_readers := num_readers h; writer_heartbeat_ns := writer_heartbeat_ns h;
     reader_shm_names := <[i := v]> (reader_shm_names h);
     reader_active := reader_active h;
     reader_ring_sizes := reader_ring_sizes h |}.

Definition set_ring_size (i : nat) (v : Z) (h : ControlHeader) : ControlHeader :=
  {| magic := magic h; version := version h; max_slot_size := max_slot_size h;
     num_readers := num_readers h; writer_heartbeat_ns := writer_heartbeat_ns h;
     reader_shm_names := reader_shm_names h;
     reader_active := reader_active h;
     reader_ring_sizes := <[i := v]> (reader_ring_sizes h) |}.

(** The sequence number found in slot [j] of a ring of [N] slots after [m]
    publishes to the freshly initialised ring: the number of the last
    publish that landed in slot [j], or 0 when none has. *)
Definition ring_seq_after (N m j : Z) : Z :=
  if j <? m mod N then m / N * N + j + 1
  else if m / N =? 0 then 0
  else (m / N - 1) * N + j + 1.

(** The object [o] is a ring of [N] slots in the state [m] publishes to the
    freshly initialised ring lead to. *)
Definition ring_holds (N m : Z) (o : option Obj) : Prop :=
  exists rh slots,
    o = Some (Ring rh slots)
    /\ write_idx rh = m mod N /\ total_writes rh = m
    /\ length slots = Z.to_nat N
    /\ forall j, 0 <= j < N ->
         sequence <$> slots !! Z.to_nat j = Some (ring_seq_after N m j).

(** Entry 0 of the directory is the only active one. *)
Definition only_entry0_active (h : ControlHeader) : Prop :=
  forall i, at_idx false (reader_active h) i = Nat.eqb i 0.

(** The number of active entries of the directory. *)
Definition active_count (h : ControlHeader) : Z :=
  Z.of_nat (length (List.filter (fun b : bool => b) (reader_active h))).

(** The directory has its [MAX_READERS] flags and its reader count is the
    number of flags that are set. *)
Definition count_consistent (h : ControlHeader) : bool :=
  (length (reader_active h) =? MAX_READERS)%nat && (num_readers h =? active_count h).

(** A bounded [for] loop whose body may fault. *)
Fixpoint for_each {S : Type} (body : nat -> S -> option S) (idxs : list nat) (st : S)
  : option S :=
  match idxs with
  | [] => Some st
  | i :: rest =>
      match body i st with
      | Some st' => for_each body rest st'
      | None => None
      end
  end.

(** Publishing one frame into the ring mapped at [p]: the body of the
    loop of [write] ([data = Some bytes]) and of [commitSlots]
    ([data = None], nothing is copied). [rsize] is [readers_[i].ring_size].
    The slots are typed records, each with its own payload area: the copy
    is the one the source makes when the frame fits the payload area of
    the slot ([size] at most [slot_data_size] of the ring). The source
    does not compare the two; a longer frame runs on into the memory that
    follows the slot, which the typed slots do not describe. *)
Definition publish_ring (p : option nat) (rsize : Z) (data : option (list byte))
    (size timestamp : Z) (s : World) : option World :=
  match load_ring s p with
  | None => None
  | Some (rh, slots) =>
      let idx := write_idx rh in
      match slots !! Z.to_nat idx with
      | None => None
      | Some slot =>
          let seq := wrap64 (total_writes rh + 1) in
          let slot' :=
            {| sequence := seq; timestamp_ns := timestamp; data_size := size;
               slot_data := match data with
                            | Some d => memcpy (slot_data slot) d size
                            | None => slot_data slot
                            end |} in
          let next_idx := wrap32 (idx + 1) mod rsize in
          let rh' :=
            {| rh_magic := rh_magic rh; ring_size := ring_size rh;
               slot_data_size := slot_data_size rh;
               slot_total_size := slot_total_size rh;
               write_idx := next_idx; total_writes := seq |} in
          Some (store_at p (Ring rh' (<[Z.to_nat idx := slot']> slots)) s)
      end
  end.


Module DirectWriter.

Record ReaderInfo : Type := {
  fd : option nat;
  ptr : option nat;      (* [ring_header] and [slots_base] point into this object *)
  size : Z;
  ring_size : Z;
  valid : bool
}.

Definition invalid_reader : ReaderInfo :=
  {| fd := None; ptr := None; size := 0; ring_size := 0; valid := false |}.

Record t : Type := {
  channel_name_ : string;
  max_slot_size_ : Z;
  is_initialized_ : bool;
  control_fd_ : option nat;
  control_ptr_ : option nat;
  control_size_ : Z;
  header_ : option nat;
  readers_ : list ReaderInfo
}.

Definition sizeof_ControlHeader : Z := 1152.

(** [DirectWriter::DirectWriter] *)
Definition new (channel_name : string) (max_slot_size : Z) : t :=
  {| channel_name_ := channel_name; max_slot_size_ := max_slot_size;
     is_initialized_ := false; control_fd_ := None; control_ptr_ := None;
     control_size_ := sizeof_ControlHeader; header_ := None; readers_ := [] |}.

Definition set_readers (rs : list ReaderInfo) (w : t) : t :=
  {| channel_name_ := channel_name_ w; max_slot_size_ := max_slot_size_ w;
     is_initialized_ := is_initialized_ w; control_fd_ := control_fd_ w;
     control_ptr_ := control_ptr_ w; control_size_ := control_size_ w;
     header_ := header_ w; readers_ := rs |}.

Definition set_control (init_ok : bool) (cfd cptr hd : option nat)
    (rs : list ReaderInfo) (w : t) : t :=
  {| channel_name_ := channel_name_ w; max_slot_size_ := max_slot_size_ w;
     is_initialized_ := init_ok; control_fd_ := cfd;
     control_ptr_ := cptr; control_size_ := control_size_ w;
     header_ := hd; readers_ := rs |}.

(** The directory as [DirectWriter::init] leaves it. *)
Definition init_header (w : t) (now : Z) : ControlHeader :=
  {| magic := DIRECT_MAGIC; version := 2; max_slot_size := max_slot_size_ w;
     num_readers := 0; writer_heartbeat_ns := now;
     reader_shm_names := replicate MAX_READERS ""%string;
     reader_active := replicate MAX_READERS false;
     reader_ring_sizes := replicate MAX_READERS 0 |}.

(** [DirectWriter::init]. The control channel is opened with
    [O_CREAT | O_RDWR], without [O_EXCL]. *)
Definition init (w : t) (sys : SysCalls) (now : Z) (s : World)
  : bool * t * World :=
  if is_initialized_ w then (true, w, s) else
  let s1 := Shm.shm_unlink (channel_name_ w) s in
  match Shm.shm_open_creat (shm_open_ok sys) false (channel_name_ w) s1 with
  | (None, s2) =>
      (false, set_control false None (control_ptr_ w) (header_ w) (readers_ w) w, s2)
  | (Some id, s2) =>
      if negb (ftruncate_ok sys) then
        (false,
         set_control false (Some id) (control_ptr_ w) (header_ w) (readers_ w) w,
         Shm.shm_unlink (channel_name_ w) s2)
      else if negb (mmap_ok sys) then
        (false, set_control false (Some id) None (header_ w) (readers_ w) w,
         Shm.shm_unlink (channel_name_ w) s2)
      else
        (true,
         set_control true (Some id) (Some id) (Some id)
           (replicate MAX_READERS invalid_reader) w,
         Shm.store id (Control (init_header w now)) s2)
  end.

(** Host-dependent outcomes inside [discoverReaders], per directory
    index. *)
Record DiscoverSys : Type := {
  ring_open_ok : nat -> bool;
  ring_mmap_ok : nat -> bool
}.

Definition discover_ok : DiscoverSys :=
  {| ring_open_ok := fun _ => true; ring_mmap_ok := fun _ => true |}.

(** The body of the loop of [discoverReaders] for directory index [i]. *)
Definition discover_entry (w : t) (sys : DiscoverSys) (h : ControlHeader)
    (s : World) (i : nat) (rs : list ReaderInfo) : list ReaderInfo :=
  let active := at_idx false (reader_active h) i in
  let ri := at_idx invalid_reader rs i in
  if active && negb (valid ri) then
    let name := at_idx ""%string (reader_shm_names h) i in
    if String.eqb name "" then rs else
    match (if ring_open_ok sys i then Shm.shm_open name s else None) with
    | None => rs
    | Some id =>
        let ring_size := at_idx 0 (reader_ring_sizes h) i in
        let ring_size := if ring_size =? 0 then DEFAULT_RING_SIZE else ring_size in
        let slot_total := wrap64 (sizeof_RingSlot + max_slot_size_ w) in
        let buf_size := wrap64 (sizeof_RingBufferHeader + ring_size * slot_total) in
        if negb (ring_mmap_ok sys i) then rs
        else <[i := {| fd := Some id; ptr := Some id; size := buf_size;
                       ring_size := ring_size; valid := true |}]> rs
    end
  else if negb active && valid ri then
    <[i := {| fd := fd ri; ptr := ptr ri; size := size ri;
              ring_size := ring_size ri; valid := false |}]> rs
  else rs.

(** [DirectWriter::discoverReaders] *)
Definition discoverReaders (w : t) (sys : DiscoverSys) (s : World) : option t :=
  match header_ w with
  | None => Some w
  | Some _ =>
      match load_control s (header_ w) with
      | None => None
      | Some h =>
          Some (set_readers
                  (fold_left (fun rs i => discover_entry w sys h s i rs)
                     (seq 0 MAX_READERS) (readers_ w)) w)
      end
  end.

(** One iteration of the fan-out loop; the state is the count of rings
    written and the shared memory. *)
Definition publish_entry (w : t) (data : option (list byte)) (size timestamp : Z)
    (i : nat) (st : Z * World) : option (Z * World) :=
  let ri := at_idx invalid_reader (readers_ w) i in
  if negb (valid ri) then Some st
  else
    match publish_ring (ptr ri) (ring_size ri) data size timestamp (snd st) with
    | None => None
    | Some s' => Some (fst st + 1, s')
    end.

(** The fan-out loop and the heartbeat store that follows it. *)
Definition publish_all (w : t) (data : option (list byte)) (size timestamp : Z)
    (s : World) : option (Z * World) :=
  match for_each (publish_entry w data size timestamp) (seq 0 MAX_READERS) (0, s) with
  | None => None
  | Some (written, s1) =>
      match load_control s1 (header_ w) with
      | None => None
      | Some h => Some (written, store_at (header_ w) (Control (set_heartbeat timestamp h)) s1)
      end
  end.

(** [DirectWriter::write] *)
Definition write (w : t) (sys : DiscoverSys) (s : World) (data : list byte)
    (size timestamp : Z) : option (Z * t * World) :=
  if negb (is_initialized_ w) || (max_slot_size_ w <? size) then Some (0, w, s) else
  match discoverReaders w sys s with
  | None => None
  | Some w1 =>
      match publish_all w1 (Some data) size timestamp s with
      | None => None
      | Some (written, s') => Some (written, w1, s')
      end
  end.

(** [DirectWriter::commitSlots] *)
Definition commitSlots (w : t) (s : World) (size timestamp : Z)
  : option (Z * t * World) :=
  if negb (is_initialized_ w) || (max_slot_size_ w <? size) then Some (0, w, s) else
  match publish_all w None size timestamp s with
  | None => None
  | Some (committed, s') => Some (committed, w, s')
  end.


(** [DirectWriter::getReaderCount] *)
Definition getReaderCount (w : t) (s : World) : option Z :=
  match header_ w with
  | None => Some 0
  | Some _ => match load_control s (header_ w) with
              | None => None
              | Some h => Some (num_readers h)
              end
  end.

(** The number of entries of [readers_] that hold a valid mapping. *)
Definition valid_count (w : t) : Z :=
  Z.of_nat (length (List.filter
                      (fun i => valid (at_idx invalid_reader (readers_ w) i))
                      (seq 0 MAX_READERS))).




(** The writer has the ring object [bid] mapped at directory index 0, with
    recorded ring size [N], and no other valid mapping. *)
Definition serves_only (w : t) (bid : nat) (N : Z) : Prop :=
  valid (at_idx invalid_reader (readers_ w) 0) = true
  /\ ptr (at_idx invalid_reader (readers_ w) 0) = Some bid
  /\ ring_size (at_idx invalid_reader (readers_ w) 0) = N
  /\ forall i, i <> 0%nat -> valid (at_idx invalid_reader (readers_ w) i) = false.

(** A writer on the channel object [cid] with one registered reader: the
    directory has entry 0 alone active, naming the ring object [bid] of
    [N] slots, which is in the state of [m] publishes; the writer has
    either not discovered the ring yet or serves it and nothing else. *)
Definition fan_state (w : t) (s : World) (cid bid : nat) (N m : Z) : Prop :=
  is_initialized_ w = true
  /\ header_ w = Some cid /\ cid <> bid
  /\ (exists h,
        Shm.objs s !! cid = Some (Control h)
        /\ only_entry0_active h
        /\ at_idx ""%string (reader_shm_names h) 0 <> ""%string
        /\ Shm.names s !! at_idx ""%string (reader_shm_names h) 0 = Some bid
        /\ at_idx 0 (reader_ring_sizes h) 0 = N)
  /\ (readers_ w = replicate MAX_READERS invalid_reader \/ serves_only w bid N)
  /\ ring_holds N m (Shm.objs s !! bid).

(** Successive calls of [write], one per frame [(data, size, timestamp)];
    the return values in order, and the final writer and shared memory. *)
Fixpoint write_all (frames : list (list byte * Z * Z)) (w : t) (sys : DiscoverSys)
    (s : World) : option (list Z * t * World) :=
  match frames with
  | [] => Some ([], w, s)
  | (data, size, timestamp) :: rest =>
      match write w sys s data size timestamp with
      | None => None
      | Some (n, w1, s1) =>
          match write_all rest w1 sys s1 with
          | None => None
          | Some (ns, w2, s2) => Some (n :: ns, w2, s2)
          end
      end
  end.

(** [DirectWriter::destroy] *)
Definition destroy (w : t) (s : World) : t * World :=
  if negb (is_initialized_ w) then (w, s) else
  (set_control false (control_fd_ w) (control_ptr_ w) (header_ w) [] w,
   match control_fd_ w with
   | Some _ => Shm.shm_unlink (channel_name_ w) s
   | None => s
   end).

End DirectWriter.

Module DirectReader.

Record t : Type := {
  channel_name_ : string;
  my_shm_name_ : string;
  max_slot_size_ : Z;
  ring_size_ : Z;
  is_initialized_ : bool;
  my_slot_idx_ : Z;
  control_fd_ : option nat;
  header_ : option nat;        (* [control_ptr_] and [header_] *)
  buffer_fd_ : option nat;
  ring_header_ : option nat;   (* [buffer_ptr_], [ring_header_], [slots_base_] *)
  buffer_size_ : Z;
  slot_total_size_ : Z
}.

(** [DirectReader::DirectReader]; [pid] is the value of [getpid()]. *)
Definition new (channel_name : string) (max_slot_size ring_size : Z) (pid : N) : t :=
  let slot_total_size := wrap64 (sizeof_RingSlot + max_slot_size) in
  {| channel_name_ := channel_name;
     my_shm_name_ := channel_name +:+ "_reader_" +:+ pretty pid;
     max_slot_size_ := max_slot_size; ring_size_ := ring_size;
     is_initialized_ := false; my_slot_idx_ := -1;
     control_fd_ := None; header_ := None;
     buffer_fd_ := None; ring_header_ := None;
     buffer_size_ := wrap64 (sizeof_RingBufferHeader + ring_size * slot_total_size);
     slot_total_size_ := slot_total_size |}.

Definition set_handles (init_ok : bool) (idx : Z) (cfd hd bfd rhd : option nat)
    (rd : t) : t :=
  {| channel_name_ := channel_name_ rd; my_shm_name_ := my_shm_name_ rd;
     max_slot_size_ := max_slot_size_ rd; ring_size_ := ring_size_ rd;
     is_initialized_ := init_ok; my_slot_idx_ := idx;
     control_fd_ := cfd; header_ := hd;
     buffer_fd_ := bfd; ring_header_ := rhd;
     buffer_size_ := buffer_size_ rd; slot_total_size_ := slot_total_size_ rd |}.

(** The ring region as [init] leaves it before registration. *)
Definition init_ring (rd : t) : Obj :=
  Ring {| rh_magic := DIRECT_MAGIC; ring_size := ring_size_ rd;
          slot_data_size := max_slot_size_ rd;
          slot_total_size := slot_total_size_ rd;
          write_idx := 0; total_writes := 0 |}
       (replicate (Z.to_nat (ring_size_ rd))
          {| sequence := 0; timestamp_ns := 0; data_size := 0;
             slot_data := replicate (Z.to_nat (max_slot_size_ rd)) Byte.x00 |}).

(** *** Registration with the control channel (sahm.cpp, lines 379-390)

    The loop is given as a step function over the program points between
    its stores to shared memory, so that the directory can be inspected
    at each of them. *)
Inductive reg_pc : Type :=
  | Scan (i : nat)        (* about to test-and-set [reader_active[i]] *)
  | NameStore (i : nat)   (* entry [i] claimed; about to write its name *)
  | SizeStore (i : nat)   (* name written; about to write the ring size *)
  | CountAdd (i : nat)    (* ring size written; about to add to [num_readers] *)
  | Done (idx : option nat).

(** [reader_active[i].compare_exchange_strong(expected = false, true)] *)
Definition compare_exchange_active (i : nat) (h : ControlHeader)
  : bool * ControlHeader :=
  if at_idx false (reader_active h) i then (false, h)
  else (true, set_active i true h).

(** [strncpy(names[i], my_shm_name_, SHM_NAME_LEN - 1)] and the
    terminator at [SHM_NAME_LEN - 1]: the stored C string is the name cut
    to 63 characters. *)
Definition stored_name (name : string) : string :=
  String.substring 0 (SHM_NAME_LEN - 1) name.

Definition reg_step (rd : t) (st : reg_pc * ControlHeader) : reg_pc * ControlHeader :=
  match st with
  | (Scan i, h) =>
      if (MAX_READERS <=? i)%nat then (Done None, h)
      else match compare_exchange_active i h with
           | (true, h') => (NameStore i, h')
           | (false, h') => (Scan (S i), h')
           end
  | (NameStore i, h) => (SizeStore i, set_name i (stored_name (my_shm_name_ rd)) h)
  | (SizeStore i, h) => (CountAdd i, set_ring_size i (ring_size_ rd) h)
  | (CountAdd i, h) => (Done (Some i), set_num_readers (wrap32 (num_readers h + 1)) h)
  | (Done r, h) => (Done r, h)
  end.

(** The state of the registration after [n] steps. *)
Definition reg_run (rd : t) (n : nat) (h : ControlHeader) : reg_pc * ControlHeader :=
  Nat.iter n (reg_step rd) (Scan 0, h).

(** The whole loop: at most [MAX_READERS] failed tests, then the three
    stores of the claimed entry. *)
Definition register (rd : t) (h : ControlHeader) : option nat * ControlHeader :=
  match reg_run rd (MAX_READERS + 4) h with
  | (Done r, h') => (r, h')
  | (_, h') => (None, h')
  end.

(** Host-dependent outcomes of [DirectReader::init]. *)
Record InitSys : Type := {
  control_mmap_ok : bool;
  buffer_open_ok : bool;
  buffer_ftruncate_ok : bool;
  buffer_mmap_ok : bool
}.

Definition init_ok : InitSys :=
  {| control_mmap_ok := true; buffer_open_ok := true;
     buffer_ftruncate_ok := true; buffer_mmap_ok := true |}.

(** [DirectReader::init] *)
Definition init (rd : t) (sys : InitSys) (s : World) : option (bool * t * World) :=
  if is_initialized_ rd then Some (true, rd, s) else
  match Shm.shm_open (channel_name_ rd) s with
  | None => Some (false, rd, s)
  | Some cid =>
      if negb (control_mmap_ok sys)
      then Some (false, set_handles false (my_slot_idx_ rd) (Some cid) None
                          (buffer_fd_ rd) (ring_header_ rd) rd, s)
      else
      match load_control s (Some cid) with
      | None => None
      | Some h =>
          let rd1 := set_handles false (my_slot_idx_ rd) (Some cid) (Some cid)
                       (buffer_fd_ rd) (ring_header_ rd) rd in
          if negb (magic h =? DIRECT_MAGIC) then Some (false, rd1, s) else
          let s1 := Shm.shm_unlink (my_shm_name_ rd) s in
          match Shm.shm_open_creat (buffer_open_ok sys) false (my_shm_name_ rd) s1 with
          | (None, s2) => Some (false, rd1, s2)
          | (Some bid, s2) =>
              let rd2 := set_handles false (my_slot_idx_ rd) (Some cid) (Some cid)
                           (Some bid) (ring_header_ rd) rd in
              if negb (buffer_ftruncate_ok sys) || negb (buffer_mmap_ok sys)
              then Some (false, rd2, Shm.shm_unlink (my_shm_name_ rd) s2)
              else
                let s3 := Shm.store bid (init_ring rd) s2 in
                match load_control s3 (Some cid) with
                | None => None
                | Some h3 =>
                    match register rd h3 with
                    | (Some i, h4) =>
                        Some (true,
                              set_handles true (Z.of_nat i) (Some cid) (Some cid)
                                (Some bid) (Some bid) rd,
                              Shm.store cid (Control h4) s3)
                    | (None, h4) =>
                        Some (false,
                              set_handles false (my_slot_idx_ rd) (Some cid) (Some cid)
                                (Some bid) (Some bid) rd,
                              Shm.shm_unlink (my_shm_name_ rd)
                                (Shm.store cid (Control h4) s3))
                    end
                end
          end
      end
  end.

(** [DirectReader::getSlotPtr] followed by the dereference of the slot. *)
Definition load_slot (rd : t) (s : World) (idx : Z) : option RingSlot :=
  match load_ring s (ring_header_ rd) with
  | None => None
  | Some (_, slots) => slots !! Z.to_nat idx
  end.

(** [DirectReader::getLatest]: the index of the latest slot and its
    length; the outer [None] is a fault, the inner one [nullptr]. *)
Definition getLatest (rd : t) (s : World) (size : Z) : option (option Z * Z) :=
  if negb (is_initialized_ rd) then Some (None, size) else
  match load_ring s (ring_header_ rd) with
  | None => None
  | Some (rh, _) =>
      if total_writes rh =? 0 then Some (None, size) else
      let latest_idx := wrap32 (write_idx rh + ring_size_ rd - 1) mod ring_size_ rd in
      match load_slot rd s latest_idx with
      | None => None
      | Some slot => Some (Some latest_idx, data_size slot)
      end
  end.


(** [DirectReader::getTotalWrites] *)
Definition getTotalWrites (rd : t) (s : World) : option Z :=
  match ring_header_ rd with
  | None => Some 0
  | Some _ => match load_ring s (ring_header_ rd) with
              | None => None
              | Some (rh, _) => Some (total_writes rh)
              end
  end.

(** [DirectReader::getWriteIndex] *)
Definition getWriteIndex (rd : t) (s : World) : option Z :=
  match ring_header_ rd with
  | None => Some 0
  | Some _ => match load_ring s (ring_header_ rd) with
              | None => None
              | Some (rh, _) => Some (write_idx rh)
              end
  end.

(** [DirectReader::getSlotSequence] *)
Definition getSlotSequence (rd : t) (s : World) (slot_idx : Z) : option Z :=
  if ring_size_ rd <=? slot_idx then Some 0 else
  match load_slot rd s slot_idx with
  | None => None
  | Some slot => Some (sequence slot)
  end.

(** [DirectReader::~DirectReader] *)
Definition destroy (rd : t) (s : World) : option World :=
  if negb (is_initialized_ rd) then Some s else
  let unregistered :=
    match header_ rd with
    | Some _ =>
        if 0 <=? my_slot_idx_ rd then
          match load_control s (header_ rd) with
          | None => None
          | Some h =>
              Some (store_at (header_ rd)
                      (Control (set_num_readers (wrap32 (num_readers h - 1))
                                  (set_active (Z.to_nat (my_slot_idx_ rd)) false h))) s)
          end
        else Some s
    | None => Some s
    end in
  match unregistered with
  | None => None
  | Some s1 =>
      Some (match buffer_fd_ rd with
            | Some _ => Shm.shm_unlink (my_shm_name_ rd) s1
            | None => s1
            end)
  end.



(** [DirectReader::isWriterAlive]; the outer [None] is a fault. *)
Definition isWriterAlive (rd : t) (s : World) (now_ns timeout_ms : Z) : option bool :=
  match header_ rd with
  | None => Some false
  | Some _ =>
      match load_control s (header_ rd) with
      | None => None
      | Some h =>
          let diff_ms := Z.quot (now_ns - writer_heartbeat_ns h) 1000000 in
          Some (diff_ms <? timeout_ms)
      end
  end.

End DirectReader.

End SAHM.

(** ** Concrete hosts used in the worked examples *)

(** A host without huge pages and with the default cache sizes. *)
Definition no_huge_pages : SIM.HugePagesInfo :=
  {| SIM.available := false; SIM.usable := false; SIM.total := 0; SIM.free := 0;
     SIM.page_size := SIM.HUGE_PAGE_SIZE |}.

Definition default_cache : SIM.CacheInfo :=
  {| SIM.l1d_size := 32 * 1024; SIM.l1i_size := 32 * 1024;
     SIM.l2_size := 256 * 1024; SIM.l3_size := 8 * 1024 * 1024;
     SIM.line_size := 64; SIM.num_cores := 4 |}.

(** * Properties *)

Arguments wrap64 : simpl never.
Arguments wrap32 : simpl never.

Lemma wrap64_small (z : Z) : 0 <= z < 2 ^ 64 -> wrap64 z = z.
Proof. intros H. unfold wrap64. apply Z.mod_small. exact H. Qed.

Lemma wrap32_small (z : Z) : 0 <= z < 2 ^ 32 -> wrap32 z = z.
Proof. intros H. unfold wrap32. apply Z.mod_small. exact H. Qed.

(** The back index computed by the writers, for a front index in {0, 1}. *)
Lemma back_of_front (front : Z) :
  front = 0 \/ front = 1 ->
  wrap32 (1 - front) = 1 - front /\ (wrap32 (1 - front) = 0 \/ wrap32 (1 - front) = 1).
Proof. intros [-> | ->]; vm_compute; auto. Qed.

(** [memcpy] of [n] bytes from a source that has them: the destination's
    first [n] bytes are the source's, the rest is as before. *)
Lemma memcpy_length (dst src : list byte) (n : Z) :
  0 <= n -> (Z.to_nat n <= length src)%nat -> (Z.to_nat n <= length dst)%nat ->
  length (memcpy dst src n) = length dst.
Proof.
  intros Hn Hs Hd. unfold memcpy.
  rewrite length_app, length_take, length_drop. lia.
Qed.

Lemma memcpy_take (dst src : list byte) (n : Z) :
  (Z.to_nat n <= length src)%nat ->
  take (Z.to_nat n) (memcpy dst src n) = take (Z.to_nat n) src.
Proof.
  intros Hs. unfold memcpy.
  rewrite take_app_le by (rewrite length_take; lia).
  rewrite take_take. f_equal. lia.
Qed.

Lemma memcpy_drop (dst src : list byte) (n : Z) :
  (Z.to_nat n <= length src)%nat ->
  drop (Z.to_nat n) (memcpy dst src n) = drop (Z.to_nat n) dst.
Proof.
  intros Hs. unfold memcpy.
  rewrite drop_app_ge by (rewrite length_take; lia).
  rewrite length_take. replace (Z.to_nat n - Z.to_nat n `min` length src)%nat with 0%nat by lia.
  reflexivity.
Qed.

(** ** Platform probe *)

Section Probe.

Import SIM.




End Probe.

(** ** Double-buffer engine, basic tier *)

Section BarqWriter.

Import BARQ BARQ.Writer.

(** A successful [init] of a writer leaves it ready, its frame counter
    untouched, and the mapped region zeroed. *)
Lemma barq_init_success (w w' : t) sys now (s s' : Shm.fs Region) :
  initialized_ w = false ->
  init w sys now s = (true, w', s') ->
  exists id r,
    ptr_ w' = Some id /\ Shm.objs s' !! id = Some r
    /\ initialized_ w' = true /\ max_size_ w' = max_size_ w
    /\ frame_count_ w' = frame_count_ w
    /\ front_idx (hdr r) = 0 /\ seq0 (hdr r) = 0 /\ seq1 (hdr r) = 0
    /\ total_writes (hdr r) = 0 /\ total_bytes (hdr r) = 0.
Proof.
  intros Hi. unfold init. rewrite Hi.
  destruct (Shm.shm_open_creat _ _ _ _) as [[id|] s2]; [|intros [=]].
  destruct (negb (ftruncate_ok sys)); [intros [=]|].
  destruct (if use_huge_pages_ w && _ then _ else ptr_ w) as [p|].
  - intros [= <- <-]. exists p, (init_region w
      (if use_huge_pages_ w &&
          (HUGE_PAGE <=? (if use_huge_pages_ w &&
             (HUGE_PAGE <=? wrap64 (sizeof_Header + alignUp (max_size_ w) CACHE_LINE * 2))
           then alignUp (wrap64 (sizeof_Header + alignUp (max_size_ w) CACHE_LINE * 2)) HUGE_PAGE
           else wrap64 (sizeof_Header + alignUp (max_size_ w) CACHE_LINE * 2))) &&
          mmap_hugetlb_ok sys then true else huge_pages_active_ w)
      (alignUp (max_size_ w) CACHE_LINE) now).
    simpl. rewrite lookup_insert_eq. repeat split; reflexivity.
  - destruct (negb (mmap_ok sys)); [intros [=]|].
    intros [= <- <-].
    exists id, (init_region w false (alignUp (max_size_ w) CACHE_LINE) now).
    simpl. rewrite lookup_insert_eq. repeat split; reflexivity.
Qed.

(** One publish in a state whose slots hold nothing above the frame
    counter [k]: it succeeds, stores [k + 1] in the back slot and makes
    that slot the front. *)
Lemma barq_publish_step (op : publish_op) (w : t) (r : Region) (k : Z) :
  initialized_ w = true -> op_size op <= max_size_ w ->
  frame_count_ w = k -> 0 <= k < 2 ^ 64 - 1 ->
  (front_idx (hdr r) = 0 \/ front_idx (hdr r) = 1) ->
  seq0 (hdr r) <= k -> seq1 (hdr r) <= k ->
  exists w' r',
    publish op (w, r) = (true, w', r')
    /\ initialized_ w' = true /\ max_size_ w' = max_size_ w
    /\ frame_count_ w' = k + 1
    /\ (front_idx (hdr r') = 0 \/ front_idx (hdr r') = 1)
    /\ front_idx (hdr r') = 1 - front_idx (hdr r)
    /\ front_seq r' = k + 1
    /\ seq0 (hdr r') <= k + 1 /\ seq1 (hdr r') <= k + 1.
Proof.
  intros Hi Hsz Hk Hr Hf H0 H1.
  pose proof (back_of_front _ Hf) as [Hb Hb01].
  assert (Hfc : wrap64 (frame_count_ w + 1) = k + 1)
    by (rewrite Hk; apply wrap64_small; lia).
  assert (Hlt : (max_size_ w <? op_size op) = false) by (apply Z.ltb_ge; lia).
  destruct op as [data size now | size now]; simpl in Hlt |- *.
  - unfold write. rewrite Hi, Hlt. simpl.
    eexists _, _. split; [reflexivity|]. simpl. rewrite Hfc.
    unfold front_seq, copy_payload. simpl.
    destruct Hb01 as [E | E]; rewrite E; simpl;
      repeat split; auto; try lia.
  - unfold commit. rewrite Hi, Hlt. simpl.
    eexists _, _. split; [reflexivity|]. simpl. rewrite Hfc.
    unfold front_seq. simpl.
    destruct Hb01 as [E | E]; rewrite E; simpl;
      repeat split; auto; try lia.
Qed.

(** The states of a run: after the [i]-th publish (counted from 0) of a
    run that starts with frame counter [k], the front slot holds
    [k + i + 1] and no slot holds more. *)
Lemma barq_run_states (ops : list publish_op) :
  forall (w : t) (r : Region) (k : Z) (i : nat) (st : t * Region),
  initialized_ w = true ->
  Forall (fun op => op_size op <= max_size_ w) ops ->
  frame_count_ w = k -> 0 <= k -> k + Z.of_nat (length ops) < 2 ^ 64 ->
  (front_idx (hdr r) = 0 \/ front_idx (hdr r) = 1) ->
  seq0 (hdr r) <= k -> seq1 (hdr r) <= k ->
  run ops (w, r) !! i = Some st ->
  front_seq (snd st) = k + Z.of_nat i + 1
  /\ seq0 (hdr (snd st)) <= k + Z.of_nat i + 1
  /\ seq1 (hdr (snd st)) <= k + Z.of_nat i + 1.
Proof.
  induction ops as [|op ops IH]; intros w r k i st Hi Hall Hk Hk0 Hlen Hf H0 H1 Hst.
  - destruct i; discriminate.
  - inversion Hall as [|? ? Hop Hops]; subst.
    simpl length in Hlen.
    destruct (barq_publish_step op w r (frame_count_ w) Hi Hop eq_refl
                ltac:(lia) Hf H0 H1)
      as (w' & r' & Hp & Hi' & Hm' & Hk' & Hf' & _ & Hfs & H0' & H1').
    simpl in Hst. rewrite Hp in Hst.
    destruct i as [|i].
    + simpl in Hst. injection Hst as <-. cbn [snd].
      repeat split; [rewrite Hfs | |]; lia.
    + simpl in Hst.
      rewrite <- Hm' in Hops.
      destruct (IH w' r' (frame_count_ w + 1) i st Hi' Hops Hk'
                  ltac:(lia) ltac:(lia) Hf' H0' H1' Hst) as (A & B & C).
      repeat split; [rewrite A | |]; lia.
Qed.

End BarqWriter.

(** ** Double-buffer engine, cache-tuned tier *)

Section CasirWriter.

Import CASIR CASIR.Writer.

Lemma casir_init_success (w w' : t) sys hp (s s' : Shm.fs Region) :
  is_initialized_ w = false ->
  init w sys hp s = (true, w', s') ->
  exists id r,
    shm_ptr_ w' = Some id /\ Shm.objs s' !! id = Some r
    /\ is_initialized_ w' = true /\ max_size_ w' = max_size_ w
    /\ frame_count_ w' = frame_count_ w
    /\ front_idx (hdr r) = 0 /\ frame0 (hdr r) = 0 /\ frame1 (hdr r) = 0
    /\ published_length (hdr r) = 0
    /\ total_writes (hdr r) = 0 /\ total_bytes (hdr r) = 0.
Proof.
  intros Hi. unfold init. rewrite Hi.
  destruct (Shm.shm_open_creat _ _ _ _) as [[id|] s2]; [|intros [=]].
  destruct (negb (ftruncate_ok sys)); [intros [=]|].
  unfold allocateMemory.
  destruct (SIM.use_huge_pages (config_ w) && SIM.usable hp && mmap_hugetlb_ok sys).
  - intros [= <- <-]. eexists _, _. simpl. rewrite lookup_insert_eq.
    repeat split; reflexivity.
  - destruct (negb (mmap_ok sys)); [intros [=]|].
    intros [= <- <-]. eexists _, _. simpl. rewrite lookup_insert_eq.
    repeat split; reflexivity.
Qed.

Lemma casir_publish_step (op : publish_op) (w : t) (r : Region) (k : Z) :
  is_initialized_ w = true -> op_size op <= max_size_ w ->
  frame_count_ w = k -> 0 <= k < 2 ^ 64 - 1 ->
  (front_idx (hdr r) = 0 \/ front_idx (hdr r) = 1) ->
  frame0 (hdr r) <= k -> frame1 (hdr r) <= k ->
  exists w' r',
    publish op (w, r) = (true, w', r')
    /\ is_initialized_ w' = true /\ max_size_ w' = max_size_ w
    /\ frame_count_ w' = k + 1
    /\ (front_idx (hdr r') = 0 \/ front_idx (hdr r') = 1)
    /\ front_idx (hdr r') = 1 - front_idx (hdr r)
    /\ front_frame r' = k + 1
    /\ frame0 (hdr r') <= k + 1 /\ frame1 (hdr r') <= k + 1
    /\ published_length (hdr r') = op_size op.
Proof.
  intros Hi Hsz Hk Hr Hf H0 H1.
  pose proof (back_of_front _ Hf) as [Hb Hb01].
  assert (Hfc : wrap64 (frame_count_ w + 1) = k + 1)
    by (rewrite Hk; apply wrap64_small; lia).
  assert (Hlt : (max_size_ w <? op_size op) = false) by (apply Z.ltb_ge; lia).
  destruct op as [data size now | fill size now | size now]; simpl in Hlt |- *.
  - unfold write. rewrite Hi, Hlt. simpl.
    eexists _, _. split; [reflexivity|]. simpl. rewrite Hfc.
    unfold front_frame, update_buffer, store_meta. simpl.
    destruct Hb01 as [E | E]; rewrite E; simpl;
      repeat split; auto; try lia.
  - unfold writeZeroCopy. rewrite Hi, Hlt. simpl.
    eexists _, _. split; [reflexivity|]. simpl. rewrite Hfc.
    unfold front_frame, update_buffer, store_meta. simpl.
    destruct Hb01 as [E | E]; rewrite E; simpl;
      repeat split; auto; try lia.
  - unfold commitWrite. rewrite Hi, Hlt. simpl.
    eexists _, _. split; [reflexivity|]. simpl. rewrite Hfc.
    unfold front_frame, store_meta. simpl.
    destruct Hb01 as [E | E]; rewrite E; simpl;
      repeat split; auto; try lia.
Qed.

Lemma casir_run_states (ops : list publish_op) :
  forall (w : t) (r : Region) (k : Z) (i : nat) (st : t * Region),
  is_initialized_ w = true ->
  Forall (fun op => op_size op <= max_size_ w) ops ->
  frame_count_ w = k -> 0 <= k -> k + Z.of_nat (length ops) < 2 ^ 64 ->
  (front_idx (hdr r) = 0 \/ front_idx (hdr r) = 1) ->
  frame0 (hdr r) <= k -> frame1 (hdr r) <= k ->
  run ops (w, r) !! i = Some st ->
  front_frame (snd st) = k + Z.of_nat i + 1
  /\ frame0 (hdr (snd st)) <= k + Z.of_nat i + 1
  /\ frame1 (hdr (snd st)) <= k + Z.of_nat i + 1.
Proof.
  induction ops as [|op ops IH]; intros w r k i st Hi Hall Hk Hk0 Hlen Hf H0 H1 Hst.
  - destruct i; discriminate.
  - inversion Hall as [|? ? Hop Hops]; subst.
    simpl length in Hlen.
    destruct (casir_publish_step op w r (frame_count_ w) Hi Hop eq_refl
                ltac:(lia) Hf H0 H1)
      as (w' & r' & Hp & Hi' & Hm' & Hk' & Hf' & _ & Hfs & H0' & H1' & _).
    simpl in Hst. rewrite Hp in Hst.
    destruct i as [|i].
    + simpl in Hst. injection Hst as <-. cbn [snd].
      repeat split; [rewrite Hfs | |]; lia.
    + simpl in Hst.
      rewrite <- Hm' in Hops.
      destruct (IH w' r' (frame_count_ w + 1) i st Hi' Hops Hk'
                  ltac:(lia) ltac:(lia) Hf' H0' H1' Hst) as (A & B & C).
      repeat split; [rewrite A | |]; lia.
Qed.

End CasirWriter.

(** ** Sequence numbers of the double-buffer writers *)

(** A publish that reports failure has touched neither the writer nor the
    region. *)
Lemma barq_publish_failed (op : BARQ.Writer.publish_op) (st : BARQ.Writer.t * BARQ.Region) :
  fst (fst (BARQ.Writer.publish op st)) = false ->
  BARQ.Writer.publish op st = (false, fst st, snd st).
Proof.
  destruct st as [w r].
  destruct op as [data size now | size now]; simpl;
    unfold BARQ.Writer.write, BARQ.Writer.commit;
    destruct (negb (BARQ.Writer.initialized_ w) || (BARQ.Writer.max_size_ w <? size));
    simpl; intros H; [reflexivity | discriminate | reflexivity | discriminate].
Qed.

Lemma casir_publish_failed (op : CASIR.Writer.publish_op)
    (st : CASIR.Writer.t * CASIR.Region) :
  fst (fst (CASIR.Writer.publish op st)) = false ->
  CASIR.Writer.publish op st = (false, fst st, snd st).
Proof.
  destruct st as [w r].
  destruct op as [data size now | fill size now | size now]; simpl;
    unfold CASIR.Writer.write, CASIR.Writer.writeZeroCopy, CASIR.Writer.commitWrite;
    destruct (negb (CASIR.Writer.is_initialized_ w) || (CASIR.Writer.max_size_ w <? size));
    simpl; intros H; first [reflexivity | discriminate].
Qed.

(** C1. For a writer of either tier that has been constructed and
    initialised, the [i]-th successful publish (counted from 0; [write],
    [commit], [writeZeroCopy] or [commitWrite]) stores sequence number
    [i + 1] in the slot it makes the front: the first publish stores 1,
    each publish stores the previous sequence plus one, and the number is
    strictly greater than every sequence number found in either slot in
    any earlier state of the region. The 64-bit counter is assumed not to
    be exhausted (fewer than 2^64 publishes). A publish that fails stores
    nothing, so a run with failures is the run of its successful
    publishes. *)
Theorem publish_sequence_strictly_increasing :
  (forall name max_size use_huge sys now s w1 s1 (ops : list BARQ.Writer.publish_op),
     BARQ.Writer.init (BARQ.Writer.new name max_size use_huge) sys now s = (true, w1, s1) ->
     Forall (fun op => BARQ.Writer.op_size op <= max_size) ops ->
     Z.of_nat (length ops) < 2 ^ 64 ->
     exists id r0,
       BARQ.Writer.ptr_ w1 = Some id /\ Shm.objs s1 !! id = Some r0
       /\ forall (i : nat) st,
            BARQ.Writer.run ops (w1, r0) !! i = Some st ->
            BARQ.front_seq (snd st) = Z.of_nat i + 1
            /\ forall (j : nat) st',
                 (j <= i)%nat ->
                 ((w1, r0) :: BARQ.Writer.run ops (w1, r0)) !! j = Some st' ->
                 BARQ.seq0 (BARQ.hdr (snd st')) < Z.of_nat i + 1
                 /\ BARQ.seq1 (BARQ.hdr (snd st')) < Z.of_nat i + 1)
  /\
  (forall name max_size config detected sys hp s w1 s1
          (ops : list CASIR.Writer.publish_op),
     CASIR.Writer.init (CASIR.Writer.new name max_size config detected) sys hp s
       = (true, w1, s1) ->
     Forall (fun op => CASIR.Writer.op_size op <= max_size) ops ->
     Z.of_nat (length ops) < 2 ^ 64 ->
     exists id r0,
       CASIR.Writer.shm_ptr_ w1 = Some id /\ Shm.objs s1 !! id = Some r0
       /\ forall (i : nat) st,
            CASIR.Writer.run ops (w1, r0) !! i = Some st ->
            CASIR.front_frame (snd st) = Z.of_nat i + 1
            /\ forall (j : nat) st',
                 (j <= i)%nat ->
                 ((w1, r0) :: CASIR.Writer.run ops (w1, r0)) !! j = Some st' ->
                 CASIR.frame0 (CASIR.hdr (snd st')) < Z.of_nat i + 1
                 /\ CASIR.frame1 (CASIR.hdr (snd st')) < Z.of_nat i + 1)
  /\
  ((forall op st, fst (fst (BARQ.Writer.publish op st)) = false ->
      BARQ.Writer.publish op st = (false, fst st, snd st))
   /\ (forall op st, fst (fst (CASIR.Writer.publish op st)) = false ->
         CASIR.Writer.publish op st = (false, fst st, snd st))).
Proof.
  split; [|split; [|split; [exact barq_publish_failed | exact casir_publish_failed]]].
  - intros name max_size use_huge sys now s w1 s1 ops Hinit Hall Hlen.
    destruct (barq_init_success (BARQ.Writer.new name max_size use_huge) _ _ _ _ _ eq_refl Hinit)
      as (id & r0 & Hp & Ho & Hi & Hm & Hk & Hf & H0 & H1 & _).
    simpl in Hm, Hk.
    exists id, r0. split; [exact Hp|]. split; [exact Ho|].
    assert (Hst : forall (i : nat) st,
              BARQ.Writer.run ops (w1, r0) !! i = Some st ->
              BARQ.front_seq (snd st) = 0 + Z.of_nat i + 1
              /\ BARQ.seq0 (BARQ.hdr (snd st)) <= 0 + Z.of_nat i + 1
              /\ BARQ.seq1 (BARQ.hdr (snd st)) <= 0 + Z.of_nat i + 1).
    { intros i st Hst.
      apply (barq_run_states ops w1 r0 0 i st); auto; try lia.
      rewrite Hm. exact Hall. }
    intros i st Hi_st. destruct (Hst i st Hi_st) as (A & _ & _).
    split; [lia|].
    intros j st' Hj Hj_st. destruct j as [|j].
    + simpl in Hj_st. injection Hj_st as <-. simpl. lia.
    + simpl in Hj_st. destruct (Hst j st' Hj_st) as (_ & B & C). lia.
  - intros name max_size config detected sys hp s w1 s1 ops Hinit Hall Hlen.
    destruct (casir_init_success (CASIR.Writer.new name max_size config detected) _ _ _ _ _ eq_refl Hinit)
      as (id & r0 & Hp & Ho & Hi & Hm & Hk & Hf & H0 & H1 & _).
    simpl in Hm, Hk.
    exists id, r0. split; [exact Hp|]. split; [exact Ho|].
    assert (Hst : forall (i : nat) st,
              CASIR.Writer.run ops (w1, r0) !! i = Some st ->
              CASIR.front_frame (snd st) = 0 + Z.of_nat i + 1
              /\ CASIR.frame0 (CASIR.hdr (snd st)) <= 0 + Z.of_nat i + 1
              /\ CASIR.frame1 (CASIR.hdr (snd st)) <= 0 + Z.of_nat i + 1).
    { intros i st Hst.
      apply (casir_run_states ops w1 r0 0 i st); auto; try lia.
      rewrite Hm. exact Hall. }
    intros i st Hi_st. destruct (Hst i st Hi_st) as (A & _ & _).
    split; [lia|].
    intros j st' Hj Hj_st. destruct j as [|j].
    + simpl in Hj_st. injection Hj_st as <-. simpl. lia.
    + simpl in Hj_st. destruct (Hst j st' Hj_st) as (_ & B & C). lia.
Qed.

Lemma publish_sequence_strictly_increasing_witness :
  let ops := [BARQ.Writer.OpWrite [Byte.x01; Byte.x02] 2 110;
              BARQ.Writer.OpCommit 4 120;
              BARQ.Writer.OpWrite [Byte.x03] 1 130] in
  let res := BARQ.Writer.init (BARQ.Writer.new "/sensor" 8 false) all_ok 100 Shm.empty in
  exists id r0,
    BARQ.Writer.ptr_ (snd (fst res)) = Some id /\ Shm.objs (snd res) !! id = Some r0
    /\ forall (i : nat) st,
         BARQ.Writer.run ops (snd (fst res), r0) !! i = Some st ->
         BARQ.front_seq (snd st) = Z.of_nat i + 1
         /\ forall (j : nat) st',
              (j <= i)%nat ->
              ((snd (fst res), r0) :: BARQ.Writer.run ops (snd (fst res), r0)) !! j
                = Some st' ->
              BARQ.seq0 (BARQ.hdr (snd st')) < Z.of_nat i + 1
              /\ BARQ.seq1 (BARQ.hdr (snd st')) < Z.of_nat i + 1.
Proof.
  intros ops res.
  apply (proj1 publish_sequence_strictly_increasing
           "/sensor"%string 8 false all_ok 100 Shm.empty
           (snd (fst res)) (snd res) ops).
  - vm_compute. reflexivity.
  - repeat constructor; simpl; lia.
  - simpl. lia.
Defined.

(** ** Statistics counters of the double-buffer writers *)

(** C3 (the code departs from the claim). A successful [write] of either
    tier stores the heartbeat and leaves [total_writes] and [total_bytes]
    as they were, whereas the commit path ([commit], [commitWrite]) adds 1
    and [size] to them. *)
Theorem write_leaves_totals_unchanged :
  (forall w r data size now w' r',
     BARQ.Writer.write w r data size now = (true, w', r') ->
     BARQ.heartbeat_ns (BARQ.hdr r') = now
     /\ BARQ.total_writes (BARQ.hdr r') = BARQ.total_writes (BARQ.hdr r)
     /\ BARQ.total_bytes (BARQ.hdr r') = BARQ.total_bytes (BARQ.hdr r)
     /\ forall wc rc, BARQ.Writer.commit w r size now = (true, wc, rc) ->
          BARQ.total_writes (BARQ.hdr rc) = wrap64 (BARQ.total_writes (BARQ.hdr r) + 1)
          /\ BARQ.total_bytes (BARQ.hdr rc) = wrap64 (BARQ.total_bytes (BARQ.hdr r) + size))
  /\
  (forall w r data size now w' r',
     CASIR.Writer.write w r data size now = (true, w', r') ->
     CASIR.writer_heartbeat_ns (CASIR.hdr r') = now
     /\ CASIR.total_writes (CASIR.hdr r') = CASIR.total_writes (CASIR.hdr r)
     /\ CASIR.total_bytes (CASIR.hdr r') = CASIR.total_bytes (CASIR.hdr r)
     /\ forall wc rc, CASIR.Writer.commitWrite w r size now = (true, wc, rc) ->
          CASIR.total_writes (CASIR.hdr rc) = wrap64 (CASIR.total_writes (CASIR.hdr r) + 1)
          /\ CASIR.total_bytes (CASIR.hdr rc)
             = wrap64 (CASIR.total_bytes (CASIR.hdr r) + size)).
Proof.
  split.
  - intros w r data size now w' r'. unfold BARQ.Writer.write, BARQ.Writer.commit.
    destruct (negb (BARQ.Writer.initialized_ w) || (BARQ.Writer.max_size_ w <? size));
      [intros [=]|].
    intros [= <- <-]. simpl.
    split; [reflexivity|].
    split.
    { unfold BARQ.copy_payload.
      destruct (wrap32 (1 - BARQ.front_idx (BARQ.hdr r)) =? 0); simpl; [reflexivity|].
      destruct (wrap32 (1 - BARQ.front_idx (BARQ.hdr r)) =? 1); reflexivity. }
    split.
    { unfold BARQ.copy_payload.
      destruct (wrap32 (1 - BARQ.front_idx (BARQ.hdr r)) =? 0); simpl; [reflexivity|].
      destruct (wrap32 (1 - BARQ.front_idx (BARQ.hdr r)) =? 1); reflexivity. }
    intros wc rc [= <- <-]. simpl.
    destruct (wrap32 (1 - BARQ.front_idx (BARQ.hdr r)) =? 0); simpl; auto.
  - intros w r data size now w' r'.
    unfold CASIR.Writer.write, CASIR.Writer.commitWrite.
    destruct (negb (CASIR.Writer.is_initialized_ w) || (CASIR.Writer.max_size_ w <? size));
      [intros [=]|].
    intros [= <- <-]. simpl.
    unfold CASIR.Writer.store_meta, CASIR.update_buffer.
    destruct (wrap32 (1 - CASIR.front_idx (CASIR.hdr r)) =? 0); simpl.
    { do 3 (split; [reflexivity|]). intros wc rc [= <- <-]. simpl. auto. }
    destruct (wrap32 (1 - CASIR.front_idx (CASIR.hdr r)) =? 1); simpl.
    { do 3 (split; [reflexivity|]). intros wc rc [= <- <-]. simpl. auto. }
    do 3 (split; [reflexivity|]). intros wc rc [= <- <-]. simpl. auto.
Qed.

Lemma write_leaves_totals_unchanged_witness :
  let res := BARQ.Writer.init (BARQ.Writer.new "/sensor" 8 false) all_ok 100 Shm.empty in
  let w1 := snd (fst res) in
  let r0 := BARQ.Writer.init_region (BARQ.Writer.new "/sensor" 8 false) false 64 100 in
  let out := BARQ.Writer.write w1 r0 [Byte.x01; Byte.x02] 2 110 in
  Shm.objs (snd res) !! 0%nat = Some r0
  /\ fst (fst out) = true
  /\ BARQ.heartbeat_ns (BARQ.hdr (snd out)) = 110
  /\ BARQ.total_writes (BARQ.hdr (snd out)) = 0
  /\ BARQ.total_bytes (BARQ.hdr (snd out)) = 0.
Proof.
  intros res w1 r0 out.
  split; [vm_compute; reflexivity|].
  split; [vm_compute; reflexivity|].
  destruct (proj1 write_leaves_totals_unchanged w1 r0 [Byte.x01; Byte.x02] 2 110
              (snd (fst out)) (snd out)) as (A & B & C & _).
  - vm_compute. reflexivity.
  - rewrite A, B, C. repeat split; reflexivity.
Defined.

(** ** Payload length per slot *)

Section SlotLength.

(** A publish of the basic tier records the payload length in the slot
    it makes the front and leaves the other slot's length field alone. *)
Lemma barq_publish_length (op : BARQ.Writer.publish_op) w r :
  BARQ.Writer.initialized_ w = true ->
  BARQ.Writer.op_size op <= BARQ.Writer.max_size_ w ->
  (BARQ.front_idx (BARQ.hdr r) = 0 \/ BARQ.front_idx (BARQ.hdr r) = 1) ->
  exists w' r',
    BARQ.Writer.publish op (w, r) = (true, w', r')
    /\ BARQ.Writer.initialized_ w' = true
    /\ BARQ.Writer.max_size_ w' = BARQ.Writer.max_size_ w
    /\ BARQ.front_idx (BARQ.hdr r') = 1 - BARQ.front_idx (BARQ.hdr r)
    /\ BARQ.slot_len (BARQ.front_idx (BARQ.hdr r')) r' = BARQ.Writer.op_size op
    /\ BARQ.slot_len (BARQ.front_idx (BARQ.hdr r)) r'
       = BARQ.slot_len (BARQ.front_idx (BARQ.hdr r)) r.
Proof.
  intros Hi Hsz Hf.
  pose proof (back_of_front _ Hf) as [Hb _].
  assert (Hlt : (BARQ.Writer.max_size_ w <? BARQ.Writer.op_size op) = false)
    by (apply Z.ltb_ge; lia).
  destruct op as [data size now | size now]; simpl in Hlt |- *.
  - unfold BARQ.Writer.write. rewrite Hi, Hlt. simpl.
    eexists _, _. split; [reflexivity|]. simpl.
    unfold BARQ.slot_len, BARQ.copy_payload. rewrite Hb.
    destruct Hf as [E | E]; rewrite E; simpl; repeat split; auto.
  - unfold BARQ.Writer.commit. rewrite Hi, Hlt. simpl.
    eexists _, _. split; [reflexivity|]. simpl.
    unfold BARQ.slot_len. rewrite Hb.
    destruct Hf as [E | E]; rewrite E; simpl; repeat split; auto.
Qed.

(** A publish of the cache-tuned tier overwrites the one length field of
    the header and leaves the frame number and timestamp of the other
    slot alone. *)
Lemma casir_publish_length (op : CASIR.Writer.publish_op) w r :
  CASIR.Writer.is_initialized_ w = true ->
  CASIR.Writer.op_size op <= CASIR.Writer.max_size_ w ->
  (CASIR.front_idx (CASIR.hdr r) = 0 \/ CASIR.front_idx (CASIR.hdr r) = 1) ->
  exists w' r',
    CASIR.Writer.publish op (w, r) = (true, w', r')
    /\ CASIR.Writer.is_initialized_ w' = true
    /\ CASIR.Writer.max_size_ w' = CASIR.Writer.max_size_ w
    /\ CASIR.front_idx (CASIR.hdr r') = 1 - CASIR.front_idx (CASIR.hdr r)
    /\ CASIR.published_length (CASIR.hdr r') = CASIR.Writer.op_size op
    /\ CASIR.slot_frame (CASIR.front_idx (CASIR.hdr r)) r'
       = CASIR.slot_frame (CASIR.front_idx (CASIR.hdr r)) r
    /\ CASIR.slot_timestamp (CASIR.front_idx (CASIR.hdr r)) r'
       = CASIR.slot_timestamp (CASIR.front_idx (CASIR.hdr r)) r.
Proof.
  intros Hi Hsz Hf.
  pose proof (back_of_front _ Hf) as [Hb _].
  assert (Hlt : (CASIR.Writer.max_size_ w <? CASIR.Writer.op_size op) = false)
    by (apply Z.ltb_ge; lia).
  destruct op as [data size now | fill size now | size now]; simpl in Hlt |- *.
  - unfold CASIR.Writer.write. rewrite Hi, Hlt. simpl.
    eexists _, _. split; [reflexivity|]. simpl.
    unfold CASIR.slot_frame, CASIR.slot_timestamp, CASIR.update_buffer, CASIR.Writer.store_meta.
    rewrite Hb.
    destruct Hf as [E | E]; rewrite E; simpl; repeat split; auto.
  - unfold CASIR.Writer.writeZeroCopy. rewrite Hi, Hlt. simpl.
    eexists _, _. split; [reflexivity|]. simpl.
    unfold CASIR.slot_frame, CASIR.slot_timestamp, CASIR.update_buffer, CASIR.Writer.store_meta.
    rewrite Hb.
    destruct Hf as [E | E]; rewrite E; simpl; repeat split; auto.
  - unfold CASIR.Writer.commitWrite. rewrite Hi, Hlt. simpl.
    eexists _, _. split; [reflexivity|]. simpl.
    unfold CASIR.slot_frame, CASIR.slot_timestamp, CASIR.Writer.store_meta. rewrite Hb.
    destruct Hf as [E | E]; rewrite E; simpl; repeat split; auto.
Qed.

End SlotLength.

(** C6 (as stated, refuted for the cache-tuned tier): after a 3-byte and
    then a 5-byte publish, slot 1 still holds the first frame (frame
    number 1) while the only length field of the header reads 5. *)
Lemma casir_shared_length_counterexample :
  let w0 := CASIR.Writer.new "/sensor" 8 SIM.portable default_cache in
  let res := CASIR.Writer.init w0 all_ok no_huge_pages Shm.empty in
  let r0 := CASIR.Writer.init_region w0 false 64 in
  let st1 := CASIR.Writer.publish
               (CASIR.Writer.OpWrite [Byte.x01; Byte.x02; Byte.x03] 3 110)
               (snd (fst res), r0) in
  let st2 := CASIR.Writer.publish
               (CASIR.Writer.OpWrite [Byte.x04; Byte.x05; Byte.x06; Byte.x07; Byte.x08] 5 120)
               (snd (fst st1), snd st1) in
  fst (fst res) = true /\ Shm.objs (snd res) !! 0%nat = Some r0
  /\ fst (fst st1) = true /\ fst (fst st2) = true
  /\ CASIR.front_idx (CASIR.hdr (snd st1)) = 1
  /\ CASIR.front_idx (CASIR.hdr (snd st2)) = 0
  /\ CASIR.slot_frame 1 (snd st2) = 1
  /\ CASIR.buffer1 (snd st2) = CASIR.buffer1 (snd st1)
  /\ CASIR.published_length (CASIR.hdr (snd st1)) = 3
  /\ CASIR.published_length (CASIR.hdr (snd st2)) = 5
  /\ CASIR.published_length (CASIR.hdr (snd st2)) <> 3.
Proof. vm_compute. repeat split; congruence. Qed.

(** C6 (amended). After two successive publishes of sizes [s1] and [s2]:
    in the basic tier the slot that holds the first frame still records
    length [s1] and the other slot records [s2]; in the cache-tuned tier
    the slot that holds the first frame keeps its frame number and
    timestamp, and the single length field of the header, shared by both
    slots, reads [s2]. *)
Theorem slot_length_after_two_publishes :
  (forall (op1 op2 : BARQ.Writer.publish_op) w r,
     BARQ.Writer.initialized_ w = true ->
     BARQ.Writer.op_size op1 <= BARQ.Writer.max_size_ w ->
     BARQ.Writer.op_size op2 <= BARQ.Writer.max_size_ w ->
     (BARQ.front_idx (BARQ.hdr r) = 0 \/ BARQ.front_idx (BARQ.hdr r) = 1) ->
     exists w1 r1 w2 r2,
       BARQ.Writer.publish op1 (w, r) = (true, w1, r1)
       /\ BARQ.Writer.publish op2 (w1, r1) = (true, w2, r2)
       /\ BARQ.front_idx (BARQ.hdr r2) <> BARQ.front_idx (BARQ.hdr r1)
       /\ BARQ.slot_len (BARQ.front_idx (BARQ.hdr r1)) r1 = BARQ.Writer.op_size op1
       /\ BARQ.slot_len (BARQ.front_idx (BARQ.hdr r1)) r2 = BARQ.Writer.op_size op1
       /\ BARQ.slot_len (BARQ.front_idx (BARQ.hdr r2)) r2 = BARQ.Writer.op_size op2)
  /\
  (forall (op1 op2 : CASIR.Writer.publish_op) w r,
     CASIR.Writer.is_initialized_ w = true ->
     CASIR.Writer.op_size op1 <= CASIR.Writer.max_size_ w ->
     CASIR.Writer.op_size op2 <= CASIR.Writer.max_size_ w ->
     (CASIR.front_idx (CASIR.hdr r) = 0 \/ CASIR.front_idx (CASIR.hdr r) = 1) ->
     exists w1 r1 w2 r2,
       CASIR.Writer.publish op1 (w, r) = (true, w1, r1)
       /\ CASIR.Writer.publish op2 (w1, r1) = (true, w2, r2)
       /\ CASIR.front_idx (CASIR.hdr r2) <> CASIR.front_idx (CASIR.hdr r1)
       /\ CASIR.slot_frame (CASIR.front_idx (CASIR.hdr r1)) r2
          = CASIR.slot_frame (CASIR.front_idx (CASIR.hdr r1)) r1
       /\ CASIR.slot_timestamp (CASIR.front_idx (CASIR.hdr r1)) r2
          = CASIR.slot_timestamp (CASIR.front_idx (CASIR.hdr r1)) r1
       /\ CASIR.published_length (CASIR.hdr r1) = CASIR.Writer.op_size op1
       /\ CASIR.published_length (CASIR.hdr r2) = CASIR.Writer.op_size op2).
Proof.
  split.
  - intros op1 op2 w r Hi H1 H2 Hf.
    destruct (barq_publish_length op1 w r Hi H1 Hf)
      as (w1 & r1 & P1 & Hi1 & Hm1 & Hf1 & L1 & _).
    assert (Hf1' : BARQ.front_idx (BARQ.hdr r1) = 0 \/ BARQ.front_idx (BARQ.hdr r1) = 1)
      by lia.
    rewrite <- Hm1 in H2.
    destruct (barq_publish_length op2 w1 r1 Hi1 H2 Hf1')
      as (w2 & r2 & P2 & _ & _ & Hf2 & L2 & K2).
    exists w1, r1, w2, r2. repeat split; auto; try lia.
  - intros op1 op2 w r Hi H1 H2 Hf.
    destruct (casir_publish_length op1 w r Hi H1 Hf)
      as (w1 & r1 & P1 & Hi1 & Hm1 & Hf1 & L1 & _).
    assert (Hf1' : CASIR.front_idx (CASIR.hdr r1) = 0 \/ CASIR.front_idx (CASIR.hdr r1) = 1)
      by lia.
    rewrite <- Hm1 in H2.
    destruct (casir_publish_length op2 w1 r1 Hi1 H2 Hf1')
      as (w2 & r2 & P2 & _ & _ & Hf2 & L2 & K2 & T2).
    exists w1, r1, w2, r2. repeat split; auto; try lia.
Qed.

Lemma slot_length_after_two_publishes_witness :
  let w0 := BARQ.Writer.new "/sensor" 8 false in
  let res := BARQ.Writer.init w0 all_ok 100 Shm.empty in
  let r0 := BARQ.Writer.init_region w0 false 64 100 in
  let op1 := BARQ.Writer.OpWrite [Byte.x01; Byte.x02; Byte.x03] 3 110 in
  let op2 := BARQ.Writer.OpCommit 5 120 in
  Shm.objs (snd res) !! 0%nat = Some r0 /\
  exists w1 r1 w2 r2,
    BARQ.Writer.publish op1 (snd (fst res), r0) = (true, w1, r1)
    /\ BARQ.Writer.publish op2 (w1, r1) = (true, w2, r2)
    /\ BARQ.front_idx (BARQ.hdr r2) <> BARQ.front_idx (BARQ.hdr r1)
    /\ BARQ.slot_len (BARQ.front_idx (BARQ.hdr r1)) r1 = 3
    /\ BARQ.slot_len (BARQ.front_idx (BARQ.hdr r1)) r2 = 3
    /\ BARQ.slot_len (BARQ.front_idx (BARQ.hdr r2)) r2 = 5.
Proof.
  intros w0 res r0 op1 op2.
  split; [vm_compute; reflexivity|].
  apply (proj1 slot_length_after_two_publishes op1 op2 (snd (fst res)) r0).
  - vm_compute. reflexivity.
  - vm_compute. congruence.
  - vm_compute. congruence.
  - left. reflexivity.
Defined.

(** ** Dropped-frame counter of the double-buffer readers *)

(** C2 (as stated, refuted): a reader that attaches after five publishes
    gets sequence 5 on its first non-null [getLatest] while its last
    observed sequence is still 0; its dropped counter stays 0 and does not
    grow by 5 - 0 - 1 = 4. *)
Lemma first_read_gap_counterexample :
  let w0 := BARQ.Writer.new "/sensor" 8 false in
  let res := BARQ.Writer.init w0 all_ok 100 Shm.empty in
  let r0 := BARQ.Writer.init_region w0 false 64 100 in
  let ops := [BARQ.Writer.OpWrite [Byte.x00] 1 110; BARQ.Writer.OpWrite [Byte.x01] 1 120;
              BARQ.Writer.OpWrite [Byte.x02] 1 130; BARQ.Writer.OpWrite [Byte.x03] 1 140;
              BARQ.Writer.OpWrite [Byte.x04] 1 150] in
  let st5 := default (snd (fst res), r0)
               (BARQ.Writer.run ops (snd (fst res), r0) !! 4%nat) in
  let rd := snd (BARQ.Reader.init (BARQ.Reader.new "/sensor" 8) all_ok (snd res)) in
  let out := BARQ.Reader.getLatest rd (snd st5) 0 0 in
  let rd' := snd (fst (fst out)) in
  Shm.objs (snd res) !! 0%nat = Some r0
  /\ BARQ.Reader.initialized_ rd = true
  /\ BARQ.Reader.last_seq_ rd = 0
  /\ fst (fst (fst out)) = Some (BARQ.Reader.buffer_ rd 1)
  /\ BARQ.Reader.last_seq_ rd' = 5
  /\ BARQ.Reader.dropped_ rd' = 0
  /\ BARQ.Reader.dropped_ rd' <> BARQ.Reader.dropped_ rd + (5 - 0 - 1).
Proof. vm_compute. repeat split; congruence. Qed.

(** C2 (amended). When [getLatest] (basic tier) or [read] (cache-tuned
    tier) returns a new frame with sequence [seq] and the reader's last
    observed sequence was [last]: if [last > 0] and [seq > last + 1] the
    dropped counter grows by exactly [seq - last - 1]; otherwise, and in
    particular on the first return after the reader attaches ([last = 0]),
    it is unchanged. Values are within the 64-bit range of the counters. *)
Theorem dropped_counter_update :
  (forall rd r size ts p rd' size' ts',
     BARQ.Reader.getLatest rd r size ts = (Some p, rd', size', ts') ->
     0 <= BARQ.Reader.last_seq_ rd < 2 ^ 64 - 1 ->
     0 <= BARQ.front_seq r < 2 ^ 64 ->
     0 <= BARQ.Reader.dropped_ rd ->
     BARQ.Reader.dropped_ rd + BARQ.front_seq r < 2 ^ 64 ->
     let last := BARQ.Reader.last_seq_ rd in
     let seq := BARQ.Reader.last_seq_ rd' in
     seq = BARQ.front_seq r /\ seq <> last
     /\ (0 < last -> last + 1 < seq ->
         BARQ.Reader.dropped_ rd' = BARQ.Reader.dropped_ rd + (seq - last - 1))
     /\ (last = 0 \/ seq <= last + 1 ->
         BARQ.Reader.dropped_ rd' = BARQ.Reader.dropped_ rd))
  /\
  (forall rd r data size rd' data' size',
     CASIR.Reader.read rd r data size = (true, rd', data', size') ->
     0 <= CASIR.Reader.last_frame_ rd < 2 ^ 64 - 1 ->
     0 <= CASIR.front_frame r < 2 ^ 64 ->
     0 <= CASIR.Reader.dropped_frames_ rd ->
     CASIR.Reader.dropped_frames_ rd + CASIR.front_frame r < 2 ^ 64 ->
     let last := CASIR.Reader.last_frame_ rd in
     let seq := CASIR.Reader.last_frame_ rd' in
     seq = CASIR.front_frame r /\ seq <> last
     /\ (0 < last -> last + 1 < seq ->
         CASIR.Reader.dropped_frames_ rd'
         = CASIR.Reader.dropped_frames_ rd + (seq - last - 1))
     /\ (last = 0 \/ seq <= last + 1 ->
         CASIR.Reader.dropped_frames_ rd' = CASIR.Reader.dropped_frames_ rd)).
Proof.
  split.
  - intros rd r size ts p rd' size' ts'. unfold BARQ.Reader.getLatest.
    destruct (negb (BARQ.Reader.initialized_ rd)); [intros [=]|].
    fold (BARQ.front_seq r).
    destruct (Z.eqb_spec (BARQ.front_seq r) (BARQ.Reader.last_seq_ rd)) as [|Hne];
      [intros [=]|].
    intros [= _ <- _ _] Hl Hs Hd Hov. simpl.
    rewrite (wrap64_small (BARQ.Reader.last_seq_ rd + 1)) by lia.
    split; [reflexivity|]. split; [exact Hne|].
    split.
    + intros H0 H1.
      destruct (Z.ltb_spec 0 (BARQ.Reader.last_seq_ rd)); [|lia].
      destruct (Z.ltb_spec (BARQ.Reader.last_seq_ rd + 1) (BARQ.front_seq r)); [|lia].
      simpl. rewrite (wrap64_small (BARQ.front_seq r - _ - 1)) by lia.
      apply wrap64_small. lia.
    + intros H.
      destruct (Z.ltb_spec 0 (BARQ.Reader.last_seq_ rd)); simpl; [|reflexivity].
      destruct (Z.ltb_spec (BARQ.Reader.last_seq_ rd + 1) (BARQ.front_seq r));
        [lia | reflexivity].
  - intros rd r data size rd' data' size'. unfold CASIR.Reader.read.
    destruct (negb (CASIR.Reader.is_initialized_ rd)); [intros [=]|].
    fold (CASIR.front_frame r).
    destruct (Z.eqb_spec (CASIR.front_frame r) (CASIR.Reader.last_frame_ rd)) as [|Hne];
      [intros [=]|].
    simpl.
    destruct (CASIR.Reader.max_size_ rd <? CASIR.published_length (CASIR.hdr r));
      [intros [=]|].
    intros [= <- _ _] Hl Hs Hd Hov. simpl.
    rewrite (wrap64_small (CASIR.Reader.last_frame_ rd + 1)) by lia.
    split; [reflexivity|]. split; [exact Hne|].
    split.
    + intros H0 H1.
      destruct (Z.ltb_spec 0 (CASIR.Reader.last_frame_ rd)); [|lia].
      destruct (Z.ltb_spec (CASIR.Reader.last_frame_ rd + 1) (CASIR.front_frame r)); [|lia].
      simpl. rewrite (wrap64_small (CASIR.front_frame r - _ - 1)) by lia.
      apply wrap64_small. lia.
    + intros H.
      destruct (Z.ltb_spec 0 (CASIR.Reader.last_frame_ rd)); simpl; [|reflexivity].
      destruct (Z.ltb_spec (CASIR.Reader.last_frame_ rd + 1) (CASIR.front_frame r));
        [lia | reflexivity].
Qed.

Lemma dropped_counter_update_witness :
  let w0 := BARQ.Writer.new "/sensor" 8 false in
  let res := BARQ.Writer.init w0 all_ok 100 Shm.empty in
  let r0 := BARQ.Writer.init_region w0 false 64 100 in
  let ops := [BARQ.Writer.OpWrite [Byte.x00] 1 110; BARQ.Writer.OpWrite [Byte.x01] 1 120;
              BARQ.Writer.OpWrite [Byte.x02] 1 130; BARQ.Writer.OpWrite [Byte.x03] 1 140;
              BARQ.Writer.OpWrite [Byte.x04] 1 150] in
  let st1 := default (snd (fst res), r0)
               (BARQ.Writer.run ops (snd (fst res), r0) !! 0%nat) in
  let st5 := default (snd (fst res), r0)
               (BARQ.Writer.run ops (snd (fst res), r0) !! 4%nat) in
  let rd := snd (BARQ.Reader.init (BARQ.Reader.new "/sensor" 8) all_ok (snd res)) in
  let rd1 := snd (fst (fst (BARQ.Reader.getLatest rd (snd st1) 0 0))) in
  let out := BARQ.Reader.getLatest rd1 (snd st5) 0 0 in
  BARQ.Reader.last_seq_ rd1 = 1
  /\ BARQ.Reader.last_seq_ (snd (fst (fst out))) = 5
  /\ BARQ.Reader.dropped_ (snd (fst (fst out))) = BARQ.Reader.dropped_ rd1 + (5 - 1 - 1).
Proof.
  intros w0 res r0 ops st1 st5 rd rd1 out.
  assert (Heq : BARQ.Reader.getLatest rd1 (snd st5) 0 0
                = (Some (BARQ.Reader.buffer_ rd1 1), snd (fst (fst out)),
                   snd (fst out), snd out))
    by (vm_compute; reflexivity).
  destruct (proj1 dropped_counter_update rd1 (snd st5) 0 0 _ _ _ _ Heq)
    as (A & B & C & D).
  - vm_compute. split; congruence.
  - vm_compute. split; congruence.
  - vm_compute. congruence.
  - vm_compute. reflexivity.
  - split; [vm_compute; reflexivity|].
    split; [vm_compute; reflexivity|].
    rewrite C; [vm_compute; reflexivity | vm_compute; reflexivity | vm_compute; reflexivity].
Defined.

(** ** Oversized frames at the cache-tuned reader *)

Section Oversized.

Import CASIR CASIR.Reader.

(** One call of [read] against a region whose published length exceeds
    the reader's maximum size. *)
Lemma casir_read_oversized (rd : t) (r : Region) (data : list byte) (size : Z) :
  max_size_ rd < published_length (hdr r) ->
  exists rd',
    read rd r data size = (false, rd', data, size)
    /\ last_frame_ rd' = last_frame_ rd
    /\ last_timestamp_ns_ rd' = last_timestamp_ns_ rd
    /\ max_size_ rd' = max_size_ rd.
Proof.
  intros Hbig. unfold read.
  destruct (negb (is_initialized_ rd)); [exists rd; auto|].
  destruct (_ =? last_frame_ rd); [exists rd; auto|].
  simpl.
  destruct (Z.ltb_spec (max_size_ rd) (published_length (hdr r))); [|lia].
  eexists. split; [reflexivity|]. simpl. auto.
Qed.

End Oversized.

(** C10. Whenever the published payload length exceeds the maximum size the
    cache-tuned reader was constructed with, [read] returns false, leaves
    the caller's buffer and size untouched and does not update the last
    observed frame or timestamp; and this repeats for as long as every
    region state the reader meets has such a length: every call returns
    false and nothing is ever copied. When [read] does copy, it copies the
    published length, which is then at most the reader's maximum size,
    from the reader's own pointer to the front buffer. *)
Theorem read_rejects_oversized_frame :
  (forall rd r data size,
     CASIR.Reader.max_size_ rd < CASIR.published_length (CASIR.hdr r) ->
     exists rd',
       CASIR.Reader.read rd r data size = (false, rd', data, size)
       /\ CASIR.Reader.last_frame_ rd' = CASIR.Reader.last_frame_ rd
       /\ CASIR.Reader.last_timestamp_ns_ rd' = CASIR.Reader.last_timestamp_ns_ rd)
  /\
  (forall rs rd data size,
     Forall (fun r => CASIR.Reader.max_size_ rd < CASIR.published_length (CASIR.hdr r)) rs ->
     exists rd',
       CASIR.Reader.read_all rs rd data size
         = (replicate (length rs) false, rd', data, size)
       /\ CASIR.Reader.last_frame_ rd' = CASIR.Reader.last_frame_ rd
       /\ CASIR.Reader.last_timestamp_ns_ rd' = CASIR.Reader.last_timestamp_ns_ rd)
  /\
  (forall rd r data size rd' data' size',
     CASIR.Reader.read rd r data size = (true, rd', data', size') ->
     size' = CASIR.published_length (CASIR.hdr r)
     /\ size' <= CASIR.Reader.max_size_ rd
     /\ data' = memcpy data
                  (CASIR.read_bytes
                     (CASIR.Reader.buffer_ rd (CASIR.front_idx (CASIR.hdr r))) size' r)
                  size').
Proof.
  split; [|split].
  - intros rd r data size Hbig.
    destruct (casir_read_oversized rd r data size Hbig) as (rd' & E & A & B & _).
    exists rd'. auto.
  - intros rs. induction rs as [|r rs IH]; intros rd data size Hall.
    + exists rd. simpl. auto.
    + inversion Hall as [|? ? Hr Hrs]; subst.
      destruct (casir_read_oversized rd r data size Hr) as (rd1 & E & A & B & M).
      rewrite <- M in Hrs.
      destruct (IH rd1 data size Hrs) as (rd2 & E2 & A2 & B2).
      exists rd2. simpl. rewrite E, E2. split; [reflexivity|]. split; congruence.
  - intros rd r data size rd' data' size'. unfold CASIR.Reader.read.
    destruct (negb (CASIR.Reader.is_initialized_ rd)); [intros [=]|].
    destruct (_ =? CASIR.Reader.last_frame_ rd); [intros [=]|].
    simpl.
    destruct (Z.ltb_spec (CASIR.Reader.max_size_ rd)
                (CASIR.published_length (CASIR.hdr r))); [intros [=]|].
    intros [= _ <- <-]. auto.
Qed.

Lemma read_rejects_oversized_frame_witness :
  let w0 := CASIR.Writer.new "/sensor" 8 SIM.portable default_cache in
  let res := CASIR.Writer.init w0 all_ok no_huge_pages Shm.empty in
  let r0 := CASIR.Writer.init_region w0 false 64 in
  let ops := [CASIR.Writer.OpWrite [Byte.x01; Byte.x02; Byte.x03; Byte.x04; Byte.x05] 5 110;
              CASIR.Writer.OpCommitWrite 6 120] in
  let rs := map snd (CASIR.Writer.run ops (snd (fst res), r0)) in
  let rd := snd (CASIR.Reader.init
                   (CASIR.Reader.new "/sensor" 4 SIM.portable default_cache)
                   all_ok (snd res)) in
  let data := [Byte.xff; Byte.xff; Byte.xff; Byte.xff] in
  Shm.objs (snd res) !! 0%nat = Some r0
  /\ CASIR.Reader.is_initialized_ rd = true
  /\ exists rd',
       CASIR.Reader.read_all rs rd data 0 = ([false; false], rd', data, 0)
       /\ CASIR.Reader.last_frame_ rd' = CASIR.Reader.last_frame_ rd
       /\ CASIR.Reader.last_timestamp_ns_ rd' = CASIR.Reader.last_timestamp_ns_ rd.
Proof.
  intros w0 res r0 ops rs rd data.
  split; [vm_compute; reflexivity|].
  split; [vm_compute; reflexivity|].
  apply (proj1 (proj2 read_rejects_oversized_frame) rs rd data 0).
  repeat constructor; vm_compute; reflexivity.
Defined.

(** ** Writer initialisation and the name space *)

Section InitUnlink.

Context {R : Type}.

Lemma unlink_idemp (name : string) (s : Shm.fs R) :
  Shm.shm_unlink name (Shm.shm_unlink name s) = Shm.shm_unlink name s.
Proof. unfold Shm.shm_unlink. simpl. rewrite delete_delete_eq. reflexivity. Qed.

(** After [shm_unlink] the name is free: a creating [shm_open] makes a new
    object, with or without [O_EXCL]. *)
Lemma open_creat_after_unlink (excl : bool) (name : string) (s : Shm.fs R) :
  Shm.shm_open_creat true excl name (Shm.shm_unlink name s)
  = (Some (Shm.next_id s),
     Shm.Fs (<[name := Shm.next_id s]> (delete name (Shm.names s)))
            (Shm.objs s) (S (Shm.next_id s))).
Proof.
  unfold Shm.shm_open_creat, Shm.shm_unlink. simpl.
  rewrite lookup_delete_eq. reflexivity.
Qed.

End InitUnlink.

Lemma barq_init_fresh (w : BARQ.Writer.t) sys now (s : Shm.fs BARQ.Region) :
  BARQ.Writer.initialized_ w = false -> BARQ.Writer.ptr_ w = None ->
  calls_succeed sys ->
  exists w' r,
    BARQ.Writer.init w sys now s
    = (true, w',
       Shm.store (Shm.next_id s) r
         (Shm.Fs (<[BARQ.Writer.name_ w := Shm.next_id s]>
                    (delete (BARQ.Writer.name_ w) (Shm.names s)))
                 (Shm.objs s) (S (Shm.next_id s))))
    /\ BARQ.Writer.initialized_ w' = true
    /\ BARQ.Writer.ptr_ w' = Some (Shm.next_id s).
Proof.
  intros Hi Hp (Ho & Ht & Hm). unfold BARQ.Writer.init.
  rewrite Hi, Ho, open_creat_after_unlink, Ht, Hp, Hm. simpl.
  destruct (BARQ.Writer.use_huge_pages_ w && _); simpl.
  - destruct (mmap_hugetlb_ok sys); simpl; eexists _, _; split; eauto.
  - eexists _, _; split; eauto.
Qed.

Lemma casir_init_fresh (w : CASIR.Writer.t) sys hp (s : Shm.fs CASIR.Region) :
  CASIR.Writer.is_initialized_ w = false ->
  calls_succeed sys ->
  exists w' r,
    CASIR.Writer.init w sys hp s
    = (true, w',
       Shm.store (Shm.next_id s) r
         (Shm.Fs (<[CASIR.Writer.shm_name_ w := Shm.next_id s]>
                    (delete (CASIR.Writer.shm_name_ w) (Shm.names s)))
                 (Shm.objs s) (S (Shm.next_id s))))
    /\ CASIR.Writer.is_initialized_ w' = true
    /\ CASIR.Writer.shm_ptr_ w' = Some (Shm.next_id s).
Proof.
  intros Hi (Ho & Ht & Hm). unfold CASIR.Writer.init, CASIR.Writer.allocateMemory.
  rewrite Hi, Ho, open_creat_after_unlink, Ht, Hm. simpl.
  destruct (SIM.use_huge_pages (CASIR.Writer.config_ w) && SIM.usable hp
            && mmap_hugetlb_ok sys); simpl; eexists _, _; split; eauto.
Qed.

Lemma sahm_init_fresh (w : SAHM.DirectWriter.t) sys now (s : SAHM.World) :
  SAHM.DirectWriter.is_initialized_ w = false ->
  calls_succeed sys ->
  exists w',
    SAHM.DirectWriter.init w sys now s
    = (true, w',
       Shm.store (Shm.next_id s) (SAHM.Control (SAHM.DirectWriter.init_header w now))
         (Shm.Fs (<[SAHM.DirectWriter.channel_name_ w := Shm.next_id s]>
                    (delete (SAHM.DirectWriter.channel_name_ w) (Shm.names s)))
                 (Shm.objs s) (S (Shm.next_id s))))
    /\ SAHM.DirectWriter.is_initialized_ w' = true
    /\ SAHM.DirectWriter.header_ w' = Some (Shm.next_id s)
    /\ SAHM.DirectWriter.max_slot_size_ w' = SAHM.DirectWriter.max_slot_size_ w
    /\ SAHM.DirectWriter.readers_ w'
       = replicate SAHM.MAX_READERS SAHM.DirectWriter.invalid_reader.
Proof.
  intros Hi (Ho & Ht & Hm). unfold SAHM.DirectWriter.init.
  rewrite Hi, Ho, open_creat_after_unlink, Ht, Hm. simpl.
  eexists; split; eauto.
Qed.

(** C9. In the three engines the writer's [init] unlinks the name before
    creating the object, so its result is the same whether or not an
    object of that name exists; it succeeds whenever the system calls it
    needs succeed, also in a name space that already holds the name; and a
    second writer initialised on the same name succeeds as well, gets a new
    object, and leaves the first writer initialised on an object the name no
    longer leads to: the exclusive create keeps no second writer out. *)
Theorem init_replaces_existing_region :
  (forall name max1 huge1 max2 huge2 sys1 sys2 now1 now2 (s : Shm.fs BARQ.Region),
     calls_succeed sys1 -> calls_succeed sys2 ->
     (forall sys,
        BARQ.Writer.init (BARQ.Writer.new name max1 huge1) sys now1 s
        = BARQ.Writer.init (BARQ.Writer.new name max1 huge1) sys now1
            (Shm.shm_unlink name s))
     /\ exists w1 s1 id1 w2 s2 id2,
          BARQ.Writer.init (BARQ.Writer.new name max1 huge1) sys1 now1 s = (true, w1, s1)
          /\ BARQ.Writer.initialized_ w1 = true /\ BARQ.Writer.ptr_ w1 = Some id1
          /\ Shm.names s1 !! name = Some id1
          /\ BARQ.Writer.init (BARQ.Writer.new name max2 huge2) sys2 now2 s1 = (true, w2, s2)
          /\ BARQ.Writer.initialized_ w2 = true /\ BARQ.Writer.ptr_ w2 = Some id2
          /\ Shm.names s2 !! name = Some id2
          /\ id2 <> id1 /\ Shm.objs s2 !! id1 = Shm.objs s1 !! id1)
  /\
  (forall name max1 cfg1 max2 cfg2 cache sys1 sys2 hp1 hp2 (s : Shm.fs CASIR.Region),
     calls_succeed sys1 -> calls_succeed sys2 ->
     (forall sys,
        CASIR.Writer.init (CASIR.Writer.new name max1 cfg1 cache) sys hp1 s
        = CASIR.Writer.init (CASIR.Writer.new name max1 cfg1 cache) sys hp1
            (Shm.shm_unlink name s))
     /\ exists w1 s1 id1 w2 s2 id2,
          CASIR.Writer.init (CASIR.Writer.new name max1 cfg1 cache) sys1 hp1 s = (true, w1, s1)
          /\ CASIR.Writer.is_initialized_ w1 = true /\ CASIR.Writer.shm_ptr_ w1 = Some id1
          /\ Shm.names s1 !! name = Some id1
          /\ CASIR.Writer.init (CASIR.Writer.new name max2 cfg2 cache) sys2 hp2 s1
             = (true, w2, s2)
          /\ CASIR.Writer.is_initialized_ w2 = true /\ CASIR.Writer.shm_ptr_ w2 = Some id2
          /\ Shm.names s2 !! name = Some id2
          /\ id2 <> id1 /\ Shm.objs s2 !! id1 = Shm.objs s1 !! id1)
  /\
  (forall name max1 max2 sys1 sys2 now1 now2 (s : SAHM.World),
     calls_succeed sys1 -> calls_succeed sys2 ->
     (forall sys,
        SAHM.DirectWriter.init (SAHM.DirectWriter.new name max1) sys now1 s
        = SAHM.DirectWriter.init (SAHM.DirectWriter.new name max1) sys now1
            (Shm.shm_unlink name s))
     /\ exists w1 s1 id1 w2 s2 id2,
          SAHM.DirectWriter.init (SAHM.DirectWriter.new name max1) sys1 now1 s = (true, w1, s1)
          /\ SAHM.DirectWriter.is_initialized_ w1 = true
          /\ SAHM.DirectWriter.header_ w1 = Some id1
          /\ Shm.names s1 !! name = Some id1
          /\ SAHM.DirectWriter.init (SAHM.DirectWriter.new name max2) sys2 now2 s1
             = (true, w2, s2)
          /\ SAHM.DirectWriter.is_initialized_ w2 = true
          /\ SAHM.DirectWriter.header_ w2 = Some id2
          /\ Shm.names s2 !! name = Some id2
          /\ id2 <> id1 /\ Shm.objs s2 !! id1 = Shm.objs s1 !! id1).
Proof.
  split; [|split].
  - intros name max1 huge1 max2 huge2 sys1 sys2 now1 now2 s H1 H2. split.
    { intros sys. unfold BARQ.Writer.init. simpl. rewrite unlink_idemp. reflexivity. }
    destruct (barq_init_fresh (BARQ.Writer.new name max1 huge1) sys1 now1 s
                eq_refl eq_refl H1) as (w1 & r1 & E1 & I1 & P1).
    simpl in E1.
    set (s1 := Shm.store (Shm.next_id s) r1 _) in E1.
    destruct (barq_init_fresh (BARQ.Writer.new name max2 huge2) sys2 now2 s1
                eq_refl eq_refl H2) as (w2 & r2 & E2 & I2 & P2).
    simpl in E2.
    eexists w1, s1, _, w2, _, _.
    split; [exact E1|]. split; [exact I1|]. split; [exact P1|].
    split; [apply lookup_insert_eq|].
    split; [exact E2|]. split; [exact I2|]. split; [exact P2|].
    split; [apply lookup_insert_eq|].
    split; [simpl; lia|].
    simpl. apply lookup_insert_ne. lia.
  - intros name max1 cfg1 max2 cfg2 cache sys1 sys2 hp1 hp2 s H1 H2. split.
    { intros sys. unfold CASIR.Writer.init. simpl. rewrite unlink_idemp. reflexivity. }
    destruct (casir_init_fresh (CASIR.Writer.new name max1 cfg1 cache) sys1 hp1 s
                eq_refl H1) as (w1 & r1 & E1 & I1 & P1).
    simpl in E1.
    set (s1 := Shm.store (Shm.next_id s) r1 _) in E1.
    destruct (casir_init_fresh (CASIR.Writer.new name max2 cfg2 cache) sys2 hp2 s1
                eq_refl H2) as (w2 & r2 & E2 & I2 & P2).
    simpl in E2.
    eexists w1, s1, _, w2, _, _.
    split; [exact E1|]. split; [exact I1|]. split; [exact P1|].
    split; [apply lookup_insert_eq|].
    split; [exact E2|]. split; [exact I2|]. split; [exact P2|].
    split; [apply lookup_insert_eq|].
    split; [simpl; lia|].
    simpl. apply lookup_insert_ne. lia.
  - intros name max1 max2 sys1 sys2 now1 now2 s H1 H2. split.
    { intros sys. unfold SAHM.DirectWriter.init. simpl. rewrite unlink_idemp. reflexivity. }
    destruct (sahm_init_fresh (SAHM.DirectWriter.new name max1) sys1 now1 s
                eq_refl H1) as (w1 & E1 & I1 & P1 & _).
    simpl in E1.
    set (s1 := Shm.store (Shm.next_id s) _ _) in E1.
    destruct (sahm_init_fresh (SAHM.DirectWriter.new name max2) sys2 now2 s1
                eq_refl H2) as (w2 & E2 & I2 & P2 & _).
    simpl in E2.
    eexists w1, s1, _, w2, _, _.
    split; [exact E1|]. split; [exact I1|]. split; [exact P1|].
    split; [apply lookup_insert_eq|].
    split; [exact E2|]. split; [exact I2|]. split; [exact P2|].
    split; [apply lookup_insert_eq|].
    split; [simpl; lia|].
    simpl. apply lookup_insert_ne. lia.
Qed.

Lemma init_replaces_existing_region_witness :
  let s0 : Shm.fs BARQ.Region :=
    Shm.Fs {["/sensor"%string := 0%nat]}
           {[0%nat := BARQ.Writer.init_region (BARQ.Writer.new "/sensor" 4 false) false 64 7]}
           1%nat in
  Shm.names s0 !! "/sensor"%string = Some 0%nat
  /\ exists w1 s1 id1 w2 s2 id2,
       BARQ.Writer.init (BARQ.Writer.new "/sensor" 8 false) all_ok 100 s0 = (true, w1, s1)
       /\ BARQ.Writer.initialized_ w1 = true /\ BARQ.Writer.ptr_ w1 = Some id1
       /\ Shm.names s1 !! "/sensor"%string = Some id1
       /\ BARQ.Writer.init (BARQ.Writer.new "/sensor" 16 false) all_ok 200 s1 = (true, w2, s2)
       /\ BARQ.Writer.initialized_ w2 = true /\ BARQ.Writer.ptr_ w2 = Some id2
       /\ Shm.names s2 !! "/sensor"%string = Some id2
       /\ id2 <> id1 /\ Shm.objs s2 !! id1 = Shm.objs s1 !! id1.
Proof.
  intros s0. split; [vm_compute; reflexivity|].
  apply (proj1 init_replaces_existing_region
           "/sensor"%string 8 false 16 false all_ok all_ok 100 200 s0).
  - repeat split; reflexivity.
  - repeat split; reflexivity.
Defined.

(** ** Ring fan-out writer: return value *)

Section FanOutCount.

Import SAHM SAHM.DirectWriter.

Lemma at_idx_insert_eq {A : Type} (d x : A) (l : list A) (i : nat) :
  (i < length l)%nat -> at_idx d (<[i := x]> l) i = x.
Proof.
  intros H. unfold at_idx. rewrite list_lookup_insert_eq by exact H. reflexivity.
Qed.

Lemma at_idx_insert_ne {A : Type} (d x : A) (l : list A) (i j : nat) :
  i <> j -> at_idx d (<[i := x]> l) j = at_idx d l j.
Proof.
  intros H. unfold at_idx. rewrite list_lookup_insert_ne by exact H. reflexivity.
Qed.


(** With no valid entry the loop touches nothing. *)
Lemma for_each_publish_none (w : t) data size ts (idxs : list nat) n s :
  (forall i, valid (at_idx invalid_reader (readers_ w) i) = false) ->
  for_each (publish_entry w data size ts) idxs (n, s) = Some (n, s).
Proof.
  intros Hv. induction idxs as [|i idxs IH]; [reflexivity|].
  simpl. unfold publish_entry at 1. rewrite Hv. simpl. exact IH.
Qed.

(** With no active entry and no valid mapping, discovery changes nothing. *)
Lemma discover_none (w : t) sys h s (idxs : list nat) rs :
  (forall i, at_idx false (reader_active h) i = false) ->
  (forall i, valid (at_idx invalid_reader rs i) = false) ->
  fold_left (fun rs i => discover_entry w sys h s i rs) idxs rs = rs.
Proof.
  intros Ha Hv. induction idxs as [|i idxs IH]; [reflexivity|].
  simpl. unfold discover_entry at 2. rewrite Ha, Hv. simpl. exact IH.
Qed.

Lemma set_readers_id (w : t) : set_readers (readers_ w) w = w.
Proof. destruct w. reflexivity. Qed.

Lemma filter_length_le {A : Type} (f : A -> bool) (l : list A) :
  (length (List.filter f l) <= length l)%nat.
Proof.
  induction l as [|x l IH]; simpl; [lia|]. destruct (f x); simpl; lia.
Qed.

End FanOutCount.

Section FanOutReturn.

Import SAHM SAHM.DirectWriter.

Lemma at_idx_replicate_default {A : Type} (x : A) (n i : nat) :
  at_idx x (replicate n x) i = x.
Proof.
  unfold at_idx. destruct (replicate n x !! i) as [y|] eqn:E; [|reflexivity].
  apply lookup_replicate in E as [-> _]. reflexivity.
Qed.

(** What a successful [init] of a constructed writer leaves behind. *)
Lemma sahm_init_success (w w1 : t) sys now (s s1 : World) :
  is_initialized_ w = false ->
  init w sys now s = (true, w1, s1) ->
  exists cid,
    header_ w1 = Some cid
    /\ Shm.objs s1 !! cid = Some (Control (init_header w now))
    /\ is_initialized_ w1 = true
    /\ max_slot_size_ w1 = max_slot_size_ w
    /\ readers_ w1 = replicate MAX_READERS invalid_reader
    /\ Shm.names s1 !! channel_name_ w = Some cid
    /\ Shm.next_id s1 = S cid
    /\ cid = Shm.next_id s.
Proof.
  intros Hi. unfold init. rewrite Hi.
  destruct (shm_open_ok sys); [|intros [=]].
  rewrite open_creat_after_unlink.
  destruct (negb (ftruncate_ok sys)); [intros [=]|].
  destruct (negb (mmap_ok sys)); [intros [=]|].
  intros [= <- <-]. exists (Shm.next_id s). simpl.
  rewrite !lookup_insert_eq. repeat split; reflexivity.
Qed.

(** A publish by a writer that has no valid mapping and sees no active
    entry: only the heartbeat changes. *)
Lemma publish_no_readers (w : t) sys (s : World) cid h data size ts :
  is_initialized_ w = true -> size <= max_slot_size_ w ->
  header_ w = Some cid -> Shm.objs s !! cid = Some (Control h) ->
  (forall i, at_idx false (reader_active h) i = false) ->
  (forall i, valid (at_idx invalid_reader (readers_ w) i) = false) ->
  write w sys s data size ts
    = Some (0, w, Shm.store cid (Control (set_heartbeat ts h)) s)
  /\ commitSlots w s size ts
    = Some (0, w, Shm.store cid (Control (set_heartbeat ts h)) s).
Proof.
  intros Hi Hsz Hh Ho Ha Hv.
  assert (Hlt : (max_slot_size_ w <? size) = false) by (apply Z.ltb_ge; lia).
  assert (Hpub : forall d, publish_all w d size ts s
                 = Some (0, Shm.store cid (Control (set_heartbeat ts h)) s)).
  { intros d. unfold publish_all. rewrite for_each_publish_none by exact Hv.
    unfold load_control, store_at. rewrite Hh, Ho. reflexivity. }
  split.
  - unfold write. rewrite Hi, Hlt. simpl.
    unfold discoverReaders, load_control. rewrite Hh, Ho.
    rewrite discover_none by assumption. rewrite set_readers_id.
    rewrite Hpub. reflexivity.
  - unfold commitSlots. rewrite Hi, Hlt. simpl. rewrite Hpub. reflexivity.
Qed.

End FanOutReturn.

Section FanOutRings.

Import SAHM SAHM.DirectWriter.







End FanOutRings.

Section FanOutRingsAll.

Import SAHM SAHM.DirectWriter.


End FanOutRingsAll.


(** ** Ring fan-out: registration *)

Section Registration.

Import SAHM SAHM.DirectReader.

Lemma reg_run_S (rd : t) (n : nat) (h : ControlHeader) :
  reg_run rd (S n) h = reg_step rd (reg_run rd n h).
Proof. reflexivity. Qed.

(** While the entries tested so far are taken, the loop is still
    scanning and the directory is as it was. *)
Lemma reg_run_scan (rd : t) (h : ControlHeader) (i : nat) :
  (i <= MAX_READERS)%nat ->
  (forall j, (j < i)%nat -> at_idx false (reader_active h) j = true) ->
  reg_run rd i h = (Scan i, h).
Proof.
  intros Hi Hact. induction i as [|i IH]; [reflexivity|].
  rewrite reg_run_S, IH by (try lia; intros j Hj; apply Hact; lia).
  unfold reg_step. destruct (Nat.leb_spec MAX_READERS i) as [Hle|_]; [lia|].
  unfold compare_exchange_active. rewrite Hact by lia. reflexivity.
Qed.

Lemma reg_run_done (rd : t) (n m : nat) (h h' : ControlHeader) r :
  reg_run rd n h = (Done r, h') -> reg_run rd (m + n) h = (Done r, h').
Proof.
  intros H. induction m as [|m IH]; [exact H|].
  simpl plus. rewrite reg_run_S, IH. reflexivity.
Qed.

(** The steps of a registration that finds entry [i] free after [i] taken
    entries: the flag, then the name, then the ring size, then the count. *)
Lemma reg_run_claim (rd : t) (h : ControlHeader) (i : nat) :
  (i < MAX_READERS)%nat ->
  (forall j, (j < i)%nat -> at_idx false (reader_active h) j = true) ->
  at_idx false (reader_active h) i = false ->
  let h1 := set_active i true h in
  let h2 := set_name i (stored_name (my_shm_name_ rd)) h1 in
  let h3 := set_ring_size i (ring_size_ rd) h2 in
  let h4 := set_num_readers (wrap32 (num_readers h + 1)) h3 in
  reg_run rd (i + 1) h = (NameStore i, h1)
  /\ reg_run rd (i + 2) h = (SizeStore i, h2)
  /\ reg_run rd (i + 3) h = (CountAdd i, h3)
  /\ reg_run rd (i + 4) h = (Done (Some i), h4)
  /\ register rd h = (Some i, h4).
Proof.
  intros Hi Hact Hfree h1 h2 h3 h4.
  assert (E1 : reg_run rd (i + 1) h = (NameStore i, h1)).
  { replace (i + 1)%nat with (S i) by lia.
    rewrite reg_run_S, (reg_run_scan rd h i) by (try lia; exact Hact).
    unfold reg_step. destruct (Nat.leb_spec MAX_READERS i) as [Hle|_]; [lia|].
    unfold compare_exchange_active. rewrite Hfree. reflexivity. }
  assert (E2 : reg_run rd (i + 2) h = (SizeStore i, h2)).
  { replace (i + 2)%nat with (S (i + 1)) by lia. rewrite reg_run_S, E1. reflexivity. }
  assert (E3 : reg_run rd (i + 3) h = (CountAdd i, h3)).
  { replace (i + 3)%nat with (S (i + 2)) by lia. rewrite reg_run_S, E2. reflexivity. }
  assert (E4 : reg_run rd (i + 4) h = (Done (Some i), h4)).
  { replace (i + 4)%nat with (S (i + 3)) by lia. rewrite reg_run_S, E3. reflexivity. }
  repeat split; try assumption.
  unfold register.
  replace (MAX_READERS + 4)%nat with ((MAX_READERS - i) + (i + 4))%nat by lia.
  rewrite (reg_run_done rd (i + 4) (MAX_READERS - i) h h4 (Some i) E4). reflexivity.
Qed.

End Registration.

(** The writer's guard: an active entry whose name is still empty is left
    unmapped by [discoverReaders]. *)
Lemma discover_skips_unnamed (w : SAHM.DirectWriter.t) sys h s i rs :
  SAHM.at_idx ""%string (SAHM.reader_shm_names h) i = ""%string ->
  SAHM.DirectWriter.valid (SAHM.at_idx SAHM.DirectWriter.invalid_reader rs i) = false ->
  SAHM.DirectWriter.discover_entry w sys h s i rs = rs.
Proof.
  intros Hn Hv. unfold SAHM.DirectWriter.discover_entry. rewrite Hn, Hv. simpl.
  destruct (SAHM.at_idx false (SAHM.reader_active h) i); reflexivity.
Qed.

(** C4 (as stated, refuted): on the directory a writer has just
    initialised, one step into the registration of a reader entry 0 has its
    active flag set while its name is empty and its ring size is 0; one
    step later the name is there and the ring size is still 0. *)
Lemma registration_flag_first_counterexample :
  let w := SAHM.DirectWriter.new "/chan" 1024 in
  let h0 := SAHM.DirectWriter.init_header w 100 in
  let rd := SAHM.DirectReader.new "/chan" 1024 30 4242 in
  let st1 := SAHM.DirectReader.reg_run rd 1 h0 in
  let st2 := SAHM.DirectReader.reg_run rd 2 h0 in
  Shm.objs (snd (SAHM.DirectWriter.init w all_ok 100 Shm.empty)) !! 0%nat
    = Some (SAHM.Control h0)
  /\ fst st1 = SAHM.DirectReader.NameStore 0
  /\ SAHM.reader_active (snd st1) !! 0%nat = Some true
  /\ SAHM.reader_shm_names (snd st1) !! 0%nat = Some ""%string
  /\ SAHM.reader_ring_sizes (snd st1) !! 0%nat = Some 0
  /\ fst st2 = SAHM.DirectReader.SizeStore 0
  /\ SAHM.reader_active (snd st2) !! 0%nat = Some true
  /\ SAHM.reader_shm_names (snd st2) !! 0%nat = Some "/chan_reader_4242"%string
  /\ SAHM.reader_ring_sizes (snd st2) !! 0%nat = Some 0
  /\ fst (SAHM.DirectReader.register rd h0) = Some 0%nat
  /\ SAHM.reader_ring_sizes (snd (SAHM.DirectReader.register rd h0)) !! 0%nat = Some 30.
Proof. vm_compute. repeat split; reflexivity. Qed.

(** C4 (amended). A registration that finds directory entry [i] free sets
    the entry's active flag first (the test-and-set that claims it), with
    name and ring size as they were; the next store writes the name, the
    one after it the ring size, and the reader count is added last. A
    writer that meets the entry while its flag is set and its name is still
    empty leaves it unmapped. *)
Theorem registration_sets_flag_first (rd : SAHM.DirectReader.t) (h : SAHM.ControlHeader)
    (i : nat) :
  (i < SAHM.MAX_READERS)%nat ->
  length (SAHM.reader_active h) = SAHM.MAX_READERS ->
  (forall j, (j < i)%nat -> SAHM.at_idx false (SAHM.reader_active h) j = true) ->
  SAHM.at_idx false (SAHM.reader_active h) i = false ->
  let h1 := SAHM.set_active i true h in
  let h2 := SAHM.set_name i
              (SAHM.DirectReader.stored_name (SAHM.DirectReader.my_shm_name_ rd)) h1 in
  let h3 := SAHM.set_ring_size i (SAHM.DirectReader.ring_size_ rd) h2 in
  let h4 := SAHM.set_num_readers (wrap32 (SAHM.num_readers h + 1)) h3 in
  (forall k, (k <= i)%nat ->
     SAHM.DirectReader.reg_run rd k h = (SAHM.DirectReader.Scan k, h))
  /\ SAHM.DirectReader.reg_run rd (i + 1) h = (SAHM.DirectReader.NameStore i, h1)
  /\ SAHM.DirectReader.reg_run rd (i + 2) h = (SAHM.DirectReader.SizeStore i, h2)
  /\ SAHM.DirectReader.reg_run rd (i + 3) h = (SAHM.DirectReader.CountAdd i, h3)
  /\ SAHM.DirectReader.reg_run rd (i + 4) h = (SAHM.DirectReader.Done (Some i), h4)
  /\ SAHM.DirectReader.register rd h = (Some i, h4)
  /\ SAHM.at_idx false (SAHM.reader_active h1) i = true
  /\ SAHM.reader_shm_names h1 = SAHM.reader_shm_names h
  /\ SAHM.reader_ring_sizes h1 = SAHM.reader_ring_sizes h
  /\ SAHM.reader_ring_sizes h2 = SAHM.reader_ring_sizes h
  /\ (SAHM.at_idx ""%string (SAHM.reader_shm_names h) i = ""%string ->
      forall w sys s rs,
        SAHM.DirectWriter.valid (SAHM.at_idx SAHM.DirectWriter.invalid_reader rs i) = false ->
        SAHM.DirectWriter.discover_entry w sys h1 s i rs = rs).
Proof.
  intros Hi Hlen Hact Hfree h1 h2 h3 h4.
  destruct (reg_run_claim rd h i Hi Hact Hfree) as (E1 & E2 & E3 & E4 & E5).
  split.
  { intros k Hk. apply reg_run_scan; [lia|]. intros j Hj. apply Hact. lia. }
  do 5 (split; [assumption|]).
  split.
  { unfold h1. simpl. apply at_idx_insert_eq. rewrite Hlen. exact Hi. }
  do 3 (split; [reflexivity|]).
  intros Hn w sys s rs Hv. apply discover_skips_unnamed; [exact Hn | exact Hv].
Qed.

Lemma registration_sets_flag_first_witness :
  let h0 := SAHM.DirectWriter.init_header (SAHM.DirectWriter.new "/chan" 1024) 100 in
  let rd := SAHM.DirectReader.new "/chan" 1024 30 4242 in
  SAHM.DirectReader.reg_run rd 1 h0
    = (SAHM.DirectReader.NameStore 0, SAHM.set_active 0 true h0)
  /\ fst (SAHM.DirectReader.register rd h0) = Some 0%nat.
Proof.
  intros h0 rd.
  destruct (registration_sets_flag_first rd h0 0) as (_ & E1 & _ & _ & _ & E5 & _).
  - unfold SAHM.MAX_READERS. lia.
  - reflexivity.
  - intros j Hj. lia.
  - reflexivity.
  - split; [exact E1|]. rewrite E5. reflexivity.
Defined.


(** ** Ring fan-out: wrap-around of a reader's ring *)

Section RingArith.

Import SAHM.


Lemma ring_seq_after_0 (N j : Z) : 0 < N -> ring_seq_after N 0 j = if j <? 0 then j + 1 else 0.
Proof.
  intros HN. unfold ring_seq_after. rewrite Z.mod_0_l, Z.div_0_l by lia. reflexivity.
Qed.


End RingArith.

Section FanOutOneReader.

Import SAHM SAHM.DirectWriter.

(** Discovery changes nothing when every entry is mapped exactly if it is
    active. *)
Lemma discover_stable (w : t) sys h s (idxs : list nat) rs :
  (forall i, at_idx false (reader_active h) i = valid (at_idx invalid_reader rs i)) ->
  fold_left (fun rs i => discover_entry w sys h s i rs) idxs rs = rs.
Proof.
  intros Hs. induction idxs as [|i idxs IH]; [reflexivity|].
  simpl. unfold discover_entry at 2. rewrite Hs.
  destruct (valid (at_idx invalid_reader rs i)); simpl; exact IH.
Qed.

(** The loop skips the entries without a valid mapping. *)
Lemma for_each_publish_skip (w : t) data size ts (idxs : list nat) st :
  Forall (fun i => valid (at_idx invalid_reader (readers_ w) i) = false) idxs ->
  for_each (publish_entry w data size ts) idxs st = Some st.
Proof.
  induction 1 as [|i idxs Hi _ IH]; [reflexivity|].
  simpl. unfold publish_entry at 1. rewrite Hi. simpl. exact IH.
Qed.

(** A fresh ring is in the state of zero publishes. *)
Lemma init_ring_holds (rd : DirectReader.t) :
  0 < DirectReader.ring_size_ rd ->
  ring_holds (DirectReader.ring_size_ rd) 0 (Some (DirectReader.init_ring rd)).
Proof.
  intros HN. unfold DirectReader.init_ring. eexists _, _. split; [reflexivity|].
  simpl. rewrite Z.mod_0_l by lia. split; [reflexivity|]. split; [reflexivity|].
  split; [apply length_replicate|].
  intros j Hj. rewrite lookup_replicate_2 by lia. simpl.
  rewrite ring_seq_after_0 by lia. destruct (Z.ltb_spec j 0); [lia|reflexivity].
Qed.


End FanOutOneReader.

Section FanOutSteps.

Import SAHM SAHM.DirectWriter.

Lemma serves_only_valid (w : t) (bid : nat) (N : Z) (i : nat) :
  serves_only w bid N ->
  valid (at_idx invalid_reader (readers_ w) i) = Nat.eqb i 0.
Proof.
  intros (Hv & _ & _ & Ho). destruct i as [|i]; [exact Hv|]. apply Ho. lia.
Qed.




End FanOutSteps.

Section FanOutRuns.

Import SAHM SAHM.DirectWriter.




End FanOutRuns.

Section ReaderInit.

Import SAHM SAHM.DirectReader.

Lemma substring_all (s : string) :
  forall n, (String.length s <= n)%nat -> String.substring 0 n s = s.
Proof.
  induction s as [|c s IH]; intros n Hn.
  - destruct n; reflexivity.
  - destruct n as [|n]; simpl in Hn; [lia|].
    simpl. rewrite IH by lia. reflexivity.
Qed.

Lemma reader_name_nonempty (channel_name : string) (pid : N) :
  channel_name +:+ "_reader_" +:+ pretty pid <> ""%string.
Proof. destruct channel_name; discriminate. Qed.

Lemma at_idx_insert0_active (i : nat) :
  at_idx false (<[0%nat := true]> (replicate MAX_READERS false)) i = Nat.eqb i 0.
Proof.
  destruct i as [|i]; [reflexivity|].
  rewrite at_idx_insert_ne by lia. apply at_idx_replicate_default.
Qed.

(** What a successful [init] of a reader leaves behind when no reader was
    registered before: a fresh ring object under the reader's name, and
    directory entry 0 filled in. *)
Lemma sahm_reader_init_success (rd rd1 : t) isys (s s2 : World) cid h :
  is_initialized_ rd = false ->
  Shm.names s !! channel_name_ rd = Some cid ->
  Shm.objs s !! cid = Some (Control h) ->
  cid <> Shm.next_id s ->
  reader_active h = replicate MAX_READERS false ->
  reader_shm_names h = replicate MAX_READERS ""%string ->
  reader_ring_sizes h = replicate MAX_READERS 0 ->
  init rd isys s = Some (true, rd1, s2) ->
  ring_header_ rd1 = Some (Shm.next_id s)
  /\ ring_size_ rd1 = ring_size_ rd
  /\ Shm.names s2 !! my_shm_name_ rd = Some (Shm.next_id s)
  /\ Shm.objs s2 !! Shm.next_id s = Some (init_ring rd)
  /\ exists h4,
       Shm.objs s2 !! cid = Some (Control h4)
       /\ only_entry0_active h4
       /\ at_idx ""%string (reader_shm_names h4) 0 = stored_name (my_shm_name_ rd)
       /\ at_idx 0 (reader_ring_sizes h4) 0 = ring_size_ rd.
Proof.
  intros Hi Hn Ho Hne Hact Hnames Hsizes. unfold init.
  rewrite Hi. unfold Shm.shm_open. rewrite Hn.
  destruct (negb (control_mmap_ok isys)); [intros [=]|].
  unfold load_control at 1. rewrite Ho.
  destruct (negb (magic h =? DIRECT_MAGIC)); [intros [=]|].
  destruct (buffer_open_ok isys); [|intros [=]].
  rewrite open_creat_after_unlink.
  destruct (negb (buffer_ftruncate_ok isys) || negb (buffer_mmap_ok isys));
    [intros [=]|].
  unfold load_control. cbn [Shm.store Shm.objs].
  rewrite lookup_insert_ne by (intros E; apply Hne; symmetry; exact E).
  rewrite Ho.
  destruct (reg_run_claim rd h 0) as (_ & _ & _ & _ & Ereg).
  { unfold MAX_READERS. lia. }
  { intros j Hj. lia. }
  { rewrite Hact. reflexivity. }
  rewrite Ereg. intros [= <- <-].
  cbn [ring_header_ ring_size_ set_handles Shm.names Shm.objs Shm.store].
  split; [reflexivity|]. split; [reflexivity|].
  split; [apply lookup_insert_eq|].
  split.
  { rewrite lookup_insert_ne by (intros E; apply Hne; exact E).
    apply lookup_insert_eq. }
  eexists. split; [apply lookup_insert_eq|].
  split.
  { intros i. simpl. rewrite Hact. apply at_idx_insert0_active. }
  split.
  - simpl. rewrite Hnames. reflexivity.
  - simpl. rewrite Hsizes. reflexivity.
Qed.

End ReaderInit.



(** ** Worked scenarios *)

(** Ring fan-out with three readers, rings of 30 slots, 100 frames: every
    write reaches three rings; each reader then sees total-writes 100,
    write index 10, sequence 100 in slot 9, sequence 71 in slot 10, and
    slot 9 as the latest. *)
Example fanout_three_readers_100_frames :
  let wres := SAHM.DirectWriter.init (SAHM.DirectWriter.new "/chan" 8) all_ok 100 Shm.empty in
  let w1 := snd (fst wres) in
  let join pid s :=
    default (false, SAHM.DirectReader.new "/chan" 8 30 pid, s)
      (SAHM.DirectReader.init (SAHM.DirectReader.new "/chan" 8 30 pid)
         SAHM.DirectReader.init_ok s) in
  let a := join 11%N (snd wres) in
  let b := join 12%N (snd a) in
  let c := join 13%N (snd b) in
  let frames := map (fun i => ([Byte.x2a], 1, 1000 + Z.of_nat i)) (seq 0 100) in
  match SAHM.DirectWriter.write_all frames w1 SAHM.DirectWriter.discover_ok (snd c) with
  | Some (rets, wF, sF) =>
      Some (rets, SAHM.DirectWriter.getReaderCount wF sF,
            map (fun rd =>
                   (SAHM.DirectReader.getTotalWrites rd sF,
                    SAHM.DirectReader.getWriteIndex rd sF,
                    SAHM.DirectReader.getSlotSequence rd sF 9,
                    SAHM.DirectReader.getSlotSequence rd sF 10,
                    fst <$> SAHM.DirectReader.getLatest rd sF 0))
                [snd (fst a); snd (fst b); snd (fst c)])
  | None => None
  end
  = Some (replicate 100 3, Some 3,
          replicate 3 (Some 100, Some 10, Some 100, Some 71, Some (Some 9))).
Proof. vm_compute. reflexivity. Qed.

(** Double buffer, basic tier: ten publishes, a reader that looks after the
    first and after the last sees sequences 1 and 10 and counts 8 dropped
    frames; a third look without a publish in between returns nothing. *)
Example barq_reader_skips_eight :
  let w0 := BARQ.Writer.new "/sensor" 8 false in
  let wres := BARQ.Writer.init w0 all_ok 100 Shm.empty in
  let r0 := BARQ.Writer.init_region w0 false 64 100 in
  let ops := map (fun i => BARQ.Writer.OpWrite [Byte.x2a] 1 (1000 + Z.of_nat i)) (seq 0 10) in
  let sts := BARQ.Writer.run ops (snd (fst wres), r0) in
  let rd := snd (BARQ.Reader.init (BARQ.Reader.new "/sensor" 8) all_ok (snd wres)) in
  let g1 := BARQ.Reader.getLatest rd (snd (default (w0, r0) (sts !! 0%nat))) 0 0 in
  let g2 := BARQ.Reader.getLatest (snd (fst (fst g1)))
              (snd (default (w0, r0) (sts !! 9%nat))) 0 0 in
  let g3 := BARQ.Reader.getLatest (snd (fst (fst g2)))
              (snd (default (w0, r0) (sts !! 9%nat))) 0 0 in
  (BARQ.Reader.last_seq_ (snd (fst (fst g1))),
   BARQ.Reader.last_seq_ (snd (fst (fst g2))),
   BARQ.Reader.dropped_ (snd (fst (fst g2))),
   fst (fst (fst g3)))
  = (1, 10, 8, None).
Proof. vm_compute. reflexivity. Qed.

(** * Further properties of the modelled code *)

(** ** Alignment helpers *)

Lemma land_wrap64_r (x y : Z) : 0 <= x < 2 ^ 64 -> Z.land x (wrap64 y) = Z.land x y.
Proof.
  intros Hx. unfold wrap64. rewrite <- Z.land_ones by lia.
  rewrite (Z.land_comm y), Z.land_assoc, Z.land_ones by lia.
  rewrite Z.mod_small by lia. reflexivity.
Qed.

(** The mask form of [alignUp] is the division form, for an alignment that
    is a power of two. *)
Lemma alignUp_pow2 (v k : Z) :
  0 <= k ->
  BARQ.alignUp v (2 ^ k) = wrap64 (v + 2 ^ k - 1) / 2 ^ k * 2 ^ k.
Proof.
  intros Hk. unfold BARQ.alignUp.
  rewrite land_wrap64_r by (unfold wrap64; apply Z.mod_pos_bound; lia).
  replace (2 ^ k - 1) with (Z.ones k) by (rewrite Z.ones_equiv; lia).
  rewrite <- Z.ldiff_land, Z.ldiff_ones_r by lia.
  rewrite Z.shiftl_mul_pow2, Z.shiftr_div_pow2 by lia. reflexivity.
Qed.

Lemma round_down_wrap64 (x a : Z) : 0 < a -> wrap64 (wrap64 x / a * a) = wrap64 x / a * a.
Proof.
  intros Ha. apply wrap64_small.
  assert (Hx : 0 <= wrap64 x < 2 ^ 64) by (unfold wrap64; apply Z.mod_pos_bound; lia).
  pose proof (Z.mul_div_le (wrap64 x) a Ha).
  assert (0 <= wrap64 x / a) by (apply Z.div_pos; lia).
  nia.
Qed.

(** X1. [alignUp] with a power-of-two alignment returns the least multiple
    of the alignment that is not below the value, as long as the sum does
    not leave the 64-bit range; the mask form of the basic tier and the
    division form of the platform probe agree on every value, for the cache
    line and for the huge page; and a value within 63 of the top of the
    range wraps to 0. *)
Theorem align_up_least_multiple :
  (forall v k, 0 <= k < 64 -> 0 <= v -> v + 2 ^ k <= 2 ^ 64 ->
     BARQ.alignUp v (2 ^ k) mod 2 ^ k = 0
     /\ v <= BARQ.alignUp v (2 ^ k) < v + 2 ^ k
     /\ (v mod 2 ^ k = 0 -> BARQ.alignUp v (2 ^ k) = v))
  /\ (forall v, BARQ.alignUp v BARQ.CACHE_LINE = SIM.alignToCacheLine v)
  /\ (forall v, BARQ.alignUp v BARQ.HUGE_PAGE = SIM.alignToHugePage v)
  /\ (forall v, 2 ^ 64 - 64 < v < 2 ^ 64 -> SIM.alignToCacheLine v = 0).
Proof.
  split; [|split; [|split]].
  - intros v k Hk Hv Hsum.
    assert (Hp : 0 < 2 ^ k) by (apply Z.pow_pos_nonneg; lia).
    rewrite alignUp_pow2 by lia.
    rewrite (wrap64_small (v + 2 ^ k - 1)) by lia.
    pose proof (Z.div_mod (v + 2 ^ k - 1) (2 ^ k) ltac:(lia)) as Hdm.
    pose proof (Z.mod_pos_bound (v + 2 ^ k - 1) (2 ^ k) Hp) as Hm.
    split; [apply Z.mod_mul; lia|].
    split; [nia|].
    intros Hmod.
    pose proof (Z.div_mod v (2 ^ k) ltac:(lia)) as Hv'. rewrite Hmod in Hv'.
    assert (E : (v + 2 ^ k - 1) / 2 ^ k = v / 2 ^ k).
    { symmetry. apply (Z.div_unique_pos _ _ _ (2 ^ k - 1)); lia. }
    rewrite E. lia.
  - intros v. change BARQ.CACHE_LINE with (2 ^ 6). rewrite alignUp_pow2 by lia.
    unfold SIM.alignToCacheLine. change SIM.CACHE_LINE_SIZE with (2 ^ 6).
    rewrite round_down_wrap64 by lia. reflexivity.
  - intros v. change BARQ.HUGE_PAGE with (2 ^ 21). rewrite alignUp_pow2 by lia.
    unfold SIM.alignToHugePage. change SIM.HUGE_PAGE_SIZE with (2 ^ 21).
    rewrite round_down_wrap64 by lia. reflexivity.
  - intros v Hv. unfold SIM.alignToCacheLine, SIM.CACHE_LINE_SIZE.
    assert (E : wrap64 (v + 64 - 1) = v + 63 - 2 ^ 64).
    { unfold wrap64. symmetry. apply (Z.mod_unique_pos _ _ 1); lia. }
    rewrite E. rewrite Z.div_small by lia. reflexivity.
Qed.

Lemma align_up_least_multiple_witness :
  BARQ.alignUp 1000 (2 ^ 6) mod 2 ^ 6 = 0
  /\ 1000 <= BARQ.alignUp 1000 (2 ^ 6) < 1000 + 2 ^ 6.
Proof.
  destruct (proj1 align_up_least_multiple 1000 6) as (A & B & _);
    [lia | lia | lia | split; assumption].
Defined.

(** ** Payload copies *)

(** The streaming copy of the basic tier writes the same bytes as
    [memcpy]. *)
Lemma ntMemcpy_memcpy (dst src : list byte) (size : Z) :
  0 <= size -> (Z.to_nat size <= length src)%nat ->
  BARQ.ntMemcpy dst src size = memcpy dst src size.
Proof.
  intros Hsz Hsrc. unfold BARQ.ntMemcpy.
  pose proof (Z.div_mod size 16 ltac:(lia)) as Hdm.
  pose proof (Z.mod_pos_bound size 16 ltac:(lia)) as Hm.
  assert (Hq : 0 <= size / 16) by (apply Z.div_pos; lia).
  destruct (Z.ltb_spec 0 (size mod 16)) as [Hrem|Hrem].
  - set (c := Z.to_nat (size / 16 * 16)).
    set (m := Z.to_nat (size mod 16)).
    assert (Hsum : Z.to_nat size = (c + m)%nat) by (unfold c, m; lia).
    assert (Hc : (c <= length src)%nat) by lia.
    unfold memcpy. fold c. fold m. rewrite Hsum.
    rewrite take_app_le by (rewrite length_take; lia).
    rewrite take_take, Nat.min_id.
    rewrite drop_app_ge by (rewrite length_take; lia).
    rewrite length_take. replace (c - c `min` length src)%nat with 0%nat by lia.
    rewrite drop_0, drop_drop.
    rewrite app_assoc. f_equal.
    rewrite <- (take_drop c (take (c + m) src)) at 1.
    rewrite take_take. replace (c `min` (c + m))%nat with c by lia.
    f_equal. rewrite skipn_firstn_comm.
    replace (c + m - c)%nat with m by lia. reflexivity.
  - replace (size / 16 * 16) with size by lia. reflexivity.
Qed.

(** ** The slot readers are looking at *)



(** ** Write, then read *)

(** Reading through a pointer to one of the two payload areas. *)
Lemma barq_read_bytes_buffer0 (r : BARQ.Region) (n : Z) :
  (Z.to_nat n <= length (BARQ.buffer0 r))%nat ->
  BARQ.read_bytes BARQ.sizeof_Header n r = take (Z.to_nat n) (BARQ.buffer0 r).
Proof.
  intros H. unfold BARQ.read_bytes. rewrite Z.sub_diag.
  change (Z.to_nat 0) with 0%nat. rewrite drop_0, <- app_assoc.
  apply take_app_le. exact H.
Qed.

Lemma barq_read_bytes_buffer1 (r : BARQ.Region) (a n : Z) :
  length (BARQ.buffer0 r) = Z.to_nat a ->
  (Z.to_nat n <= length (BARQ.buffer1 r))%nat ->
  BARQ.read_bytes (BARQ.sizeof_Header + a) n r = take (Z.to_nat n) (BARQ.buffer1 r).
Proof.
  intros Ha H. unfold BARQ.read_bytes.
  replace (BARQ.sizeof_Header + a - BARQ.sizeof_Header) with a by lia.
  rewrite <- Ha, drop_app_length. apply take_app_le. exact H.
Qed.



Lemma read_bytes_length_barq (r : BARQ.Region) (p n : Z) :
  length (BARQ.read_bytes p n r) = Z.to_nat n.
Proof.
  unfold BARQ.read_bytes. rewrite length_take, length_app, length_replicate. lia.
Qed.


(** X3. Basic tier: after a [write] of [size] bytes ([0 <= size <=]
    capacity, also [size = 0], below or above the 4 KiB streaming
    threshold), a reader that has not yet seen the new sequence gets from
    [getLatest] its own pointer to the buffer the writer made front, the
    length [size] and the writer's timestamp; the first [size] bytes of the
    slot the writer filled are the bytes written and the rest of the slot
    is as before. The reader's pointer is the writer's pointer to that
    slot, and the [size] bytes read through it are the bytes written, when
    the slot is buffer 0, or when the reader's maximum size rounds up to
    the same multiple of 64 as the writer's and buffer 0 of the region has
    the length the writer's [init] gives it. *)
Theorem barq_write_then_getLatest :
  forall w r rd data size now sz0 ts0,
  BARQ.Writer.initialized_ w = true -> BARQ.Reader.initialized_ rd = true ->
  0 <= size <= BARQ.Writer.max_size_ w ->
  (Z.to_nat size <= length data)%nat ->
  (BARQ.front_idx (BARQ.hdr r) = 0 \/ BARQ.front_idx (BARQ.hdr r) = 1) ->
  0 <= BARQ.Writer.frame_count_ w < 2 ^ 64 - 1 ->
  BARQ.Reader.last_seq_ rd <= BARQ.Writer.frame_count_ w ->
  let back := 1 - BARQ.front_idx (BARQ.hdr r) in
  exists w' r' rd',
    BARQ.Writer.write w r data size now = (true, w', r')
    /\ BARQ.Reader.getLatest rd r' sz0 ts0
       = (Some (BARQ.Reader.buffer_ rd back), rd', size, now)
    /\ BARQ.Reader.last_seq_ rd' = BARQ.Writer.frame_count_ w + 1
    /\ take (Z.to_nat size) (BARQ.buffer_at back r') = take (Z.to_nat size) data
    /\ drop (Z.to_nat size) (BARQ.buffer_at back r')
       = drop (Z.to_nat size) (BARQ.buffer_at back r)
    /\ (back = 0
        \/ (BARQ.alignUp (BARQ.Reader.max_size_ rd) BARQ.CACHE_LINE
            = BARQ.alignUp (BARQ.Writer.max_size_ w) BARQ.CACHE_LINE
            /\ length (BARQ.buffer0 r)
               = Z.to_nat (BARQ.alignUp (BARQ.Writer.max_size_ w) BARQ.CACHE_LINE)) ->
        BARQ.Reader.buffer_ rd back = BARQ.Writer.buffer_ w back
        /\ BARQ.read_bytes (BARQ.Reader.buffer_ rd back) size r'
           = take (Z.to_nat size) data).
Proof.
  intros w r rd data size now sz0 ts0 Hwi Hri Hsz Hdata Hf Hfc Hlast back.
  pose proof (back_of_front _ Hf) as [Hb _].
  assert (Hlt : (BARQ.Writer.max_size_ w <? size) = false) by (apply Z.ltb_ge; lia).
  assert (Hw : wrap64 (BARQ.Writer.frame_count_ w + 1) = BARQ.Writer.frame_count_ w + 1)
    by (apply wrap64_small; lia).
  assert (Hcp : forall dst,
            (if 4096 <=? size then BARQ.ntMemcpy dst data size else memcpy dst data size)
            = memcpy dst data size).
  { intros dst. destruct (4096 <=? size); [apply ntMemcpy_memcpy; lia | reflexivity]. }
  assert (Hlen : forall dst, (Z.to_nat size <= length (memcpy dst data size))%nat).
  { intros dst. unfold memcpy. rewrite length_app, length_take. lia. }
  unfold BARQ.Writer.write. rewrite Hwi, Hlt. simpl.
  eexists _, _, _. split; [reflexivity|].
  unfold BARQ.Reader.getLatest. rewrite Hri. simpl. rewrite Hb, Hw.
  unfold BARQ.copy_payload, BARQ.buffer_at, back.
  destruct Hf as [E | E]; rewrite E; simpl; rewrite Hcp.
  - destruct (Z.eqb_spec (BARQ.Writer.frame_count_ w + 1) (BARQ.Reader.last_seq_ rd));
      [lia|].
    split; [reflexivity|]. split; [reflexivity|].
    split; [apply memcpy_take; exact Hdata|].
    split; [apply memcpy_drop; exact Hdata|].
    intros [H0 | [Ha Hl]]; [discriminate H0|].
    unfold BARQ.Reader.buffer_, BARQ.Writer.buffer_. simpl. rewrite Ha.
    split; [reflexivity|].
    rewrite barq_read_bytes_buffer1 by (simpl; first [exact Hl | apply Hlen]).
    simpl. apply memcpy_take. exact Hdata.
  - destruct (Z.eqb_spec (BARQ.Writer.frame_count_ w + 1) (BARQ.Reader.last_seq_ rd));
      [lia|].
    split; [reflexivity|]. split; [reflexivity|].
    split; [apply memcpy_take; exact Hdata|].
    split; [apply memcpy_drop; exact Hdata|].
    intros _. unfold BARQ.Reader.buffer_, BARQ.Writer.buffer_. simpl.
    split; [reflexivity|].
    rewrite barq_read_bytes_buffer0 by (simpl; apply Hlen).
    simpl. apply memcpy_take. exact Hdata.
Qed.

Lemma barq_write_then_getLatest_witness :
  let w0 := BARQ.Writer.new "/sensor" 8 false in
  let res := BARQ.Writer.init w0 all_ok 100 Shm.empty in
  let w1 := snd (fst res) in
  let r0 := BARQ.Writer.init_region w0 false 64 100 in
  let rd := snd (BARQ.Reader.init (BARQ.Reader.new "/sensor" 8) all_ok (snd res)) in
  exists w' r' rd',
    BARQ.Writer.write w1 r0 [Byte.x0a; Byte.x0b; Byte.x0c] 3 110 = (true, w', r')
    /\ BARQ.Reader.getLatest rd r' 0 0 = (Some 384, rd', 3, 110)
    /\ take 3 (BARQ.buffer_at 1 r') = [Byte.x0a; Byte.x0b; Byte.x0c]
    /\ BARQ.Writer.buffer_ w1 1 = 384
    /\ BARQ.read_bytes 384 3 r' = [Byte.x0a; Byte.x0b; Byte.x0c].
Proof.
  intros w0 res w1 r0 rd.
  destruct (barq_write_then_getLatest w1 r0 rd [Byte.x0a; Byte.x0b; Byte.x0c] 3 110 0 0)
    as (w' & r' & rd' & Ew & Eg & _ & Et & _ & Hp).
  - vm_compute. reflexivity.
  - vm_compute. reflexivity.
  - vm_compute. split; congruence.
  - simpl. lia.
  - left. reflexivity.
  - vm_compute. split; congruence.
  - vm_compute. congruence.
  - destruct Hp as [Ep Eb].
    { right. split; vm_compute; reflexivity. }
    exists w', r', rd'. split; [exact Ew|]. split; [exact Eg|].
    split; [exact Et|]. split; [vm_compute; reflexivity | exact Eb].
Defined.

(** A reader constructed with a smaller maximum size than the writer's:
    writer 200 (buffers of 256 bytes), reader 100 (its buffer 1 at 128
    bytes past buffer 0). After the first write, which fills buffer 1, the
    pointer [getLatest] returns lies inside the writer's buffer 0 and the
    bytes read through it are not the bytes written. *)
Example barq_reader_smaller_maximum :
  let w0 := BARQ.Writer.new "/sensor" 200 false in
  let res := BARQ.Writer.init w0 all_ok 100 Shm.empty in
  let r0 := BARQ.Writer.init_region w0 false 256 100 in
  let st1 := BARQ.Writer.write (snd (fst res)) r0
               [Byte.x0a; Byte.x0b; Byte.x0c; Byte.x0d] 4 110 in
  let rd := snd (BARQ.Reader.init (BARQ.Reader.new "/sensor" 100) all_ok (snd res)) in
  let out := BARQ.Reader.getLatest rd (snd st1) 0 0 in
  Shm.objs (snd res) !! 0%nat = Some r0
  /\ fst (fst st1) = true
  /\ BARQ.Writer.buffer_ (snd (fst res)) 1 = 576
  /\ fst (fst (fst out)) = Some 448
  /\ snd (fst out) = 4
  /\ BARQ.read_bytes 448 4 (snd st1) = [Byte.x00; Byte.x00; Byte.x00; Byte.x00]
  /\ BARQ.read_bytes 576 4 (snd st1) = [Byte.x0a; Byte.x0b; Byte.x0c; Byte.x0d].
Proof. vm_compute. repeat split; reflexivity. Qed.



(** A reader constructed with a larger maximum size than the writer's:
    writer 8 (buffers of 64 bytes), reader 100 (its buffer 1 at 128 bytes
    past buffer 0, where the writer's buffer 1 ends). After the first
    write, which fills buffer 1, [read] succeeds with the published length
    and copies the zero bytes found past the payload areas, not the bytes
    written. *)
Example casir_reader_larger_maximum :
  let w0 := CASIR.Writer.new "/sensor" 8 SIM.portable default_cache in
  let res := CASIR.Writer.init w0 all_ok no_huge_pages Shm.empty in
  let r0 := CASIR.Writer.init_region w0 false 64 in
  let st1 := CASIR.Writer.write (snd (fst res)) r0 [Byte.x0a; Byte.x0b] 2 110 in
  let rd := snd (CASIR.Reader.init
                   (CASIR.Reader.new "/sensor" 100 SIM.portable default_cache)
                   all_ok (snd res)) in
  let out := CASIR.Reader.read rd (snd st1) [Byte.xff; Byte.xff; Byte.xff; Byte.xff] 0 in
  Shm.objs (snd res) !! 0%nat = Some r0
  /\ fst (fst st1) = true
  /\ CASIR.Writer.buffer_ (snd (fst res)) 1 = 448
  /\ CASIR.Reader.buffer_ rd 1 = 512
  /\ fst (fst (fst out)) = true
  /\ snd out = 2
  /\ snd (fst out) = [Byte.x00; Byte.x00; Byte.xff; Byte.xff].
Proof. vm_compute. repeat split; reflexivity. Qed.

(** ** A frame is handed out once *)

(** X5. Once [getLatest] (basic tier), [read] or [readZeroCopy]
    (cache-tuned tier) has returned a frame, the same call against the
    unchanged region returns nothing, and then leaves the reader, the
    caller's buffer and the reference parameters exactly as they were. *)
Theorem frame_delivered_once :
  (forall rd r size ts p rd' size' ts' size2 ts2,
     BARQ.Reader.getLatest rd r size ts = (Some p, rd', size', ts') ->
     BARQ.Reader.getLatest rd' r size2 ts2 = (None, rd', size2, ts2))
  /\
  (forall rd r data size rd' data' size' data2 size2,
     CASIR.Reader.read rd r data size = (true, rd', data', size') ->
     CASIR.Reader.read rd' r data2 size2 = (false, rd', data2, size2))
  /\
  (forall rd r size p rd' size' size2,
     CASIR.Reader.readZeroCopy rd r size = (Some p, rd', size') ->
     CASIR.Reader.readZeroCopy rd' r size2 = (None, rd', size2)
     /\ CASIR.Reader.readZeroCopy (CASIR.Reader.releaseZeroCopy rd') r size2
        = (None, CASIR.Reader.releaseZeroCopy rd', size2)).
Proof.
  split; [|split].
  - intros rd r size ts p rd' size' ts' size2 ts2. unfold BARQ.Reader.getLatest.
    destruct (negb (BARQ.Reader.initialized_ rd)) eqn:Hi; [intros [=]|].
    destruct (_ =? BARQ.Reader.last_seq_ rd); [intros [=]|].
    intros [= _ <- _ _]. simpl. rewrite Hi, Z.eqb_refl. reflexivity.
  - intros rd r data size rd' data' size' data2 size2. unfold CASIR.Reader.read.
    destruct (negb (CASIR.Reader.is_initialized_ rd)) eqn:Hi; [intros [=]|].
    destruct (_ =? CASIR.Reader.last_frame_ rd); [intros [=]|].
    simpl.
    destruct (CASIR.Reader.max_size_ rd <? _); [intros [=]|].
    intros [= <- _ _]. simpl. rewrite Hi, Z.eqb_refl. reflexivity.
  - intros rd r size p rd' size' size2. unfold CASIR.Reader.readZeroCopy.
    destruct (negb (CASIR.Reader.is_initialized_ rd)) eqn:Hi; [intros [=]|].
    destruct (CASIR.Reader.zero_copy_active_ rd); [intros [=]|].
    simpl.
    destruct (_ =? CASIR.Reader.last_frame_ rd); [intros [=]|].
    intros [= _ <- _]. simpl. rewrite orb_true_r.
    split; [reflexivity|].
    rewrite Hi, Z.eqb_refl. reflexivity.
Qed.

Lemma frame_delivered_once_witness :
  let w0 := BARQ.Writer.new "/sensor" 8 false in
  let res := BARQ.Writer.init w0 all_ok 100 Shm.empty in
  let r0 := BARQ.Writer.init_region w0 false 64 100 in
  let r1 := snd (BARQ.Writer.write (snd (fst res)) r0 [Byte.x0a] 1 110) in
  let rd := snd (BARQ.Reader.init (BARQ.Reader.new "/sensor" 8) all_ok (snd res)) in
  let rd' := snd (fst (fst (BARQ.Reader.getLatest rd r1 0 0))) in
  BARQ.Reader.getLatest rd r1 0 0 = (Some (BARQ.Reader.buffer_ rd 1), rd', 1, 110)
  /\ BARQ.Reader.getLatest rd' r1 7 9 = (None, rd', 7, 9).
Proof.
  intros w0 res r0 r1 rd rd'.
  assert (E : BARQ.Reader.getLatest rd r1 0 0
              = (Some (BARQ.Reader.buffer_ rd 1), rd', 1, 110))
    by (vm_compute; reflexivity).
  split; [exact E|].
  exact (proj1 frame_delivered_once rd r1 0 0 _ rd' 1 110 7 9 E).
Defined.

(** ** The zero-copy lease of the cache-tuned reader *)

(** X6. [readZeroCopy] that returns a frame takes the lease: until
    [releaseZeroCopy], every further [readZeroCopy] returns null whatever
    the region holds, leaving the reader and the size untouched, while
    [read] is not held back by the lease and keeps it. [releaseZeroCopy]
    changes nothing but the lease flag, and [readZeroCopy] never touches
    the dropped-frame counter and hands out its own pointer to the front
    buffer with the published length even when that exceeds the reader's
    maximum size. *)
Theorem zero_copy_lease :
  (forall rd r size p rd' size',
     CASIR.Reader.readZeroCopy rd r size = (Some p, rd', size') ->
     CASIR.Reader.zero_copy_active_ rd = false
     /\ CASIR.Reader.zero_copy_active_ rd' = true
     /\ p = CASIR.Reader.buffer_ rd (CASIR.front_idx (CASIR.hdr r))
     /\ size' = CASIR.published_length (CASIR.hdr r)
     /\ CASIR.Reader.last_frame_ rd' = CASIR.front_frame r
     /\ CASIR.Reader.dropped_frames_ rd' = CASIR.Reader.dropped_frames_ rd
     /\ (forall r2 size2,
           CASIR.Reader.readZeroCopy rd' r2 size2 = (None, rd', size2))
     /\ (forall r2 data size2,
           CASIR.Reader.zero_copy_active_
             (snd (fst (fst (CASIR.Reader.read rd' r2 data size2)))) = true))
  /\
  (forall rd r data size,
     CASIR.Reader.read (CASIR.Reader.set_cursor
                          (CASIR.Reader.last_frame_ rd)
                          (CASIR.Reader.last_timestamp_ns_ rd)
                          (CASIR.Reader.dropped_frames_ rd) true rd) r data size
     = (let '(ok, rd1, d, s) := CASIR.Reader.read rd r data size in
        (ok, CASIR.Reader.set_cursor
               (CASIR.Reader.last_frame_ rd1)
               (CASIR.Reader.last_timestamp_ns_ rd1)
               (CASIR.Reader.dropped_frames_ rd1) true rd1, d, s)))
  /\
  (forall rd,
     let rd' := CASIR.Reader.releaseZeroCopy rd in
     CASIR.Reader.zero_copy_active_ rd' = false
     /\ CASIR.Reader.last_frame_ rd' = CASIR.Reader.last_frame_ rd
     /\ CASIR.Reader.last_timestamp_ns_ rd' = CASIR.Reader.last_timestamp_ns_ rd
     /\ CASIR.Reader.dropped_frames_ rd' = CASIR.Reader.dropped_frames_ rd
     /\ CASIR.Reader.is_initialized_ rd' = CASIR.Reader.is_initialized_ rd
     /\ CASIR.Reader.max_size_ rd' = CASIR.Reader.max_size_ rd
     /\ (CASIR.Reader.zero_copy_active_ rd = false -> rd' = rd)).
Proof.
  split; [|split].
  - intros rd r size p rd' size'. unfold CASIR.Reader.readZeroCopy.
    destruct (negb (CASIR.Reader.is_initialized_ rd)) eqn:Hi; [intros [=]|].
    destruct (CASIR.Reader.zero_copy_active_ rd) eqn:Hz; [intros [=]|].
    simpl. fold (CASIR.front_frame r).
    destruct (_ =? CASIR.Reader.last_frame_ rd); [intros [=]|].
    intros [= <- <- <-]. simpl.
    do 6 (split; [reflexivity|]).
    split.
    + intros r2 size2. rewrite orb_true_r. reflexivity.
    + intros r2 data size2. unfold CASIR.Reader.read. simpl.
      destruct (negb (CASIR.Reader.is_initialized_ rd)); [reflexivity|].
      destruct (_ =? _); [reflexivity|].
      destruct (_ <? _); reflexivity.
  - intros rd r data size. unfold CASIR.Reader.read. simpl.
    destruct (negb (CASIR.Reader.is_initialized_ rd)); [reflexivity|].
    destruct (_ =? _); [reflexivity|].
    destruct (_ <? _); reflexivity.
  - intros rd rd'. subst rd'. unfold CASIR.Reader.releaseZeroCopy. simpl.
    do 6 (split; [reflexivity|]).
    intros Hz. destruct rd; simpl in *. rewrite Hz. reflexivity.
Qed.

Lemma zero_copy_lease_witness :
  let w0 := CASIR.Writer.new "/sensor" 8 SIM.portable default_cache in
  let res := CASIR.Writer.init w0 all_ok no_huge_pages Shm.empty in
  let r0 := CASIR.Writer.init_region w0 false 64 in
  let st1 := CASIR.Writer.write (snd (fst res)) r0 [Byte.x0a] 1 110 in
  let st2 := CASIR.Writer.write (snd (fst st1)) (snd st1) [Byte.x0b] 1 120 in
  let rd := snd (CASIR.Reader.init
                   (CASIR.Reader.new "/sensor" 8 SIM.portable default_cache)
                   all_ok (snd res)) in
  let rd' := snd (fst (CASIR.Reader.readZeroCopy rd (snd st1) 0)) in
  CASIR.Reader.readZeroCopy rd (snd st1) 0 = (Some (CASIR.Reader.buffer_ rd 1), rd', 1)
  /\ CASIR.front_frame (snd st2) = 2
  /\ CASIR.Reader.readZeroCopy rd' (snd st2) 0 = (None, rd', 0)
  /\ fst (fst (CASIR.Reader.readZeroCopy (CASIR.Reader.releaseZeroCopy rd') (snd st2) 0))
     = Some (CASIR.Reader.buffer_ rd 0).
Proof.
  intros w0 res r0 st1 st2 rd rd'.
  assert (E : CASIR.Reader.readZeroCopy rd (snd st1) 0
              = (Some (CASIR.Reader.buffer_ rd 1), rd', 1))
    by (vm_compute; reflexivity).
  destruct (proj1 zero_copy_lease rd (snd st1) 0 _ rd' 1 E)
    as (_ & _ & _ & _ & _ & _ & Hblock & _).
  split; [exact E|].
  split; [vm_compute; reflexivity|].
  split; [apply Hblock|].
  vm_compute. reflexivity.
Defined.

(** ** Frames received and frames missed *)

(** One call of [getLatest] by a reader that has already seen a frame,
    against a region whose front sequence number is not behind the
    reader's. *)
Lemma barq_getLatest_accounts (rd : BARQ.Reader.t) (r : BARQ.Region) :
  BARQ.Reader.initialized_ rd = true ->
  0 < BARQ.Reader.last_seq_ rd ->
  0 <= BARQ.Reader.dropped_ rd <= BARQ.Reader.last_seq_ rd ->
  BARQ.Reader.last_seq_ rd <= BARQ.front_seq r < 2 ^ 64 ->
  exists p rd1 len ts,
    BARQ.Reader.getLatest rd r 0 0 = (p, rd1, len, ts)
    /\ BARQ.Reader.initialized_ rd1 = true
    /\ BARQ.Reader.last_seq_ rd1 = BARQ.front_seq r
    /\ BARQ.Reader.dropped_ rd1 + (match p with Some _ => 1 | None => 0 end)
       = BARQ.Reader.dropped_ rd + (BARQ.front_seq r - BARQ.Reader.last_seq_ rd)
    /\ 0 <= BARQ.Reader.dropped_ rd1 <= BARQ.front_seq r.
Proof.
  intros Hi Hl Hd Hs. unfold BARQ.Reader.getLatest. rewrite Hi. simpl.
  fold (BARQ.front_seq r).
  destruct (Z.eqb_spec (BARQ.front_seq r) (BARQ.Reader.last_seq_ rd)) as [E|Hne].
  - eexists _, _, _, _. split; [reflexivity|]. rewrite E.
    split; [exact Hi|]. split; [reflexivity|]. lia.
  - eexists _, _, _, _. split; [reflexivity|]. simpl.
    split; [reflexivity|]. split; [reflexivity|].
    rewrite (wrap64_small (BARQ.Reader.last_seq_ rd + 1)) by lia.
    destruct (Z.ltb_spec 0 (BARQ.Reader.last_seq_ rd)); [|lia]. simpl.
    destruct (Z.ltb_spec (BARQ.Reader.last_seq_ rd + 1) (BARQ.front_seq r)).
    + rewrite (wrap64_small (BARQ.front_seq r - _ - 1)) by lia.
      rewrite wrap64_small by lia. lia.
    + lia.
Qed.

Lemma last_cons_default {A : Type} (x d : A) (l : list A) :
  List.last (x :: l) d = List.last l x.
Proof.
  revert x d. induction l as [|y l IH]; intros x d; [reflexivity|].
  change (List.last (x :: y :: l) d) with (List.last (y :: l) d).
  rewrite !IH. reflexivity.
Qed.

(** X7. Basic tier: a reader that has already seen a frame and keeps
    calling [getLatest] while the writer publishes ends on the last
    sequence number it met, and the frames it was handed plus the frames
    it counted as dropped add up exactly to the sequence numbers that went
    by; its dropped counter never exceeds its last sequence number, so it
    cannot wrap. *)
Theorem received_plus_dropped :
  forall rs rd n rd',
  BARQ.Reader.initialized_ rd = true ->
  0 < BARQ.Reader.last_seq_ rd ->
  0 <= BARQ.Reader.dropped_ rd <= BARQ.Reader.last_seq_ rd ->
  BARQ.Reader.nondecreasing_from (BARQ.Reader.last_seq_ rd) rs ->
  BARQ.Reader.getLatest_all rs rd = (n, rd') ->
  BARQ.Reader.last_seq_ rd'
    = List.last (map BARQ.front_seq rs) (BARQ.Reader.last_seq_ rd)
  /\ BARQ.Reader.dropped_ rd' + Z.of_nat n
     = BARQ.Reader.dropped_ rd + (BARQ.Reader.last_seq_ rd' - BARQ.Reader.last_seq_ rd)
  /\ 0 <= BARQ.Reader.dropped_ rd' <= BARQ.Reader.last_seq_ rd'.
Proof.
  induction rs as [|r rs IH]; intros rd n rd' Hi Hl Hd Hnd Hrun.
  - simpl in Hrun. injection Hrun as <- <-. simpl. lia.
  - destruct Hnd as [Hr Hnd].
    destruct (barq_getLatest_accounts rd r Hi Hl Hd Hr)
      as (p & rd1 & len & ts & E & Hi1 & Hs1 & Hacc & Hb).
    cbn [BARQ.Reader.getLatest_all] in Hrun. rewrite E in Hrun.
    destruct (BARQ.Reader.getLatest_all rs rd1) as [n1 rd2] eqn:E2.
    injection Hrun as <- <-.
    assert (Hd1 : 0 <= BARQ.Reader.dropped_ rd1 <= BARQ.Reader.last_seq_ rd1)
      by lia.
    rewrite <- Hs1 in Hnd.
    destruct (IH rd1 n1 rd2 Hi1 ltac:(lia) Hd1 Hnd E2) as (A & B & C).
    split.
    + rewrite A, Hs1. cbn [map]. rewrite last_cons_default. reflexivity.
    + split; [|exact C]. destruct p; lia.
Qed.

Lemma received_plus_dropped_witness :
  let w0 := BARQ.Writer.new "/sensor" 8 false in
  let res := BARQ.Writer.init w0 all_ok 100 Shm.empty in
  let r0 := BARQ.Writer.init_region w0 false 64 100 in
  let ops := [BARQ.Writer.OpWrite [Byte.x00] 1 110; BARQ.Writer.OpWrite [Byte.x01] 1 120;
              BARQ.Writer.OpWrite [Byte.x02] 1 130; BARQ.Writer.OpWrite [Byte.x03] 1 140;
              BARQ.Writer.OpWrite [Byte.x04] 1 150; BARQ.Writer.OpWrite [Byte.x05] 1 160] in
  let states := map snd (BARQ.Writer.run ops (snd (fst res), r0)) in
  let at_ i := default r0 (states !! i) in
  let rd := snd (BARQ.Reader.init (BARQ.Reader.new "/sensor" 8) all_ok (snd res)) in
  let rd1 := snd (fst (fst (BARQ.Reader.getLatest rd (at_ 0%nat) 0 0))) in
  let out := BARQ.Reader.getLatest_all [at_ 1%nat; at_ 1%nat; at_ 4%nat; at_ 5%nat] rd1 in
  BARQ.Reader.last_seq_ rd1 = 1
  /\ fst out = 3%nat
  /\ BARQ.Reader.last_seq_ (snd out) = 6
  /\ BARQ.Reader.dropped_ (snd out) + Z.of_nat (fst out)
     = BARQ.Reader.dropped_ rd1 + (BARQ.Reader.last_seq_ (snd out) - 1).
Proof.
  intros w0 res r0 ops states at_ rd rd1 out.
  destruct (received_plus_dropped
              [at_ 1%nat; at_ 1%nat; at_ 4%nat; at_ 5%nat] rd1 (fst out) (snd out))
    as (A & B & C).
  - vm_compute. reflexivity.
  - vm_compute. reflexivity.
  - vm_compute. split; congruence.
  - vm_compute. repeat split; congruence.
  - vm_compute. reflexivity.
  - split; [vm_compute; reflexivity|].
    split; [vm_compute; reflexivity|].
    split; [vm_compute; reflexivity|].
    rewrite B. vm_compute. reflexivity.
Defined.

(** One call of [read] against an oversized frame that is more than one
    ahead of the reader. *)
Lemma casir_read_oversized_gap (rd : CASIR.Reader.t) (r : CASIR.Region)
    (data : list byte) (size : Z) :
  CASIR.Reader.is_initialized_ rd = true ->
  CASIR.Reader.max_size_ rd < CASIR.published_length (CASIR.hdr r) ->
  0 < CASIR.Reader.last_frame_ rd ->
  CASIR.Reader.last_frame_ rd + 1 < CASIR.front_frame r < 2 ^ 64 ->
  0 <= CASIR.Reader.dropped_frames_ rd ->
  CASIR.Reader.dropped_frames_ rd
    + (CASIR.front_frame r - CASIR.Reader.last_frame_ rd - 1) < 2 ^ 64 ->
  exists rd',
    CASIR.Reader.read rd r data size = (false, rd', data, size)
    /\ CASIR.Reader.is_initialized_ rd' = true
    /\ CASIR.Reader.max_size_ rd' = CASIR.Reader.max_size_ rd
    /\ CASIR.Reader.last_frame_ rd' = CASIR.Reader.last_frame_ rd
    /\ CASIR.Reader.dropped_frames_ rd'
       = CASIR.Reader.dropped_frames_ rd
         + (CASIR.front_frame r - CASIR.Reader.last_frame_ rd - 1).
Proof.
  intros Hi Hbig Hl Hgap Hd Hov. unfold CASIR.Reader.read. rewrite Hi. simpl.
  fold (CASIR.front_frame r).
  destruct (Z.eqb_spec (CASIR.front_frame r) (CASIR.Reader.last_frame_ rd)); [lia|].
  destruct (Z.ltb_spec (CASIR.Reader.max_size_ rd)
              (CASIR.published_length (CASIR.hdr r))); [|lia].
  eexists. split; [reflexivity|]. simpl.
  split; [exact Hi|]. split; [reflexivity|]. split; [reflexivity|].
  rewrite (wrap64_small (CASIR.Reader.last_frame_ rd + 1)) by lia.
  destruct (Z.ltb_spec 0 (CASIR.Reader.last_frame_ rd)); [|lia].
  destruct (Z.ltb_spec (CASIR.Reader.last_frame_ rd + 1) (CASIR.front_frame r)); [|lia].
  simpl. rewrite (wrap64_small (CASIR.front_frame r - _ - 1)) by lia.
  apply wrap64_small. lia.
Qed.

(** X8. Cache-tuned tier: [read] adds the gap to the dropped-frame counter
    before it checks the published length. A reader that has seen a frame
    and then polls [k] times a region whose front frame is oversized and
    more than one ahead is refused every time, keeps its last frame number,
    and ends with the counter raised by [k] times the gap. *)
Theorem oversized_frame_recounts_gap :
  forall (k : nat) rd r data size,
  CASIR.Reader.is_initialized_ rd = true ->
  CASIR.Reader.max_size_ rd < CASIR.published_length (CASIR.hdr r) ->
  0 < CASIR.Reader.last_frame_ rd ->
  CASIR.Reader.last_frame_ rd + 1 < CASIR.front_frame r < 2 ^ 64 ->
  0 <= CASIR.Reader.dropped_frames_ rd ->
  CASIR.Reader.dropped_frames_ rd
    + Z.of_nat k * (CASIR.front_frame r - CASIR.Reader.last_frame_ rd - 1) < 2 ^ 64 ->
  exists rd',
    CASIR.Reader.read_all (replicate k r) rd data size
      = (replicate k false, rd', data, size)
    /\ CASIR.Reader.last_frame_ rd' = CASIR.Reader.last_frame_ rd
    /\ CASIR.Reader.dropped_frames_ rd'
       = CASIR.Reader.dropped_frames_ rd
         + Z.of_nat k * (CASIR.front_frame r - CASIR.Reader.last_frame_ rd - 1).
Proof.
  induction k as [|k IH]; intros rd r data size Hi Hbig Hl Hgap Hd Hov.
  - exists rd. simpl. split; [reflexivity|]. split; [reflexivity | lia].
  - destruct (casir_read_oversized_gap rd r data size Hi Hbig Hl Hgap Hd)
      as (rd1 & E & Hi1 & Hm1 & Hl1 & Hd1); [nia|].
    destruct (IH rd1 r data size Hi1) as (rd2 & E2 & A2 & B2);
      rewrite ?Hm1, ?Hl1, ?Hd1; try lia; try nia.
    exists rd2. cbn [replicate CASIR.Reader.read_all]. rewrite E, E2.
    split; [reflexivity|]. split; [congruence|].
    rewrite B2, Hd1, Hl1. lia.
Qed.

Lemma oversized_frame_recounts_gap_witness :
  let w0 := CASIR.Writer.new "/sensor" 8 SIM.portable default_cache in
  let res := CASIR.Writer.init w0 all_ok no_huge_pages Shm.empty in
  let r0 := CASIR.Writer.init_region w0 false 64 in
  let ops := [CASIR.Writer.OpWrite [Byte.x01] 1 110;
              CASIR.Writer.OpWrite [Byte.x02] 1 120;
              CASIR.Writer.OpWrite [Byte.x03] 1 130;
              CASIR.Writer.OpWrite [Byte.x01; Byte.x02; Byte.x03; Byte.x04; Byte.x05] 5 140] in
  let states := map snd (CASIR.Writer.run ops (snd (fst res), r0)) in
  let at_ i := default r0 (states !! i) in
  let rd := snd (CASIR.Reader.init
                   (CASIR.Reader.new "/sensor" 4 SIM.portable default_cache)
                   all_ok (snd res)) in
  let data := [Byte.xff; Byte.xff; Byte.xff; Byte.xff] in
  let rd1 := snd (fst (fst (CASIR.Reader.read rd (at_ 0%nat) data 0))) in
  CASIR.Reader.last_frame_ rd1 = 1
  /\ CASIR.Reader.dropped_frames_ rd1 = 0
  /\ exists rd',
       CASIR.Reader.read_all (replicate 3 (at_ 3%nat)) rd1 data 0
         = ([false; false; false], rd', data, 0)
       /\ CASIR.Reader.last_frame_ rd' = 1
       /\ CASIR.Reader.dropped_frames_ rd' = 6.
Proof.
  intros w0 res r0 ops states at_ rd data rd1.
  split; [vm_compute; reflexivity|].
  split; [vm_compute; reflexivity|].
  destruct (oversized_frame_recounts_gap 3 rd1 (at_ 3%nat) data 0)
    as (rd' & E & A & B).
  - vm_compute. reflexivity.
  - vm_compute. reflexivity.
  - vm_compute. reflexivity.
  - vm_compute. split; reflexivity.
  - vm_compute. congruence.
  - vm_compute. reflexivity.
  - exists rd'. split; [exact E|]. split; [rewrite A | rewrite B]; vm_compute; reflexivity.
Defined.

(** ** Writer liveness *)

Lemma quot_ms_lt (d t : Z) :
  0 < t -> (Z.quot d 1000000 <? t) = true <-> d < t * 1000000.
Proof.
  intros Ht. rewrite Z.ltb_lt.
  destruct (Z.le_gt_cases 0 d) as [Hd | Hd].
  - rewrite Z.quot_div_nonneg by lia. split; intros H.
    + apply Z.nle_gt. intros Hge. apply Z.nle_gt in H. apply H.
      apply Z.div_le_lower_bound; lia.
    + apply Z.div_lt_upper_bound; lia.
  - assert (Z.quot d 1000000 <= Z.quot 0 1000000)
      by (apply Z.quot_le_mono; lia).
    rewrite Z.quot_0_l in H by lia. lia.
Qed.



(** X10. Heartbeat of the double-buffer writers. Every successful publish
    stores the clock value it read as the heartbeat, whatever the frame;
    a reader attached to the region then sees the writer alive, for a
    positive timeout, exactly until the clock is [timeout_ms] past that
    value. The basic tier's [init] stores the clock as first heartbeat;
    the cache-tuned tier's [init] leaves the heartbeat at 0, so until the
    first publish its reader reports the writer dead as soon as the clock
    reads [timeout_ms] or more. *)
Theorem publish_refreshes_heartbeat :
  (forall op w r w' r' rd now timeout_ms,
     BARQ.Writer.publish op (w, r) = (true, w', r') ->
     BARQ.Reader.initialized_ rd = true -> 0 < timeout_ms ->
     BARQ.heartbeat_ns (BARQ.hdr r') = BARQ.Writer.op_now op
     /\ (BARQ.Reader.isWriterAlive rd r' now timeout_ms = true
         <-> now - BARQ.Writer.op_now op < timeout_ms * 1000000))
  /\
  (forall op w r w' r' rd now timeout_ms,
     CASIR.Writer.publish op (w, r) = (true, w', r') ->
     CASIR.Reader.is_initialized_ rd = true -> 0 < timeout_ms ->
     CASIR.writer_heartbeat_ns (CASIR.hdr r') = CASIR.Writer.op_now op
     /\ (CASIR.Reader.isWriterAlive rd r' now timeout_ms = true
         <-> now - CASIR.Writer.op_now op < timeout_ms * 1000000))
  /\
  (forall w huge buffer_size t0 rd now timeout_ms,
     BARQ.Reader.initialized_ rd = true -> 0 < timeout_ms ->
     BARQ.Reader.isWriterAlive rd (BARQ.Writer.init_region w huge buffer_size t0)
       now timeout_ms = true
     <-> now - t0 < timeout_ms * 1000000)
  /\
  (forall w huge aligned rd now timeout_ms,
     CASIR.Reader.is_initialized_ rd = true -> 0 < timeout_ms ->
     CASIR.Reader.isWriterAlive rd (CASIR.Writer.init_region w huge aligned)
       now timeout_ms = true
     <-> now < timeout_ms * 1000000).
Proof.
  split; [|split; [|split]].
  - intros op w r w' r' rd now t Hp Hi Ht.
    assert (Hhb : BARQ.heartbeat_ns (BARQ.hdr r') = BARQ.Writer.op_now op).
    { destruct op as [data size t0 | size t0]; cbn [BARQ.Writer.publish fst snd] in Hp;
        unfold BARQ.Writer.write, BARQ.Writer.commit in Hp;
        destruct (negb (BARQ.Writer.initialized_ w) || (BARQ.Writer.max_size_ w <? size));
        try discriminate; injection Hp as _ <-;
        destruct (wrap32 (1 - BARQ.front_idx (BARQ.hdr r)) =? 0); reflexivity. }
    split; [exact Hhb|].
    unfold BARQ.Reader.isWriterAlive. rewrite Hi, Hhb. simpl.
    apply quot_ms_lt. exact Ht.
  - intros op w r w' r' rd now t Hp Hi Ht.
    assert (Hhb : CASIR.writer_heartbeat_ns (CASIR.hdr r') = CASIR.Writer.op_now op).
    { destruct op as [data size t0 | fill size t0 | size t0];
        cbn [CASIR.Writer.publish fst snd] in Hp;
        unfold CASIR.Writer.write, CASIR.Writer.writeZeroCopy,
               CASIR.Writer.commitWrite in Hp;
        destruct (negb (CASIR.Writer.is_initialized_ w)
                  || (CASIR.Writer.max_size_ w <? size));
        try discriminate; injection Hp as _ <-;
        unfold CASIR.Writer.store_meta;
        destruct (wrap32 (1 - CASIR.front_idx (CASIR.hdr r)) =? 0); reflexivity. }
    split; [exact Hhb|].
    unfold CASIR.Reader.isWriterAlive. rewrite Hi, Hhb. simpl.
    apply quot_ms_lt. exact Ht.
  - intros w huge bs t0 rd now t Hi Ht.
    unfold BARQ.Reader.isWriterAlive. rewrite Hi. simpl.
    apply quot_ms_lt. exact Ht.
  - intros w huge al rd now t Hi Ht.
    unfold CASIR.Reader.isWriterAlive. rewrite Hi. simpl.
    rewrite Z.sub_0_r. apply quot_ms_lt. exact Ht.
Qed.

Lemma publish_refreshes_heartbeat_witness :
  let w0 := CASIR.Writer.new "/sensor" 8 SIM.portable default_cache in
  let res := CASIR.Writer.init w0 all_ok no_huge_pages Shm.empty in
  let r0 := CASIR.Writer.init_region w0 false 64 in
  let op := CASIR.Writer.OpWrite [Byte.x0a] 1 5000000000 in
  let st1 := CASIR.Writer.publish op (snd (fst res), r0) in
  let rd := snd (CASIR.Reader.init
                   (CASIR.Reader.new "/sensor" 8 SIM.portable default_cache)
                   all_ok (snd res)) in
  CASIR.Reader.isWriterAlive rd r0 5000000001 1000 = false
  /\ CASIR.writer_heartbeat_ns (CASIR.hdr (snd st1)) = 5000000000
  /\ CASIR.Reader.isWriterAlive rd (snd st1) 5000000001 1000 = true.
Proof.
  intros w0 res r0 op st1 rd.
  split; [vm_compute; reflexivity|].
  destruct (proj1 (proj2 publish_refreshes_heartbeat) op (snd (fst res)) r0
              (snd (fst st1)) (snd st1) rd 5000000001 1000) as [A B].
  - vm_compute. reflexivity.
  - vm_compute. reflexivity.
  - lia.
  - split; [exact A|]. apply B. vm_compute. reflexivity.
Defined.

(** ** Attaching and detaching *)

(** X11. Double-buffer engines: once a newly constructed writer's [init]
    has succeeded, [init] of a newly constructed reader of the same name
    succeeds whatever maximum size the reader was given, maps the writer's
    object and starts with last sequence 0. After the writer's [destroy]
    the name is gone and a new reader's [init] fails (the cache-tuned
    writer unlinks only a name that is not empty), while the object's
    content stays as it is for readers already attached. A reader's
    [init] on a name that is not bound fails. *)
Theorem reader_attach_lifecycle :
  (forall name max huge rmax sys rsys now (s : Shm.fs BARQ.Region),
     calls_succeed sys -> mmap_ok rsys = true ->
     exists w' s' rd',
       BARQ.Writer.init (BARQ.Writer.new name max huge) sys now s = (true, w', s')
       /\ BARQ.Reader.init (BARQ.Reader.new name rmax) rsys s' = (true, rd')
       /\ BARQ.Reader.initialized_ rd' = true
       /\ BARQ.Reader.ptr_ rd' = BARQ.Writer.ptr_ w'
       /\ BARQ.Reader.last_seq_ rd' = 0
       /\ BARQ.Reader.init (BARQ.Reader.new name rmax) rsys
            (snd (BARQ.Writer.destroy w' s')) = (false, BARQ.Reader.new name rmax)
       /\ Shm.objs (snd (BARQ.Writer.destroy w' s')) = Shm.objs s')
  /\
  (forall name max cfg det rmax rcfg rdet sys rsys hp (s : Shm.fs CASIR.Region),
     calls_succeed sys -> mmap_ok rsys = true ->
     exists w' s',
       CASIR.Writer.init (CASIR.Writer.new name max cfg det) sys hp s = (true, w', s')
       /\ exists rd',
            CASIR.Reader.init (CASIR.Reader.new name rmax rcfg rdet) rsys s' = (true, rd')
            /\ CASIR.Reader.is_initialized_ rd' = true
            /\ CASIR.Reader.shm_ptr_ rd' = CASIR.Writer.shm_ptr_ w'
            /\ CASIR.Reader.last_frame_ rd' = 0
            /\ (name <> ""%string ->
                fst (CASIR.Reader.init (CASIR.Reader.new name rmax rcfg rdet) rsys
                       (snd (CASIR.Writer.destroy w' s'))) = false)
            /\ Shm.objs (snd (CASIR.Writer.destroy w' s')) = Shm.objs s')
  /\
  (forall name rmax rsys (s : Shm.fs BARQ.Region),
     Shm.names s !! name = None ->
     BARQ.Reader.init (BARQ.Reader.new name rmax) rsys s
     = (false, BARQ.Reader.new name rmax))
  /\
  (forall name rmax rcfg rdet rsys (s : Shm.fs CASIR.Region),
     Shm.names s !! name = None ->
     fst (CASIR.Reader.init (CASIR.Reader.new name rmax rcfg rdet) rsys s) = false).
Proof.
  split; [|split; [|split]].
  - intros name max huge rmax sys rsys now s (Ho & Ht & Hm) Hrm.
    unfold BARQ.Writer.init.
    cbn [BARQ.Writer.new BARQ.Writer.initialized_ BARQ.Writer.name_ BARQ.Writer.ptr_
         BARQ.Writer.use_huge_pages_ BARQ.Writer.max_size_].
    rewrite Ho, open_creat_after_unlink, Ht, Hm. cbn [negb].
    destruct (huge && _); [destruct (mmap_hugetlb_ok sys)|];
      (eexists _, _, _; split; [reflexivity|]);
      unfold BARQ.Reader.init, BARQ.Writer.destroy, Shm.shm_open, Shm.store,
             Shm.shm_unlink;
      cbn [BARQ.Reader.new BARQ.Reader.initialized_ BARQ.Reader.name_ Shm.names Shm.objs
           BARQ.Writer.fd_ BARQ.Writer.name_ snd];
      rewrite Hrm, lookup_insert_eq, lookup_insert_eq, lookup_delete_eq;
      cbn [BARQ.Writer.init_region BARQ.hdr BARQ.magic]; rewrite Z.eqb_refl;
      repeat split; reflexivity.
  - intros name max cfg det rmax rcfg rdet sys rsys hp s (Ho & Ht & Hm) Hrm.
    unfold CASIR.Writer.init, CASIR.Writer.allocateMemory.
    cbn [CASIR.Writer.new CASIR.Writer.is_initialized_ CASIR.Writer.shm_name_
         CASIR.Writer.shm_ptr_ CASIR.Writer.config_ CASIR.Writer.max_size_].
    rewrite Ho, open_creat_after_unlink, Ht, Hm. cbn [negb].
    destruct (SIM.use_huge_pages _ && SIM.usable hp && mmap_hugetlb_ok sys);
      (eexists _, _; split; [reflexivity|]);
      unfold CASIR.Reader.init, CASIR.Writer.destroy, Shm.shm_open, Shm.store,
             Shm.shm_unlink;
      cbn [CASIR.Reader.new CASIR.Reader.is_initialized_ CASIR.Reader.shm_name_
           CASIR.Reader.shm_ptr_ CASIR.Reader.config_ CASIR.Reader.using_huge_pages_
           Shm.names Shm.objs CASIR.Writer.set_mapping
           CASIR.Writer.shm_fd_ CASIR.Writer.shm_name_ CASIR.Writer.new snd];
      rewrite Hrm, lookup_insert_eq;
      (destruct (SIM.use_huge_pages _ && mmap_hugetlb_ok rsys));
      rewrite lookup_insert_eq; eexists;
      cbn [CASIR.Writer.init_region CASIR.hdr CASIR.magic]; rewrite Z.eqb_refl;
      cbn [negb CASIR.Reader.set_mapping CASIR.Reader.is_initialized_
           CASIR.Reader.shm_ptr_ CASIR.Reader.last_frame_ CASIR.Reader.new];
      (split; [reflexivity|]); (split; [reflexivity|]); (split; [reflexivity|]);
      (split; [reflexivity|]);
      (split; [|destruct (String.eqb name ""); reflexivity]);
      intros Hne; apply String.eqb_neq in Hne; rewrite Hne;
      cbn [Shm.names]; rewrite lookup_delete_eq; reflexivity.
  - intros name rmax rsys s Hn. unfold BARQ.Reader.init, Shm.shm_open.
    cbn [BARQ.Reader.new BARQ.Reader.initialized_ BARQ.Reader.name_].
    rewrite Hn. reflexivity.
  - intros name rmax rcfg rdet rsys s Hn. unfold CASIR.Reader.init, Shm.shm_open.
    cbn [CASIR.Reader.new CASIR.Reader.is_initialized_ CASIR.Reader.shm_name_].
    rewrite Hn. reflexivity.
Qed.

Lemma reader_attach_lifecycle_witness :
  exists w' s' rd',
    BARQ.Writer.init (BARQ.Writer.new "/sensor" 8 false) all_ok 100 Shm.empty
      = (true, w', s')
    /\ BARQ.Reader.init (BARQ.Reader.new "/sensor" 4096) all_ok s' = (true, rd')
    /\ BARQ.Reader.init (BARQ.Reader.new "/sensor" 4096) all_ok
         (snd (BARQ.Writer.destroy w' s')) = (false, BARQ.Reader.new "/sensor" 4096).
Proof.
  destruct (proj1 reader_attach_lifecycle "/sensor"%string 8 false 4096 all_ok all_ok
              100 Shm.empty)
    as (w' & s' & rd' & A & B & _ & _ & _ & C & _).
  - repeat split; reflexivity.
  - reflexivity.
  - exists w', s', rd'. split; [exact A|]. split; [exact B | exact C].
Defined.

(** ** A failed or repeated initialisation *)

(** X12. Writer [init] of the three engines, called on a writer that is
    not initialised: when it reports failure the name is not bound in the
    resulting name space (an object that had the name before is unlinked
    as well), no object content has changed and the writer is still not
    initialised; when it reports success the name leads to an object
    carrying the engine's magic number (for the basic tier: on a writer
    whose mapping pointer is null, as it is after construction and after
    [destroy]). *)
Theorem init_failure_leaves_no_name :
  (forall w sys now (s : Shm.fs BARQ.Region) ok w' s',
     BARQ.Writer.initialized_ w = false ->
     BARQ.Writer.init w sys now s = (ok, w', s') ->
     BARQ.Writer.initialized_ w' = ok
     /\ (ok = false ->
         Shm.names s' !! BARQ.Writer.name_ w = None /\ Shm.objs s' = Shm.objs s)
     /\ (ok = true -> BARQ.Writer.ptr_ w = None ->
         exists id r, Shm.names s' !! BARQ.Writer.name_ w = Some id
                      /\ Shm.objs s' !! id = Some r
                      /\ BARQ.magic (BARQ.hdr r) = BARQ.MAGIC))
  /\
  (forall w sys hp (s : Shm.fs CASIR.Region) ok w' s',
     CASIR.Writer.is_initialized_ w = false ->
     CASIR.Writer.init w sys hp s = (ok, w', s') ->
     CASIR.Writer.is_initialized_ w' = ok
     /\ (ok = false ->
         Shm.names s' !! CASIR.Writer.shm_name_ w = None /\ Shm.objs s' = Shm.objs s)
     /\ (ok = true ->
         exists id r, Shm.names s' !! CASIR.Writer.shm_name_ w = Some id
                      /\ Shm.objs s' !! id = Some r
                      /\ CASIR.magic (CASIR.hdr r) = CASIR.CASIR_MAGIC))
  /\
  (forall w sys now (s : SAHM.World) ok w' s',
     SAHM.DirectWriter.is_initialized_ w = false ->
     SAHM.DirectWriter.init w sys now s = (ok, w', s') ->
     SAHM.DirectWriter.is_initialized_ w' = ok
     /\ (ok = false ->
         Shm.names s' !! SAHM.DirectWriter.channel_name_ w = None
         /\ Shm.objs s' = Shm.objs s)
     /\ (ok = true ->
         exists id h, Shm.names s' !! SAHM.DirectWriter.channel_name_ w = Some id
                      /\ Shm.objs s' !! id = Some (SAHM.Control h)
                      /\ SAHM.magic h = SAHM.DIRECT_MAGIC
                      /\ SAHM.num_readers h = 0)).
Proof.
  split; [|split].
  - intros w sys now s ok w' s' Hi. unfold BARQ.Writer.init. rewrite Hi.
    destruct (shm_open_ok sys).
    + rewrite open_creat_after_unlink.
      destruct (ftruncate_ok sys); cbn [negb].
      * destruct (BARQ.Writer.use_huge_pages_ w && _) eqn:Eh.
        -- destruct (mmap_hugetlb_ok sys); cbn [andb].
           ++ intros [= <- <- <-]. cbn. split; [reflexivity|].
              split; [discriminate|]. intros _ _. eexists _, _.
              rewrite !lookup_insert_eq. repeat split; reflexivity.
           ++ destruct (mmap_ok sys); cbn [negb]; intros [= <- <- <-]; cbn.
              ** split; [reflexivity|]. split; [discriminate|]. intros _ _.
                 eexists _, _. rewrite !lookup_insert_eq. repeat split; reflexivity.
              ** split; [reflexivity|]. split; [|discriminate]. intros _.
                 rewrite lookup_delete_eq. split; reflexivity.
        -- destruct (BARQ.Writer.ptr_ w) as [p|] eqn:Ep.
           ++ intros [= <- <- <-]. cbn. split; [reflexivity|].
              split; [discriminate|]. intros _ [=].
           ++ destruct (mmap_ok sys); cbn [negb]; intros [= <- <- <-]; cbn.
              ** split; [reflexivity|]. split; [discriminate|]. intros _ _.
                 eexists _, _. rewrite !lookup_insert_eq. repeat split; reflexivity.
              ** split; [reflexivity|]. split; [|discriminate]. intros _.
                 rewrite lookup_delete_eq. split; reflexivity.
      * intros [= <- <- <-]. cbn. split; [reflexivity|].
        split; [|discriminate]. intros _. rewrite lookup_delete_eq. split; reflexivity.
    + unfold Shm.shm_open_creat. cbn [negb]. intros [= <- <- <-]. cbn.
      split; [reflexivity|]. split; [|discriminate]. intros _.
      rewrite lookup_delete_eq. split; reflexivity.
  - intros w sys hp s ok w' s' Hi. unfold CASIR.Writer.init. rewrite Hi.
    destruct (shm_open_ok sys).
    + rewrite open_creat_after_unlink.
      destruct (ftruncate_ok sys); cbn [negb].
      * unfold CASIR.Writer.allocateMemory.
        destruct (SIM.use_huge_pages _ && SIM.usable hp && mmap_hugetlb_ok sys).
        -- intros [= <- <- <-]. cbn. split; [reflexivity|].
           split; [discriminate|]. intros _. eexists _, _.
           rewrite !lookup_insert_eq. repeat split; reflexivity.
        -- destruct (mmap_ok sys); cbn [negb]; intros [= <- <- <-]; cbn.
           ++ split; [reflexivity|]. split; [discriminate|]. intros _.
              eexists _, _. rewrite !lookup_insert_eq. repeat split; reflexivity.
           ++ split; [reflexivity|]. split; [|discriminate]. intros _.
              rewrite lookup_delete_eq. split; reflexivity.
      * intros [= <- <- <-]. cbn. split; [reflexivity|].
        split; [|discriminate]. intros _. rewrite lookup_delete_eq. split; reflexivity.
    + unfold Shm.shm_open_creat. cbn [negb]. intros [= <- <- <-]. cbn.
      split; [reflexivity|]. split; [|discriminate]. intros _.
      rewrite lookup_delete_eq. split; reflexivity.
  - intros w sys now s ok w' s' Hi. unfold SAHM.DirectWriter.init. rewrite Hi.
    destruct (shm_open_ok sys).
    + rewrite open_creat_after_unlink.
      destruct (ftruncate_ok sys); cbn [negb].
      * destruct (mmap_ok sys); cbn [negb]; intros [= <- <- <-]; cbn.
        -- split; [reflexivity|]. split; [discriminate|]. intros _.
           eexists _, _. rewrite !lookup_insert_eq. repeat split; reflexivity.
        -- split; [reflexivity|]. split; [|discriminate]. intros _.
           rewrite lookup_delete_eq. split; reflexivity.
      * intros [= <- <- <-]. cbn. split; [reflexivity|].
        split; [|discriminate]. intros _. rewrite lookup_delete_eq. split; reflexivity.
    + unfold Shm.shm_open_creat. cbn [negb]. intros [= <- <- <-]. cbn.
      split; [reflexivity|]. split; [|discriminate]. intros _.
      rewrite lookup_delete_eq. split; reflexivity.
Qed.

Lemma init_failure_leaves_no_name_witness :
  let w0 := BARQ.Writer.new "/sensor" 8 false in
  let s1 := snd (BARQ.Writer.init w0 all_ok 100 Shm.empty) in
  let sys := {| shm_open_ok := true; ftruncate_ok := false;
                mmap_hugetlb_ok := true; mmap_ok := true |} in
  let out := BARQ.Writer.init w0 sys 200 s1 in
  Shm.names s1 !! "/sensor"%string = Some 0%nat
  /\ fst (fst out) = false
  /\ Shm.names (snd out) !! "/sensor"%string = None.
Proof.
  intros w0 s1 sys out.
  assert (E : BARQ.Writer.init w0 sys 200 s1 = (false, snd (fst out), snd out))
    by (vm_compute; reflexivity).
  destruct (proj1 init_failure_leaves_no_name w0 sys 200 s1 false _ _ eq_refl E)
    as (_ & H & _).
  split; [vm_compute; reflexivity|].
  split; [vm_compute; reflexivity|].
  exact (proj1 (H eq_refl)).
Defined.

(** X13. [destroy] of a double-buffer writer does not reset its frame
    counter and [init] does not either: a writer that has published [k]
    frames, is destroyed and initialised again gets a new zeroed region
    and stores [k + 1], not 1, as the sequence number of its next
    publish. *)
Theorem frame_counter_survives_reinit :
  (forall w (s : Shm.fs BARQ.Region) sys now r data size t1,
     calls_succeed sys ->
     0 <= BARQ.Writer.frame_count_ w < 2 ^ 64 - 1 ->
     0 <= size <= BARQ.Writer.max_size_ w ->
     let (w1, s1) := BARQ.Writer.destroy w s in
     exists w2 s2 id r0,
       BARQ.Writer.init w1 sys now s1 = (true, w2, s2)
       /\ BARQ.Writer.frame_count_ w2 = BARQ.Writer.frame_count_ w
       /\ Shm.names s2 !! BARQ.Writer.name_ w = Some id
       /\ Shm.objs s2 !! id = Some r0
       /\ BARQ.front_seq r0 = 0
       /\ (BARQ.front_idx (BARQ.hdr r) = 0 \/ BARQ.front_idx (BARQ.hdr r) = 1 ->
           BARQ.front_seq (snd (BARQ.Writer.write w2 r data size t1))
           = BARQ.Writer.frame_count_ w + 1))
  /\
  (forall w (s : Shm.fs CASIR.Region) sys hp r data size t1,
     calls_succeed sys ->
     0 <= CASIR.Writer.frame_count_ w < 2 ^ 64 - 1 ->
     0 <= size <= CASIR.Writer.max_size_ w ->
     let (w1, s1) := CASIR.Writer.destroy w s in
     exists w2 s2 id r0,
       CASIR.Writer.init w1 sys hp s1 = (true, w2, s2)
       /\ CASIR.Writer.frame_count_ w2 = CASIR.Writer.frame_count_ w
       /\ Shm.names s2 !! CASIR.Writer.shm_name_ w = Some id
       /\ Shm.objs s2 !! id = Some r0
       /\ CASIR.front_frame r0 = 0
       /\ (CASIR.front_idx (CASIR.hdr r) = 0 \/ CASIR.front_idx (CASIR.hdr r) = 1 ->
           CASIR.front_frame (snd (CASIR.Writer.write w2 r data size t1))
           = CASIR.Writer.frame_count_ w + 1)).
Proof.
  split.
  - intros w s sys now r data size t1 (Ho & Ht & Hm) Hfc Hsz.
    unfold BARQ.Writer.destroy, BARQ.Writer.init.
    cbn [BARQ.Writer.initialized_ BARQ.Writer.name_ BARQ.Writer.ptr_
         BARQ.Writer.use_huge_pages_ BARQ.Writer.max_size_
         BARQ.Writer.huge_pages_active_ BARQ.Writer.frame_count_].
    rewrite Ho, open_creat_after_unlink, Ht, Hm. cbn [negb].
    assert (Hlt : (BARQ.Writer.max_size_ w <? size) = false) by (apply Z.ltb_ge; lia).
    destruct (BARQ.Writer.use_huge_pages_ w && _); [destruct (mmap_hugetlb_ok sys)|];
      (eexists _, _, _, _; split; [reflexivity|]);
      cbn [BARQ.Writer.frame_count_ Shm.store Shm.names Shm.objs];
      rewrite !lookup_insert_eq;
      (split; [reflexivity|]); (split; [reflexivity|]); (split; [reflexivity|]);
      (split; [reflexivity|]);
      intros Hf; pose proof (back_of_front _ Hf) as [Hb _];
      unfold BARQ.Writer.write;
      cbn [BARQ.Writer.initialized_ BARQ.Writer.max_size_ BARQ.Writer.frame_count_ negb orb];
      rewrite Hlt, Hb, (wrap64_small (_ + 1)) by lia;
      unfold BARQ.front_seq; destruct Hf as [E | E]; rewrite E; reflexivity.
  - intros w s sys hp r data size t1 (Ho & Ht & Hm) Hfc Hsz.
    unfold CASIR.Writer.destroy, CASIR.Writer.init, CASIR.Writer.allocateMemory.
    cbn [CASIR.Writer.set_mapping CASIR.Writer.is_initialized_ CASIR.Writer.shm_name_
         CASIR.Writer.shm_ptr_ CASIR.Writer.config_ CASIR.Writer.max_size_
         CASIR.Writer.using_huge_pages_ CASIR.Writer.frame_count_].
    rewrite Ho, open_creat_after_unlink, Ht, Hm. cbn [negb].
    assert (Hlt : (CASIR.Writer.max_size_ w <? size) = false) by (apply Z.ltb_ge; lia).
    destruct (SIM.use_huge_pages _ && SIM.usable hp && mmap_hugetlb_ok sys);
      (eexists _, _, _, _; split; [reflexivity|]);
      cbn [CASIR.Writer.set_mapping CASIR.Writer.frame_count_ Shm.store Shm.names Shm.objs];
      rewrite !lookup_insert_eq;
      (split; [reflexivity|]); (split; [reflexivity|]); (split; [reflexivity|]);
      (split; [reflexivity|]);
      intros Hf; pose proof (back_of_front _ Hf) as [Hb _];
      unfold CASIR.Writer.write;
      cbn [CASIR.Writer.set_mapping CASIR.Writer.is_initialized_
           CASIR.Writer.max_size_ CASIR.Writer.frame_count_ negb orb];
      rewrite Hlt, Hb, (wrap64_small (_ + 1)) by lia;
      unfold CASIR.front_frame, CASIR.Writer.store_meta;
      destruct Hf as [E | E]; rewrite E; reflexivity.
Qed.

Lemma frame_counter_survives_reinit_witness :
  let w0 := BARQ.Writer.new "/sensor" 8 false in
  let res := BARQ.Writer.init w0 all_ok 100 Shm.empty in
  let r0 := BARQ.Writer.init_region w0 false 64 100 in
  let st1 := BARQ.Writer.write (snd (fst res)) r0 [Byte.x0a] 1 110 in
  let st2 := BARQ.Writer.write (snd (fst st1)) (snd st1) [Byte.x0b] 1 120 in
  let d := BARQ.Writer.destroy (snd (fst st2)) (snd res) in
  exists w2 s2,
    BARQ.Writer.init (fst d) all_ok 300 (snd d) = (true, w2, s2)
    /\ BARQ.Writer.frame_count_ w2 = 2
    /\ BARQ.front_seq (snd (BARQ.Writer.write w2 r0 [Byte.x0c] 1 310)) = 3.
Proof.
  intros w0 res r0 st1 st2 d.
  pose proof (proj1 frame_counter_survives_reinit (snd (fst st2)) (snd res) all_ok 300
                r0 [Byte.x0c] 1 310) as H.
  fold d in H. destruct d as [w1 s1].
  destruct H as (w2 & s2 & id & r & A & B & _ & _ & _ & C).
  - repeat split; reflexivity.
  - vm_compute. split; congruence.
  - vm_compute. split; congruence.
  - exists w2, s2. split; [exact A|]. split.
    + rewrite B. vm_compute. reflexivity.
    + rewrite C; [vm_compute; reflexivity | left; reflexivity].
Defined.

(** ** Layout of the two buffers *)

Lemma alignUp_cache_line (v : Z) :
  0 <= v <= 2 ^ 64 - 64 -> BARQ.alignUp v BARQ.CACHE_LINE = (v + 63) / 64 * 64.
Proof.
  intros Hv. change BARQ.CACHE_LINE with (2 ^ 6). rewrite alignUp_pow2 by lia.
  rewrite wrap64_small by lia. change (2 ^ 6) with 64.
  replace (v + 64 - 1) with (v + 63) by lia. reflexivity.
Qed.

Lemma alignToCacheLine_div (v : Z) :
  0 <= v <= 2 ^ 64 - 64 -> SIM.alignToCacheLine v = (v + 63) / 64 * 64.
Proof.
  intros Hv. unfold SIM.alignToCacheLine. change SIM.CACHE_LINE_SIZE with 64.
  rewrite (wrap64_small (v + 64 - 1)) by lia.
  replace (v + 64 - 1) with (v + 63) by lia.
  apply wrap64_small.
  pose proof (Z.mul_div_le (v + 63) 64 ltac:(lia)).
  assert (0 <= (v + 63) / 64) by (apply Z.div_pos; lia). lia.
Qed.

Lemma round_up_64_bounds (v : Z) : v <= (v + 63) / 64 * 64 < v + 64.
Proof.
  pose proof (Z.div_mod (v + 63) 64 ltac:(lia)).
  pose proof (Z.mod_pos_bound (v + 63) 64 ltac:(lia)). lia.
Qed.

(** X14. Both double-buffer engines place buffer 0 right after the header
    and buffer 1 one rounded-up maximum size further; each buffer has room
    for a frame of maximum size and buffer 1 ends within the size [init]
    asks for. The reader computes the same offsets from its own maximum
    size: buffer 0 always coincides with the writer's, buffer 1 coincides
    exactly when the two maximum sizes round up to the same multiple of
    64, and a reader whose maximum is 64 or more below the writer's places
    its buffer 1 inside the writer's buffer 0. *)
Theorem buffer_layout :
  (forall w rd,
     0 <= BARQ.Writer.max_size_ w <= 2 ^ 62 ->
     0 <= BARQ.Reader.max_size_ rd <= 2 ^ 62 ->
     BARQ.Writer.buffer_ w 0 = BARQ.sizeof_Header
     /\ BARQ.Reader.buffer_ rd 0 = BARQ.Writer.buffer_ w 0
     /\ BARQ.Writer.buffer_ w 0 + BARQ.Writer.max_size_ w <= BARQ.Writer.buffer_ w 1
     /\ BARQ.Writer.buffer_ w 1 + BARQ.Writer.max_size_ w
        <= wrap64 (BARQ.sizeof_Header
                   + BARQ.alignUp (BARQ.Writer.max_size_ w) BARQ.CACHE_LINE * 2)
     /\ (BARQ.Reader.buffer_ rd 1 = BARQ.Writer.buffer_ w 1
         <-> (BARQ.Reader.max_size_ rd + 63) / 64 = (BARQ.Writer.max_size_ w + 63) / 64)
     /\ (BARQ.Reader.max_size_ rd + 64 <= BARQ.Writer.max_size_ w ->
         BARQ.Reader.buffer_ rd 1 < BARQ.Writer.buffer_ w 0 + BARQ.Writer.max_size_ w))
  /\
  (forall w rd,
     0 <= CASIR.Writer.max_size_ w <= 2 ^ 62 ->
     0 <= CASIR.Reader.max_size_ rd <= 2 ^ 62 ->
     CASIR.Writer.buffer_ w 0 = CASIR.sizeof_Header
     /\ CASIR.Reader.buffer_ rd 0 = CASIR.Writer.buffer_ w 0
     /\ CASIR.Writer.buffer_ w 0 + CASIR.Writer.max_size_ w <= CASIR.Writer.buffer_ w 1
     /\ CASIR.Writer.buffer_ w 1 + CASIR.Writer.max_size_ w
        <= wrap64 (CASIR.sizeof_Header
                   + SIM.alignToCacheLine (CASIR.Writer.max_size_ w) * 2)
     /\ (CASIR.Reader.buffer_ rd 1 = CASIR.Writer.buffer_ w 1
         <-> (CASIR.Reader.max_size_ rd + 63) / 64 = (CASIR.Writer.max_size_ w + 63) / 64)
     /\ (CASIR.Reader.max_size_ rd + 64 <= CASIR.Writer.max_size_ w ->
         CASIR.Reader.buffer_ rd 1 < CASIR.Writer.buffer_ w 0 + CASIR.Writer.max_size_ w)).
Proof.
  split.
  - intros w rd Hw Hr.
    unfold BARQ.Writer.buffer_, BARQ.Reader.buffer_. cbn [Z.eqb].
    rewrite !alignUp_cache_line by lia.
    pose proof (round_up_64_bounds (BARQ.Writer.max_size_ w)) as Bw.
    pose proof (round_up_64_bounds (BARQ.Reader.max_size_ rd)) as Br.
    change BARQ.sizeof_Header with 320.
    rewrite wrap64_small by lia.
    split; [reflexivity|]. split; [reflexivity|]. split; [lia|]. split; [lia|].
    split; [|lia].
    split; intros H; lia.
  - intros w rd Hw Hr.
    unfold CASIR.Writer.buffer_, CASIR.Reader.buffer_. cbn [Z.eqb].
    rewrite !alignToCacheLine_div by lia.
    pose proof (round_up_64_bounds (CASIR.Writer.max_size_ w)) as Bw.
    pose proof (round_up_64_bounds (CASIR.Reader.max_size_ rd)) as Br.
    change CASIR.sizeof_Header with 384.
    rewrite wrap64_small by lia.
    split; [reflexivity|]. split; [reflexivity|]. split; [lia|]. split; [lia|].
    split; [|lia].
    split; intros H; lia.
Qed.

Lemma buffer_layout_witness :
  let w := BARQ.Writer.new "/sensor" 1000 false in
  let rd := BARQ.Reader.new "/sensor" 100 in
  BARQ.Writer.buffer_ w 1 = 320 + 1024
  /\ BARQ.Reader.buffer_ rd 1 = 320 + 128
  /\ BARQ.Reader.buffer_ rd 1 < BARQ.Writer.buffer_ w 0 + 1000.
Proof.
  intros w rd.
  destruct (proj1 buffer_layout w rd) as (_ & _ & _ & _ & _ & H).
  - simpl. lia.
  - simpl. lia.
  - split; [vm_compute; reflexivity|]. split; [vm_compute; reflexivity|].
    apply H. simpl. lia.
Defined.

(** ** Platform probe: detection and huge pages *)

Lemma assign_index_keeps (info : SIM.CacheInfo) (e : SIM.CacheIndex) :
  0 < SIM.line_size info ->
  0 < SIM.line_size (SIM.assign_index info e)
  /\ SIM.num_cores (SIM.assign_index info e) = SIM.num_cores info.
Proof.
  intros Hl. unfold SIM.assign_index.
  destruct (SIM.index_type e) as [ty|]; [|split; [exact Hl | reflexivity]].
  assert (Hline : 0 < match SIM.index_line e with
                      | Some l => if 0 <? l then l else SIM.line_size info
                      | None => SIM.line_size info
                      end).
  { destruct (SIM.index_line e) as [l|]; [|exact Hl].
    destruct (Z.ltb_spec 0 l); [assumption | exact Hl]. }
  destruct ((SIM.index_level e =? 1) && String.eqb ty "Data");
    [split; [exact Hline | reflexivity]|].
  destruct ((SIM.index_level e =? 1) && String.eqb ty "Instruction");
    [split; [exact Hline | reflexivity]|].
  destruct (SIM.index_level e =? 2); [split; [exact Hline | reflexivity]|].
  destruct (SIM.index_level e =? 3); split; first [exact Hline | reflexivity].
Qed.

Lemma fold_assign_index_keeps (es : list SIM.CacheIndex) (info : SIM.CacheInfo) :
  0 < SIM.line_size info ->
  0 < SIM.line_size (fold_left SIM.assign_index es info)
  /\ SIM.num_cores (fold_left SIM.assign_index es info) = SIM.num_cores info.
Proof.
  revert info. induction es as [|e es IH]; intros info Hl; [split; [exact Hl | reflexivity]|].
  cbn [fold_left]. destruct (assign_index_keeps info e Hl) as [A B].
  destruct (IH _ A) as [C D]. split; [exact C | congruence].
Qed.

Lemma fold_assign_index_unreadable (es : list SIM.CacheIndex) (info : SIM.CacheInfo) :
  Forall (fun e => SIM.index_type e = None) es ->
  fold_left SIM.assign_index es info = info.
Proof.
  revert info. induction es as [|e es IH]; intros info Hall; [reflexivity|].
  apply Forall_cons in Hall as [He Hes]. cbn [fold_left].
  unfold SIM.assign_index at 2. rewrite He. apply IH. exact Hes.
Qed.

(** X15. [detectCacheInfo] always reports a positive line size and the
    core count [sysconf] gave, whatever the cache directory holds. When
    the directory cannot be opened, is empty, or no [type] file can be
    read, the result is the defaults (32 KiB, 32 KiB, 256 KiB, 8 MiB, 64),
    and [fitsInL3] then accepts exactly the sizes up to 4 MiB. A level-2
    index whose [size] file cannot be read, met last, overwrites the
    default with 0, after which [optimal_prefetch_distance] falls back to
    64 KiB. *)
Theorem detect_cache_info_defaults :
  (forall cores dir,
     0 < SIM.line_size (SIM.detectCacheInfo cores dir)
     /\ SIM.num_cores (SIM.detectCacheInfo cores dir) = cores)
  /\
  (forall cores dir,
     Forall (fun e => SIM.index_type e = None) (default [] dir) ->
     SIM.detectCacheInfo cores dir
     = {| SIM.l1d_size := 32768; SIM.l1i_size := 32768; SIM.l2_size := 262144;
          SIM.l3_size := 8388608; SIM.line_size := 64; SIM.num_cores := cores |}
     /\ (forall size, SIM.fitsInL3 cores dir size = true <-> size <= 4194304))
  /\
  (forall cores es ty line,
     let e := {| SIM.index_type := Some ty; SIM.index_level := 2;
                 SIM.index_size := 0; SIM.index_line := line |} in
     SIM.l2_size (SIM.detectCacheInfo cores (Some (es ++ [e]))) = 0
     /\ SIM.optimal_prefetch_distance (SIM.detectCacheInfo cores (Some (es ++ [e])))
        = 65536).
Proof.
  split; [|split].
  - intros cores dir. unfold SIM.detectCacheInfo.
    apply fold_assign_index_keeps. reflexivity.
  - intros cores dir Hall. unfold SIM.fitsInL3, SIM.detectCacheInfo.
    rewrite fold_assign_index_unreadable by exact Hall.
    split; [reflexivity|]. intros size. cbn [SIM.l3_size].
    change (SIM.DEFAULT_L3_SIZE / 2) with 4194304. apply Z.leb_le.
  - intros cores es ty line e.
    assert (E : SIM.l2_size (SIM.detectCacheInfo cores (Some (es ++ [e]))) = 0).
    { unfold SIM.detectCacheInfo.
      change (default [] (Some (es ++ [e]))) with (es ++ [e]). rewrite fold_left_app.
      cbn [fold_left]. unfold SIM.assign_index at 1. subst e.
      cbn [SIM.index_type SIM.index_level SIM.index_size SIM.index_line].
      cbn [Z.eqb Pos.eqb andb]. reflexivity. }
    split; [exact E|]. unfold SIM.optimal_prefetch_distance. rewrite E. reflexivity.
Qed.

Lemma detect_cache_info_defaults_witness :
  let unreadable := {| SIM.index_type := None; SIM.index_level := 0;
                       SIM.index_size := 0; SIM.index_line := None |} in
  SIM.detectCacheInfo 8 (Some [unreadable; unreadable]) = SIM.detectCacheInfo 8 None
  /\ SIM.fitsInL3 8 (Some [unreadable; unreadable]) 4194304 = true
  /\ SIM.fitsInL3 8 (Some [unreadable; unreadable]) 4194305 = false.
Proof.
  intros unreadable.
  assert (Hall : Forall (fun e => SIM.index_type e = None)
                   (default [] (Some [unreadable; unreadable])))
    by (repeat constructor).
  destruct (proj1 (proj2 detect_cache_info_defaults) 8 _ Hall) as [A B].
  split; [rewrite A; reflexivity|].
  split; [apply B; lia|].
  destruct (SIM.fitsInL3 8 (Some [unreadable; unreadable]) 4194305) eqn:E; [|reflexivity].
  apply B in E. lia.
Defined.

(** X16. [shouldUseHugePages], for a positive huge-page size and a size
    whose page count does not wrap: it answers true exactly when the size
    is at least 1 MiB, the host has a free huge page, and the free huge
    pages together can hold the size. *)
Theorem should_use_huge_pages_spec :
  forall hp size,
  0 < SIM.page_size hp -> 0 <= size -> size + SIM.page_size hp <= 2 ^ 64 ->
  SIM.shouldUseHugePages hp size = true
  <-> 1048576 <= size /\ SIM.usable hp = true
      /\ size <= SIM.free hp * SIM.page_size hp.
Proof.
  intros hp size Hps Hsz Hov. unfold SIM.shouldUseHugePages.
  change (1024 * 1024) with 1048576.
  destruct (Z.ltb_spec size 1048576); [split; [discriminate | lia]|].
  destruct (SIM.usable hp); cbn [negb];
    [|split; [discriminate | intros (_ & ? & _); discriminate]].
  rewrite wrap64_small by lia. rewrite Z.leb_le.
  pose proof (Z.div_mod (size + SIM.page_size hp - 1) (SIM.page_size hp) ltac:(lia)) as Hdm.
  pose proof (Z.mod_pos_bound (size + SIM.page_size hp - 1) (SIM.page_size hp) Hps) as Hm.
  split.
  - intros Hle. split; [lia|]. split; [reflexivity|]. nia.
  - intros (_ & _ & Hfit). apply Z.lt_succ_r. apply Z.div_lt_upper_bound; [lia|]. nia.
Qed.

Lemma should_use_huge_pages_spec_witness :
  let hp := {| SIM.available := true; SIM.usable := true; SIM.total := 4;
               SIM.free := 2; SIM.page_size := 2097152 |} in
  SIM.shouldUseHugePages hp 4194304 = true
  /\ SIM.shouldUseHugePages hp 4194305 = false.
Proof.
  intros hp.
  assert (H1 : 0 < SIM.page_size hp) by (simpl; lia).
  assert (H2 : 4194305 + SIM.page_size hp <= 2 ^ 64) by (simpl; lia).
  pose proof (should_use_huge_pages_spec hp 4194304 H1 ltac:(lia) ltac:(lia)) as A.
  pose proof (should_use_huge_pages_spec hp 4194305 H1 ltac:(lia) H2) as B.
  split.
  - apply A. simpl. split; [lia|]. split; [reflexivity | lia].
  - destruct (SIM.shouldUseHugePages hp 4194305); [|reflexivity].
    exfalso. destruct (proj1 B eq_refl) as (_ & _ & H). simpl in H. lia.
Defined.

(** ** Huge pages at initialisation *)

(** X17. A successful [init] of a newly constructed double-buffer writer
    records in the header whether the mapping it ended up with is
    huge-page backed: the flag is 1 exactly when the writer's own
    huge-page field is set, and that happens only if huge pages were asked
    for and the [MAP_HUGETLB] mapping succeeded (in the basic tier also
    only if the region is at least one huge page; in the cache-tuned tier
    only if the host has a free huge page). When the huge-page mapping is
    refused and the ordinary one succeeds, [init] still succeeds, on
    ordinary pages. The header carries the writer's maximum size as
    capacity, and both buffers come zeroed. *)
Theorem huge_page_flag_truthful :
  (forall name max huge sys now (s : Shm.fs BARQ.Region) w' s',
     BARQ.Writer.init (BARQ.Writer.new name max huge) sys now s = (true, w', s') ->
     exists id r,
       Shm.names s' !! name = Some id /\ Shm.objs s' !! id = Some r
       /\ BARQ.flags (BARQ.hdr r) = (if BARQ.Writer.huge_pages_active_ w' then 1 else 0)
       /\ (BARQ.Writer.huge_pages_active_ w' = true ->
           huge = true /\ mmap_hugetlb_ok sys = true
           /\ BARQ.HUGE_PAGE <= BARQ.Writer.shm_size_ w')
       /\ (BARQ.Writer.huge_pages_active_ w' = false ->
           huge = false \/ mmap_hugetlb_ok sys = false
           \/ BARQ.Writer.shm_size_ w' < BARQ.HUGE_PAGE)
       /\ BARQ.capacity (BARQ.hdr r) = max
       /\ BARQ.buffer0 r = replicate (Z.to_nat (BARQ.alignUp max BARQ.CACHE_LINE)) Byte.x00
       /\ BARQ.buffer1 r = BARQ.buffer0 r)
  /\
  (forall name max cfg det sys hp (s : Shm.fs CASIR.Region) w' s',
     CASIR.Writer.init (CASIR.Writer.new name max cfg det) sys hp s = (true, w', s') ->
     exists id r,
       Shm.names s' !! name = Some id /\ Shm.objs s' !! id = Some r
       /\ CASIR.flags (CASIR.hdr r) = (if CASIR.Writer.using_huge_pages_ w' then 1 else 0)
       /\ CASIR.huge_page_size (CASIR.hdr r)
          = (if CASIR.Writer.using_huge_pages_ w' then SIM.HUGE_PAGE_SIZE else 0)
       /\ (CASIR.Writer.using_huge_pages_ w' = true <->
           SIM.use_huge_pages cfg = true /\ SIM.usable hp = true
           /\ mmap_hugetlb_ok sys = true)
       /\ CASIR.capacity (CASIR.hdr r) = max
       /\ CASIR.buffer0 r = replicate (Z.to_nat (SIM.alignToCacheLine max)) Byte.x00
       /\ CASIR.buffer1 r = CASIR.buffer0 r)
  /\
  (forall name max huge sys now (s : Shm.fs BARQ.Region),
     calls_succeed sys -> mmap_hugetlb_ok sys = false ->
     exists w' s',
       BARQ.Writer.init (BARQ.Writer.new name max huge) sys now s = (true, w', s')
       /\ BARQ.Writer.huge_pages_active_ w' = false)
  /\
  (forall name max cfg det sys hp (s : Shm.fs CASIR.Region),
     calls_succeed sys -> mmap_hugetlb_ok sys = false ->
     exists w' s',
       CASIR.Writer.init (CASIR.Writer.new name max cfg det) sys hp s = (true, w', s')
       /\ CASIR.Writer.using_huge_pages_ w' = false).
Proof.
  split; [|split; [|split]].
  - intros name max huge sys now s w' s'. unfold BARQ.Writer.init.
    cbn [BARQ.Writer.new BARQ.Writer.initialized_ BARQ.Writer.name_ BARQ.Writer.ptr_
         BARQ.Writer.use_huge_pages_ BARQ.Writer.max_size_
         BARQ.Writer.huge_pages_active_].
    destruct (shm_open_ok sys); [|unfold Shm.shm_open_creat; cbn [negb]; intros [=]].
    rewrite open_creat_after_unlink.
    destruct (ftruncate_ok sys); cbn [negb]; [|intros [=]].
    destruct huge; cbn [andb].
    + destruct (Z.leb_spec BARQ.HUGE_PAGE
                  (wrap64 (BARQ.sizeof_Header + BARQ.alignUp max BARQ.CACHE_LINE * 2)))
        as [Hbig | Hsmall].
      * destruct (Z.leb_spec BARQ.HUGE_PAGE
                    (BARQ.alignUp
                       (wrap64 (BARQ.sizeof_Header + BARQ.alignUp max BARQ.CACHE_LINE * 2))
                       BARQ.HUGE_PAGE)) as [Hbig2 | Hsmall2].
        -- destruct (mmap_hugetlb_ok sys) eqn:Eh.
           ++ intros [= <- <-]. eexists _, _. cbn. rewrite !lookup_insert_eq.
              do 3 (split; [reflexivity|]).
              split; [intros _; repeat split; assumption|].
              split; [discriminate|]. repeat split; reflexivity.
           ++ destruct (mmap_ok sys); cbn [negb]; [|intros [=]].
              intros [= <- <-]. eexists _, _. cbn. rewrite !lookup_insert_eq.
              do 3 (split; [reflexivity|]).
              split; [discriminate|].
              split; [intros _; right; left; reflexivity|]. repeat split; reflexivity.
        -- destruct (mmap_ok sys); cbn [negb]; [|intros [=]].
           intros [= <- <-]. eexists _, _. cbn. rewrite !lookup_insert_eq.
           do 3 (split; [reflexivity|]).
           split; [discriminate|].
           split; [intros _; right; right; exact Hsmall2|]. repeat split; reflexivity.
      * destruct (Z.leb_spec BARQ.HUGE_PAGE
                    (wrap64 (BARQ.sizeof_Header + BARQ.alignUp max BARQ.CACHE_LINE * 2)));
          [lia|].
        destruct (mmap_ok sys); cbn [negb]; [|intros [=]].
        intros [= <- <-]. eexists _, _. cbn. rewrite !lookup_insert_eq.
        do 3 (split; [reflexivity|]).
        split; [discriminate|].
        split; [intros _; right; right; exact Hsmall|]. repeat split; reflexivity.
    + destruct (mmap_ok sys); cbn [negb]; [|intros [=]].
      intros [= <- <-]. eexists _, _. cbn. rewrite !lookup_insert_eq.
      do 3 (split; [reflexivity|]).
      split; [discriminate|].
      split; [intros _; left; reflexivity|]. repeat split; reflexivity.
  - intros name max cfg det sys hp s w' s'.
    unfold CASIR.Writer.init, CASIR.Writer.allocateMemory.
    cbn [CASIR.Writer.new CASIR.Writer.is_initialized_ CASIR.Writer.shm_name_
         CASIR.Writer.shm_ptr_ CASIR.Writer.config_ CASIR.Writer.max_size_
         CASIR.Writer.using_huge_pages_].
    assert (Hcfg : SIM.use_huge_pages
                     (if SIM.prefetch_distance cfg =? 0
                      then SIM.set_prefetch_distance
                             (SIM.optimal_prefetch_distance det) cfg
                      else cfg) = SIM.use_huge_pages cfg)
      by (destruct (SIM.prefetch_distance cfg =? 0); reflexivity).
    rewrite Hcfg.
    destruct (shm_open_ok sys); [|unfold Shm.shm_open_creat; cbn [negb]; intros [=]].
    rewrite open_creat_after_unlink.
    destruct (ftruncate_ok sys); cbn [negb]; [|intros [=]].
    destruct (SIM.use_huge_pages cfg) eqn:Eu, (SIM.usable hp) eqn:Eus,
             (mmap_hugetlb_ok sys) eqn:Eh; cbn [andb];
      try (match goal with
           | |- context [mmap_ok sys] =>
               destruct (mmap_ok sys); cbn [negb]; [|intros [=]]
           end);
      intros [= <- <-]; eexists _, _; cbn; rewrite !lookup_insert_eq;
      do 4 (split; [reflexivity|]);
      (split; [split; [first [discriminate | intros _; repeat split; reflexivity]
                      | first [reflexivity
                              | intros (? & ? & ?); discriminate]]|]);
      repeat split; reflexivity.
  - intros name max huge sys now s (Ho & Ht & Hm) Hh. unfold BARQ.Writer.init.
    cbn [BARQ.Writer.new BARQ.Writer.initialized_ BARQ.Writer.name_ BARQ.Writer.ptr_
         BARQ.Writer.use_huge_pages_ BARQ.Writer.max_size_
         BARQ.Writer.huge_pages_active_].
    rewrite Ho, open_creat_after_unlink, Ht, Hm, Hh. cbn [negb].
    rewrite andb_false_r.
    destruct (huge && _); eexists _, _; split; reflexivity.
  - intros name max cfg det sys hp s (Ho & Ht & Hm) Hh.
    unfold CASIR.Writer.init, CASIR.Writer.allocateMemory.
    cbn [CASIR.Writer.new CASIR.Writer.is_initialized_ CASIR.Writer.shm_name_
         CASIR.Writer.shm_ptr_ CASIR.Writer.config_ CASIR.Writer.max_size_
         CASIR.Writer.using_huge_pages_].
    rewrite Ho, open_creat_after_unlink, Ht, Hm, Hh. cbn [negb].
    rewrite andb_false_r. eexists _, _; split; reflexivity.
Qed.

Lemma huge_page_flag_truthful_witness :
  let sys := {| shm_open_ok := true; ftruncate_ok := true;
                mmap_hugetlb_ok := false; mmap_ok := true |} in
  exists w' s',
    BARQ.Writer.init (BARQ.Writer.new "/sensor" 4194304 true) sys 100 Shm.empty
      = (true, w', s')
    /\ BARQ.Writer.huge_pages_active_ w' = false.
Proof.
  intros sys.
  apply (proj1 (proj2 (proj2 huge_page_flag_truthful))).
  - repeat split; reflexivity.
  - reflexivity.
Defined.

(** ** Ring fan-out: what the reader finds after a write *)

Section FanOutExact.

Import SAHM SAHM.DirectWriter.


(** The fan-out loop of a writer that serves one ring, given what the
    publish into that ring yields. *)
Lemma publish_all_one_eq (w : t) (s : World) cid bid h (N : Z) data size ts o :
  header_ w = Some cid -> cid <> bid ->
  Shm.objs s !! cid = Some (Control h) ->
  serves_only w bid N ->
  publish_ring (Some bid) N data size ts s = Some (Shm.store bid o s) ->
  publish_all w data size ts s
  = Some (1, Shm.store cid (Control (set_heartbeat ts h)) (Shm.store bid o s)).
Proof.
  intros Hh Hne Ho Hs Ep.
  unfold publish_all. change (seq 0 MAX_READERS) with (0%nat :: seq 1 15).
  destruct Hs as (Hv & Hp & Hr & Hothers).
  cbn [for_each]. unfold publish_entry at 1. rewrite Hv, Hp, Hr.
  cbn [negb fst snd]. rewrite Ep.
  rewrite for_each_publish_skip.
  2:{ apply Forall_forall. intros i Hi. apply Hothers.
      apply list_elem_of_In, in_seq in Hi. lia. }
  unfold load_control, store_at. rewrite Hh. simpl.
  rewrite lookup_insert_ne by (intros E; apply Hne; symmetry; exact E).
  rewrite Ho. reflexivity.
Qed.




End FanOutExact.

Section RegisterCases.

Import SAHM SAHM.DirectReader.

(** With every entry taken the loop runs off the end of the directory and
    has stored nothing. *)
Lemma register_full (rd : t) (h : ControlHeader) :
  (forall j, (j < MAX_READERS)%nat -> at_idx false (reader_active h) j = true) ->
  register rd h = (None, h).
Proof.
  intros Hall.
  assert (E : reg_run rd (S MAX_READERS) h = (Done None, h)).
  { rewrite reg_run_S, (reg_run_scan rd h MAX_READERS) by (try lia; exact Hall).
    reflexivity. }
  unfold register.
  change (MAX_READERS + 4)%nat with (3 + S MAX_READERS)%nat.
  rewrite (reg_run_done rd (S MAX_READERS) 3 h h None E). reflexivity.
Qed.

(** The first free entry below [n], if there is one. *)
Lemma first_free_entry (h : ControlHeader) (n : nat) :
  (exists i, (i < n)%nat
             /\ (forall j, (j < i)%nat -> at_idx false (reader_active h) j = true)
             /\ at_idx false (reader_active h) i = false)
  \/ (forall j, (j < n)%nat -> at_idx false (reader_active h) j = true).
Proof.
  induction n as [|n IH]; [right; intros j Hj; lia|].
  destruct IH as [(i & Hi & Hlow & Hfree) | Hall].
  - left. exists i. split; [lia|]. split; assumption.
  - destruct (at_idx false (reader_active h) n) eqn:En.
    + right. intros j Hj. destruct (Nat.eq_dec j n) as [-> | Hne]; [exact En|].
      apply Hall. lia.
    + left. exists n. split; [lia|]. split; assumption.
Qed.

(** [register] claims the first free entry, or finds none. *)
Lemma register_cases (rd : t) (h : ControlHeader) :
  (exists i, (i < MAX_READERS)%nat
             /\ (forall j, (j < i)%nat -> at_idx false (reader_active h) j = true)
             /\ at_idx false (reader_active h) i = false
             /\ register rd h
                = (Some i,
                   set_num_readers (wrap32 (num_readers h + 1))
                     (set_ring_size i (ring_size_ rd)
                        (set_name i (stored_name (my_shm_name_ rd))
                           (set_active i true h)))))
  \/ ((forall j, (j < MAX_READERS)%nat -> at_idx false (reader_active h) j = true)
      /\ register rd h = (None, h)).
Proof.
  destruct (first_free_entry h MAX_READERS) as [(i & Hi & Hlow & Hfree) | Hall].
  - left. exists i. split; [exact Hi|]. split; [exact Hlow|]. split; [exact Hfree|].
    apply (reg_run_claim rd h i Hi Hlow Hfree).
  - right. split; [exact Hall|]. apply register_full. exact Hall.
Qed.

End RegisterCases.

Section FanOutRegistered.

Import SAHM.

(** A successful reader [init] leaves the reader initialised, on an entry
    of the directory. *)
Lemma sahm_reader_init_initialized (rd rd1 : DirectReader.t) isys (s s2 : World) :
  DirectReader.is_initialized_ rd = false ->
  DirectReader.init rd isys s = Some (true, rd1, s2) ->
  DirectReader.is_initialized_ rd1 = true
  /\ DirectReader.max_slot_size_ rd1 = DirectReader.max_slot_size_ rd
  /\ DirectReader.my_shm_name_ rd1 = DirectReader.my_shm_name_ rd
  /\ DirectReader.header_ rd1 = DirectReader.control_fd_ rd1
  /\ DirectReader.buffer_fd_ rd1 = DirectReader.ring_header_ rd1
  /\ DirectReader.header_ rd1 = Shm.names s !! DirectReader.channel_name_ rd
  /\ DirectReader.buffer_fd_ rd1 <> None
  /\ 0 <= DirectReader.my_slot_idx_ rd1 < 16.
Proof.
  intros Hi. unfold DirectReader.init, Shm.shm_open. rewrite Hi.
  destruct (Shm.names s !! DirectReader.channel_name_ rd) as [cid|]; [|intros [=]].
  destruct (negb (DirectReader.control_mmap_ok isys)); [intros [=]|].
  destruct (load_control s (Some cid)) as [h|]; [|intros [=]].
  destruct (negb (magic h =? DIRECT_MAGIC)); [intros [=]|].
  destruct (Shm.shm_open_creat _ _ _ _) as [[bid|] s3]; [|intros [=]].
  destruct (negb _ || negb _); [intros [=]|].
  destruct (load_control _ (Some cid)) as [h3|]; [|intros [=]].
  destruct (register_cases rd h3) as [(i & Hlt & _ & _ & Er) | (_ & Er)];
    rewrite Er; [|intros [=]].
  intros [= <- <-]. cbn.
  do 4 (split; [reflexivity|]). split; [reflexivity|].
  split; [reflexivity|]. split; [discriminate|].
  unfold MAX_READERS in Hlt. lia.
Qed.

(** A writer and a reader freshly initialised on one channel are in the
    one-reader state with an empty ring. *)
Lemma fan_state_registered chan cap (N : Z) pid sys now isys (s : World) w1 s1 rd1 s2 :
  0 < N ->
  (String.length (chan +:+ "_reader_" +:+ pretty pid) <= 63)%nat ->
  DirectWriter.init (DirectWriter.new chan cap) sys now s = (true, w1, s1) ->
  DirectReader.init (DirectReader.new chan cap N pid) isys s1 = Some (true, rd1, s2) ->
  exists cid bid,
    DirectWriter.fan_state w1 s2 cid bid N 0
    /\ DirectWriter.max_slot_size_ w1 = cap
    /\ DirectReader.is_initialized_ rd1 = true
    /\ DirectReader.ring_header_ rd1 = Some bid
    /\ DirectReader.ring_size_ rd1 = N
    /\ DirectReader.header_ rd1 = Some cid
    /\ Shm.objs s2 !! bid = Some (DirectReader.init_ring (DirectReader.new chan cap N pid)).
Proof.
  intros HN Hname Hwinit Hrinit.
  destruct (sahm_init_success (DirectWriter.new chan cap) _ _ _ _ _ eq_refl Hwinit)
    as (cid & Hh & Ho & Hi & Hm & Hr & Hn & Hnext & _).
  simpl in Hm, Hn.
  set (rd := DirectReader.new chan cap N pid) in *.
  destruct (sahm_reader_init_success rd rd1 isys s1 s2 cid _ eq_refl Hn Ho
              ltac:(lia) eq_refl eq_refl eq_refl Hrinit)
    as (Hrh & Hrs & Hnm & Hring & h4 & Ho4 & Hact & Hname4 & Hsize4).
  destruct (sahm_reader_init_initialized rd rd1 isys s1 s2 eq_refl Hrinit)
    as (Hri & _ & _ & _ & _ & Hrhd & _).
  change (DirectReader.channel_name_ rd) with chan in Hrhd. rewrite Hn in Hrhd.
  rewrite Hnext in *.
  assert (Hst : DirectReader.stored_name (DirectReader.my_shm_name_ rd)
                = DirectReader.my_shm_name_ rd).
  { unfold DirectReader.stored_name. apply substring_all. exact Hname. }
  rewrite Hst in Hname4.
  exists cid, (S cid).
  split.
  { unfold DirectWriter.fan_state. split; [exact Hi|]. split; [exact Hh|].
    split; [lia|]. split.
    - exists h4. split; [exact Ho4|]. split; [exact Hact|].
      rewrite Hname4. split; [apply reader_name_nonempty|].
      split; [exact Hnm | exact Hsize4].
    - split; [left; exact Hr|]. rewrite Hring. apply (init_ring_holds rd). exact HN. }
  split; [exact Hm|]. split; [exact Hri|]. split; [exact Hrh|].
  split; [exact Hrs|]. split; [exact Hrhd | exact Hring].
Qed.

End FanOutRegistered.







(** ** Ring fan-out: a full directory *)

Lemma string_length_app (a b : string) :
  String.length (a +:+ b) = (String.length a + String.length b)%nat.
Proof. induction a as [|c a IH]; [reflexivity|]. simpl. rewrite IH. reflexivity. Qed.

Lemma reader_name_ne_channel (chan : string) (pid : N) :
  chan +:+ "_reader_" +:+ pretty pid <> chan.
Proof.
  intros E. apply (f_equal String.length) in E.
  rewrite !string_length_app in E. simpl in E. lia.
Qed.

(** X20. Ring fan-out: when all 16 entries of the directory are taken, a
    reader's [init] fails although every system call succeeds; it stores
    nothing in the directory, removes the ring region it had created, and
    leaves the reader uninitialised, so that its destructor does
    nothing. *)
Theorem reader_init_directory_full :
  forall chan cap (N : Z) pid isys (s : SAHM.World) cid h,
  Shm.names s !! chan = Some cid ->
  Shm.objs s !! cid = Some (SAHM.Control h) ->
  SAHM.magic h = SAHM.DIRECT_MAGIC ->
  SAHM.reader_active h = replicate SAHM.MAX_READERS true ->
  cid <> Shm.next_id s ->
  SAHM.DirectReader.control_mmap_ok isys = true ->
  SAHM.DirectReader.buffer_open_ok isys = true ->
  SAHM.DirectReader.buffer_ftruncate_ok isys = true ->
  SAHM.DirectReader.buffer_mmap_ok isys = true ->
  let rd := SAHM.DirectReader.new chan cap N pid in
  exists rd1 s2,
    SAHM.DirectReader.init rd isys s = Some (false, rd1, s2)
    /\ SAHM.DirectReader.is_initialized_ rd1 = false
    /\ Shm.names s2 !! SAHM.DirectReader.my_shm_name_ rd = None
    /\ Shm.names s2 !! chan = Some cid
    /\ Shm.objs s2 !! cid = Some (SAHM.Control h)
    /\ SAHM.DirectReader.destroy rd1 s2 = Some s2.
Proof.
  intros chan cap N pid isys s cid h Hn Ho Hmagic Hfull Hne Hc Hbo Hbt Hbm rd.
  assert (Hreg : SAHM.DirectReader.register rd h = (None, h)).
  { apply register_full. intros j Hj. unfold SAHM.at_idx. rewrite Hfull.
    rewrite lookup_replicate_2 by exact Hj. reflexivity. }
  unfold SAHM.DirectReader.init, Shm.shm_open.
  change (SAHM.DirectReader.is_initialized_ rd) with false.
  change (SAHM.DirectReader.channel_name_ rd) with chan.
  cbn iota. rewrite Hn, Hc. cbn [negb].
  unfold SAHM.load_control at 1. rewrite Ho, Hmagic, Z.eqb_refl. cbn [negb].
  rewrite Hbo, open_creat_after_unlink, Hbt, Hbm. cbn [negb orb].
  unfold SAHM.load_control, Shm.store. cbn [Shm.objs].
  rewrite lookup_insert_ne by (intros E; apply Hne; symmetry; exact E).
  rewrite Ho, Hreg.
  eexists _, _. split; [reflexivity|].
  split; [reflexivity|].
  unfold Shm.shm_unlink. cbn [Shm.names Shm.objs].
  split; [apply lookup_delete_eq|].
  split.
  { rewrite lookup_delete_ne by apply reader_name_ne_channel.
    rewrite lookup_insert_ne by apply reader_name_ne_channel.
    rewrite lookup_delete_ne by apply reader_name_ne_channel. exact Hn. }
  split; [apply lookup_insert_eq|].
  reflexivity.
Qed.

Lemma reader_init_directory_full_witness :
  let h := {| SAHM.magic := SAHM.DIRECT_MAGIC; SAHM.version := 2;
              SAHM.max_slot_size := 4; SAHM.num_readers := 16;
              SAHM.writer_heartbeat_ns := 100;
              SAHM.reader_shm_names := replicate 16 "/other"%string;
              SAHM.reader_active := replicate 16 true;
              SAHM.reader_ring_sizes := replicate 16 3 |} in
  let s : SAHM.World :=
    Shm.store 0%nat (SAHM.Control h)
      (Shm.Fs {[ "/chan"%string := 0%nat ]} ∅ 1%nat) in
  exists rd1 s2,
    SAHM.DirectReader.init (SAHM.DirectReader.new "/chan" 4 3 7)
      SAHM.DirectReader.init_ok s = Some (false, rd1, s2)
    /\ SAHM.DirectReader.is_initialized_ rd1 = false
    /\ Shm.names s2 !! "/chan_reader_7"%string = None.
Proof.
  intros h s.
  destruct (reader_init_directory_full "/chan"%string 4 3 7%N
              SAHM.DirectReader.init_ok s 0%nat h)
    as (rd1 & s2 & A & B & C & _).
  - vm_compute. reflexivity.
  - vm_compute. reflexivity.
  - reflexivity.
  - reflexivity.
  - vm_compute. lia.
  - reflexivity.
  - reflexivity.
  - reflexivity.
  - reflexivity.
  - exists rd1, s2. split; [exact A|]. split; [exact B | exact C].
Defined.

(** ** Ring fan-out: readers that leave *)

Section FanOutDeparture.

Import SAHM SAHM.DirectWriter.

Lemma filter_all_false {A : Type} (f : A -> bool) (l : list A) :
  (forall x, In x l -> f x = false) -> List.filter f l = [].
Proof.
  induction l as [|x l IH]; intros H; [reflexivity|].
  cbn [List.filter]. rewrite (H x (or_introl eq_refl)).
  apply IH. intros y Hy. apply H. right. exact Hy.
Qed.

(** With no active entry, discovery drops every mapping it visits and
    makes none. *)
Lemma discover_inactive (w : t) sys h s (idxs : list nat) :
  (forall i, at_idx false (reader_active h) i = false) ->
  forall rs,
  let rs' := fold_left (fun rs i => discover_entry w sys h s i rs) idxs rs in
  (forall i, i ∈ idxs -> valid (at_idx invalid_reader rs' i) = false)
  /\ (forall i, valid (at_idx invalid_reader rs i) = false ->
                valid (at_idx invalid_reader rs' i) = false).
Proof.
  intros Hact. induction idxs as [|i idxs IH]; intros rs rs'.
  - split; [intros i Hi; inversion Hi | intros i Hi; exact Hi].
  - subst rs'. cbn [fold_left].
    set (rs1 := discover_entry w sys h s i rs).
    assert (H1 : valid (at_idx invalid_reader rs1 i) = false
                 /\ forall j, valid (at_idx invalid_reader rs j) = false ->
                              valid (at_idx invalid_reader rs1 j) = false).
    { unfold rs1, discover_entry. rewrite Hact. cbn [andb negb].
      destruct (valid (at_idx invalid_reader rs i)) eqn:Ev.
      - assert (Hlt : (i < length rs)%nat).
        { apply lookup_lt_is_Some. unfold at_idx in Ev.
          destruct (rs !! i); [eauto | discriminate]. }
        split.
        + rewrite at_idx_insert_eq by exact Hlt. reflexivity.
        + intros j Hj. destruct (Nat.eq_dec i j) as [<- | Hne]; [congruence|].
          rewrite at_idx_insert_ne by exact Hne. exact Hj.
      - split; [exact Ev | intros j Hj; exact Hj]. }
    destruct H1 as [Hi1 Hkeep1]. destruct (IH rs1) as [Hin Hkeep].
    split.
    + intros j Hj. apply elem_of_cons in Hj as [-> | Hj].
      * apply Hkeep. exact Hi1.
      * apply Hin. exact Hj.
    + intros j Hj. apply Hkeep, Hkeep1. exact Hj.
Qed.

(** X21. Ring fan-out, a reader leaves. The reader's destructor clears
    its directory entry's active flag, takes one off the reader count and
    unlinks its ring's name; the entry's name and ring size stay in the
    directory and no other object is touched. A [write] that then finds no
    active entry drops every mapping the writer held, returns 0 and stores
    nothing but the heartbeat. *)
Theorem reader_departure :
  (forall rd (s : World) cid h b,
     DirectReader.is_initialized_ rd = true ->
     DirectReader.header_ rd = Some cid ->
     0 <= DirectReader.my_slot_idx_ rd ->
     DirectReader.buffer_fd_ rd = Some b ->
     Shm.objs s !! cid = Some (Control h) ->
     exists s' h',
       DirectReader.destroy rd s = Some s'
       /\ Shm.objs s' !! cid = Some (Control h')
       /\ reader_active h'
          = <[Z.to_nat (DirectReader.my_slot_idx_ rd) := false]> (reader_active h)
       /\ num_readers h' = wrap32 (num_readers h - 1)
       /\ reader_shm_names h' = reader_shm_names h
       /\ reader_ring_sizes h' = reader_ring_sizes h
       /\ Shm.names s' !! DirectReader.my_shm_name_ rd = None
       /\ (forall id, id <> cid -> Shm.objs s' !! id = Shm.objs s !! id))
  /\
  (forall w sys (s : World) cid h data size ts,
     is_initialized_ w = true -> size <= max_slot_size_ w ->
     header_ w = Some cid ->
     Shm.objs s !! cid = Some (Control h) ->
     reader_active h = replicate MAX_READERS false ->
     exists w',
       write w sys s data size ts
       = Some (0, w', Shm.store cid (Control (set_heartbeat ts h)) s)
       /\ valid_count w' = 0
       /\ (forall i, (i < MAX_READERS)%nat ->
             valid (at_idx invalid_reader (readers_ w') i) = false)).
Proof.
  split.
  - intros rd s cid h b Hi Hh Hidx Hb Ho.
    unfold DirectReader.destroy, load_control. rewrite Hi, Hh, Hb, Ho.
    destruct (Z.leb_spec 0 (DirectReader.my_slot_idx_ rd)); [|lia].
    cbn [negb]. eexists _, _. split; [reflexivity|].
    unfold store_at, Shm.store, Shm.shm_unlink. cbn [Shm.objs Shm.names].
    split; [apply lookup_insert_eq|].
    do 4 (split; [reflexivity|]).
    split; [apply lookup_delete_eq|].
    intros id Hne. apply lookup_insert_ne. congruence.
  - intros w sys s cid h data size ts Hi Hsz Hh Ho Hnone.
    assert (Hact : forall i, at_idx false (reader_active h) i = false).
    { intros i. rewrite Hnone. apply at_idx_replicate_default. }
    set (rs' := fold_left (fun rs i => discover_entry w sys h s i rs)
                  (seq 0 MAX_READERS) (readers_ w)).
    destruct (discover_inactive w sys h s (seq 0 MAX_READERS) Hact (readers_ w))
      as [Hin _]. fold rs' in Hin.
    assert (Hall : forall i, (i < MAX_READERS)%nat ->
                     valid (at_idx invalid_reader rs' i) = false).
    { intros i Hlt. apply Hin. apply list_elem_of_In, in_seq. lia. }
    exists (set_readers rs' w).
    split.
    + unfold write. rewrite Hi.
      destruct (Z.ltb_spec (max_slot_size_ w) size); [lia|]. cbn [negb orb].
      unfold discoverReaders, load_control. rewrite Hh, Ho. fold rs'.
      unfold publish_all. rewrite for_each_publish_skip.
      * cbn [header_ set_readers]. unfold load_control, store_at. rewrite Hh, Ho.
        reflexivity.
      * apply Forall_forall. intros i Hi0. apply list_elem_of_In, in_seq in Hi0.
        cbn [readers_ set_readers]. apply Hall. lia.
    + split.
      * unfold valid_count. cbn [readers_ set_readers].
        rewrite filter_all_false; [reflexivity|].
        intros i Hi0. apply in_seq in Hi0. apply Hall. lia.
      * intros i Hlt. cbn [readers_ set_readers]. apply Hall. exact Hlt.
Qed.

Lemma reader_departure_witness :
  let wres := init (new "/chan" 4) all_ok 100 Shm.empty in
  let rd0 := DirectReader.new "/chan" 4 3 7 in
  let rres := default (false, rd0, snd wres)
                (DirectReader.init rd0 DirectReader.init_ok (snd wres)) in
  let rd1 := snd (fst rres) in
  let st1 := default (0, snd (fst wres), snd rres)
               (write (snd (fst wres)) discover_ok (snd rres) [Byte.x00] 1 110) in
  let s4 := default (snd st1) (DirectReader.destroy rd1 (snd st1)) in
  let h := default (init_header (new "/chan" 4) 0) (load_control s4 (Some 0%nat)) in
  fst (fst st1) = 1
  /\ valid_count (snd (fst st1)) = 1
  /\ exists w',
       write (snd (fst st1)) discover_ok s4 [Byte.x01] 1 120
       = Some (0, w', Shm.store 0%nat (Control (set_heartbeat 120 h)) s4)
       /\ valid_count w' = 0.
Proof.
  intros wres rd0 rres rd1 st1 s4 h.
  split; [vm_compute; reflexivity|].
  split; [vm_compute; reflexivity|].
  destruct (proj2 reader_departure (snd (fst st1)) discover_ok s4 0%nat h
              [Byte.x01] 1 120) as (w' & A & B & _).
  - vm_compute. reflexivity.
  - vm_compute. congruence.
  - vm_compute. reflexivity.
  - vm_compute. reflexivity.
  - vm_compute. reflexivity.
  - exists w'. split; [exact A | exact B].
Defined.

(** X22. Ring fan-out: [discoverReaders] opens the name of a directory
    entry only when the entry is active and the writer holds no mapping
    for it. A writer that holds a mapping for an active entry therefore
    keeps publishing into the ring it mapped, whatever name the entry
    carries by now: when the entry names another ring (a reader left and
    another one took the entry between two writes), [write] still returns
    1, the frame goes to the ring mapped earlier, and the ring the entry
    names is not touched. *)
Theorem stale_mapping_after_replacement :
  forall w sys (s : World) cid bidA bidB h ri rh slots (N : Z) data size ts,
  is_initialized_ w = true -> size <= max_slot_size_ w ->
  header_ w = Some cid ->
  readers_ w = <[0%nat := ri]> (replicate MAX_READERS invalid_reader) ->
  valid ri = true -> ptr ri = Some bidA -> ring_size ri = N ->
  Shm.objs s !! cid = Some (Control h) ->
  reader_active h = true :: replicate 15 false ->
  Shm.names s !! at_idx ""%string (reader_shm_names h) 0 = Some bidB ->
  bidB <> bidA -> cid <> bidA -> cid <> bidB ->
  Shm.objs s !! bidA = Some (Ring rh slots) ->
  (Z.to_nat (write_idx rh) < length slots)%nat ->
  exists s' rh' slots',
    write w sys s data size ts = Some (1, w, s')
    /\ Shm.objs s' !! bidB = Shm.objs s !! bidB
    /\ Shm.objs s' !! bidA = Some (Ring rh' slots')
    /\ total_writes rh' = wrap64 (total_writes rh + 1)
    /\ (sequence <$> slots' !! Z.to_nat (write_idx rh))
       = Some (wrap64 (total_writes rh + 1)).
Proof.
  intros w sys s cid bidA bidB h ri rh slots N data size ts
         Hi Hsz Hh Hr Hv Hp Hrs Ho Hact Hnames HAB HcA HcB HoA Hslot.
  assert (Hs : serves_only w bidA N).
  { unfold serves_only. rewrite Hr.
    rewrite at_idx_insert_eq by (rewrite length_replicate; unfold MAX_READERS; lia).
    do 3 (split; [assumption|]).
    intros i Hi0. rewrite at_idx_insert_ne by lia.
    rewrite (at_idx_replicate_default invalid_reader). reflexivity. }
  assert (Hact' : only_entry0_active h).
  { intros i. rewrite Hact. destruct i as [|i]; [reflexivity|].
    unfold at_idx. cbn [lookup list_lookup]. 
    change (at_idx false (replicate 15 false) i = false).
    apply at_idx_replicate_default. }
  destruct (slots !! Z.to_nat (write_idx rh)) as [slot|] eqn:Eslot.
  2:{ apply lookup_ge_None in Eslot. lia. }
  assert (Ep : publish_ring (Some bidA) N (Some data) size ts s
               = Some (Shm.store bidA
                         (Ring {| rh_magic := rh_magic rh;
                                  SAHM.ring_size := SAHM.ring_size rh;
                                  slot_data_size := slot_data_size rh;
                                  slot_total_size := slot_total_size rh;
                                  write_idx := wrap32 (write_idx rh + 1) mod N;
                                  total_writes := wrap64 (total_writes rh + 1) |}
                               (<[Z.to_nat (write_idx rh) :=
                                    {| sequence := wrap64 (total_writes rh + 1);
                                       timestamp_ns := ts; data_size := size;
                                       slot_data := memcpy (slot_data slot) data size |}]>
                                  slots)) s)).
  { unfold publish_ring, load_ring. rewrite HoA, Eslot. reflexivity. }
  pose proof (publish_all_one_eq w s cid bidA h N (Some data) size ts _
                Hh HcA Ho Hs Ep) as Ea.
  eexists _, _, _. split.
  { unfold write. rewrite Hi.
    destruct (Z.ltb_spec (max_slot_size_ w) size); [lia|]. cbn [negb orb].
    unfold discoverReaders, load_control. rewrite Hh, Ho.
    rewrite discover_stable.
    2:{ intros i. rewrite Hact', (serves_only_valid w bidA N i Hs). reflexivity. }
    rewrite set_readers_id, Ea. reflexivity. }
  cbn [Shm.store Shm.objs].
  split.
  { rewrite lookup_insert_ne by exact HcB.
    rewrite lookup_insert_ne by (intros E; apply HAB; symmetry; exact E). reflexivity. }
  split.
  { rewrite lookup_insert_ne by exact HcA. rewrite lookup_insert_eq. reflexivity. }
  split; [reflexivity|].
  rewrite list_lookup_insert_eq by exact Hslot. reflexivity.
Qed.

Lemma stale_mapping_after_replacement_witness :
  let wres := init (new "/chan" 4) all_ok 100 Shm.empty in
  let rdA0 := DirectReader.new "/chan" 4 3 7 in
  let rresA := default (false, rdA0, snd wres)
                 (DirectReader.init rdA0 DirectReader.init_ok (snd wres)) in
  let st1 := default (0, snd (fst wres), snd rresA)
               (write (snd (fst wres)) discover_ok (snd rresA) [Byte.x00] 1 110) in
  let s4 := default (snd st1) (DirectReader.destroy (snd (fst rresA)) (snd st1)) in
  let rdB0 := DirectReader.new "/chan" 4 3 8 in
  let rresB := default (false, rdB0, s4)
                 (DirectReader.init rdB0 DirectReader.init_ok s4) in
  let rdB := snd (fst rresB) in
  let s5 := snd rresB in
  fst (fst rresB) = true
  /\ DirectReader.my_slot_idx_ rdB = 0
  /\ exists s6,
       write (snd (fst st1)) discover_ok s5 [Byte.x01] 1 120
       = Some (1, snd (fst st1), s6)
       /\ DirectReader.getTotalWrites rdB s6 = Some 0
       /\ DirectReader.getLatest rdB s6 0 = Some (None, 0).
Proof.
  intros wres rdA0 rresA st1 s4 rdB0 rresB rdB s5.
  split; [vm_compute; reflexivity|].
  split; [vm_compute; reflexivity|].
  set (h := default (init_header (new "/chan" 4) 0) (load_control s5 (Some 0%nat))).
  set (ringA := default (Build_RingBufferHeader 0 0 0 0 0 0, [])
                  (load_ring s5 (Some 1%nat))).
  destruct (stale_mapping_after_replacement (snd (fst st1)) discover_ok s5
              0%nat 1%nat 2%nat h
              (default invalid_reader (readers_ (snd (fst st1)) !! 0%nat))
              (fst ringA) (snd ringA) 3 [Byte.x01] 1 120)
    as (s6 & rh' & slots' & A & B & _).
  - vm_compute. reflexivity.
  - vm_compute. congruence.
  - vm_compute. reflexivity.
  - vm_compute. reflexivity.
  - vm_compute. reflexivity.
  - vm_compute. reflexivity.
  - vm_compute. reflexivity.
  - vm_compute. reflexivity.
  - vm_compute. reflexivity.
  - vm_compute. reflexivity.
  - lia.
  - lia.
  - lia.
  - vm_compute. reflexivity.
  - vm_compute. lia.
  - exists s6. split; [exact A|].
    unfold DirectReader.getTotalWrites, DirectReader.getLatest, load_ring.
    change (DirectReader.ring_header_ rdB) with (Some 2%nat).
    change (DirectReader.is_initialized_ rdB) with true.
    cbv beta iota delta [negb]. rewrite B. vm_compute. split; reflexivity.
Defined.

End FanOutDeparture.

(** ** Ring fan-out: the zero-copy path *)

Section FanOutZeroCopy.

Import SAHM SAHM.DirectWriter.




End FanOutZeroCopy.

(** ** Ring fan-out: the reader count *)

Section ReaderCount.

Import SAHM.

Lemma count_true_insert (l : list bool) (i : nat) (b : bool) :
  (i < length l)%nat ->
  Z.of_nat (length (List.filter (fun x : bool => x) (<[i := b]> l)))
  = Z.of_nat (length (List.filter (fun x : bool => x) l))
    - (if at_idx false l i then 1 else 0) + (if b then 1 else 0).
Proof.
  revert i. induction l as [|x l IH]; intros i Hi; [simpl in Hi; lia|].
  destruct i as [|i].
  - unfold at_idx. cbn [insert list_insert lookup list_lookup default from_option id
                        List.filter].
    destruct b, x; cbn [length]; lia.
  - cbn [length] in Hi. specialize (IH i ltac:(lia)).
    change (<[S i := b]> (x :: l)) with (x :: <[i := b]> l).
    change (at_idx false (x :: l) (S i)) with (at_idx false l i).
    cbn [List.filter]. destruct x; cbn [length]; lia.
Qed.

Lemma count_true_bounds (l : list bool) :
  0 <= Z.of_nat (length (List.filter (fun x : bool => x) l)) <= Z.of_nat (length l).
Proof. pose proof (filter_length_le (fun x : bool => x) l). lia. Qed.

Lemma count_consistent_iff (h : ControlHeader) :
  count_consistent h = true
  <-> length (reader_active h) = MAX_READERS /\ num_readers h = active_count h.
Proof.
  unfold count_consistent. rewrite andb_true_iff, Nat.eqb_eq, Z.eqb_eq. reflexivity.
Qed.

(** The directory after a registration, and after a reader has cleared
    its entry. *)
Lemma register_count (rd : DirectReader.t) (h : ControlHeader) r h' :
  count_consistent h = true ->
  DirectReader.register rd h = (r, h') ->
  count_consistent h' = true
  /\ match r with
     | Some i => (i < MAX_READERS)%nat
                 /\ at_idx false (reader_active h) i = false
                 /\ at_idx false (reader_active h') i = true
                 /\ num_readers h' = num_readers h + 1
     | None => h' = h /\ num_readers h = 16
     end.
Proof.
  intros Hc Hreg. apply count_consistent_iff in Hc as [Hlen Hnum].
  pose proof (count_true_bounds (reader_active h)) as Hb.
  destruct (register_cases rd h) as [(i & Hi & _ & Hfree & E) | (Hall & E)];
    rewrite E in Hreg; injection Hreg as <- <-.
  - assert (Hcnt : Z.of_nat (length (List.filter (fun x : bool => x)
                                        (<[i := true]> (reader_active h))))
                   = active_count h + 1).
    { unfold active_count. rewrite count_true_insert by lia. rewrite Hfree. lia. }
    assert (Hlt : active_count h < 16).
    { pose proof (count_true_bounds (<[i := true]> (reader_active h))) as Hb'.
      rewrite length_insert, Hlen in Hb'. unfold MAX_READERS in Hb'. lia. }
    assert (Hge : 0 <= active_count h) by (unfold active_count; lia).
    split.
    + apply count_consistent_iff. unfold active_count.
      cbn [reader_active num_readers set_num_readers set_ring_size set_name set_active].
      rewrite length_insert. split; [exact Hlen|].
      rewrite Hcnt, Hnum. apply wrap32_small. lia.
    + split; [exact Hi|]. split; [exact Hfree|].
      cbn [reader_active num_readers set_num_readers set_ring_size set_name set_active].
      split; [apply at_idx_insert_eq; lia|].
      rewrite Hnum. apply wrap32_small. lia.
  - split; [apply count_consistent_iff; split; assumption|].
    split; [reflexivity|]. rewrite Hnum. unfold active_count.
    assert (Hl : reader_active h = replicate MAX_READERS true).
    { apply list_eq. intros j. destruct (Nat.lt_ge_cases j MAX_READERS) as [Hj | Hj].
      - rewrite lookup_replicate_2 by exact Hj. specialize (Hall j Hj).
        unfold at_idx in Hall. destruct (reader_active h !! j) as [b|] eqn:Ej.
        + simpl in Hall. congruence.
        + apply lookup_ge_None in Ej. lia.
      - rewrite lookup_ge_None_2 by lia.
        symmetry. apply lookup_ge_None. rewrite length_replicate. lia. }
    rewrite Hl. reflexivity.
Qed.

(** The fan-out loop stores into ring objects only. *)
Lemma for_each_publish_control (w : DirectWriter.t) data size ts cid h (idxs : list nat) :
  forall n (s : World) n' s',
  Shm.objs s !! cid = Some (Control h) ->
  for_each (DirectWriter.publish_entry w data size ts) idxs (n, s) = Some (n', s') ->
  Shm.objs s' !! cid = Some (Control h).
Proof.
  induction idxs as [|i idxs IH]; intros n s n' s' Ho; cbn [for_each].
  - intros [= _ <-]. exact Ho.
  - unfold DirectWriter.publish_entry at 1.
    destruct (negb (DirectWriter.valid _)); [apply IH; exact Ho|].
    cbn [fst snd]. unfold publish_ring, load_ring.
    destruct (DirectWriter.ptr _) as [id|]; [|intros [=]].
    destruct (Shm.objs s !! id) as [[hc | rh slots]|] eqn:Eid;
      [intros [=] | | intros [=]].
    destruct (slots !! _) as [slot|]; [|intros [=]].
    apply IH. cbn [store_at Shm.store Shm.objs].
    rewrite lookup_insert_ne by congruence. exact Ho.
Qed.

End ReaderCount.

(** X24. Ring fan-out: the reader count in the directory is the number
    of entries whose active flag is set. The directory [init] writes has
    count 0 and no flag set; a reader's [init] keeps the two equal
    whether it succeeds (count and flags grow by one, at the entry the
    reader got) or fails (both unchanged); a reader's destructor takes one
    off both; the writer's [write] and [commitSlots] store nothing in the
    directory but the heartbeat, and [getReaderCount] returns the
    count. *)
Theorem reader_count_invariant :
  (forall w now,
     SAHM.count_consistent (SAHM.DirectWriter.init_header w now) = true
     /\ SAHM.num_readers (SAHM.DirectWriter.init_header w now) = 0)
  /\
  (forall rd isys (s : SAHM.World) cid h ok rd1 s2,
     SAHM.DirectReader.is_initialized_ rd = false ->
     Shm.names s !! SAHM.DirectReader.channel_name_ rd = Some cid ->
     Shm.objs s !! cid = Some (SAHM.Control h) ->
     cid <> Shm.next_id s ->
     SAHM.count_consistent h = true ->
     SAHM.DirectReader.init rd isys s = Some (ok, rd1, s2) ->
     exists h2,
       Shm.objs s2 !! cid = Some (SAHM.Control h2)
       /\ SAHM.count_consistent h2 = true
       /\ SAHM.num_readers h2 = SAHM.num_readers h + (if ok then 1 else 0)
       /\ (ok = true ->
           SAHM.at_idx false (SAHM.reader_active h2)
             (Z.to_nat (SAHM.DirectReader.my_slot_idx_ rd1)) = true))
  /\
  (forall rd (s : SAHM.World) cid h i,
     SAHM.DirectReader.is_initialized_ rd = true ->
     SAHM.DirectReader.header_ rd = Some cid ->
     SAHM.DirectReader.my_slot_idx_ rd = Z.of_nat i ->
     Shm.objs s !! cid = Some (SAHM.Control h) ->
     SAHM.count_consistent h = true ->
     SAHM.at_idx false (SAHM.reader_active h) i = true ->
     exists s' h',
       SAHM.DirectReader.destroy rd s = Some s'
       /\ Shm.objs s' !! cid = Some (SAHM.Control h')
       /\ SAHM.count_consistent h' = true
       /\ SAHM.num_readers h' = SAHM.num_readers h - 1)
  /\
  (forall w sys (s : SAHM.World) cid h data size ts n w' s',
     SAHM.DirectWriter.is_initialized_ w = true ->
     size <= SAHM.DirectWriter.max_slot_size_ w ->
     SAHM.DirectWriter.header_ w = Some cid ->
     Shm.objs s !! cid = Some (SAHM.Control h) ->
     (SAHM.DirectWriter.write w sys s data size ts = Some (n, w', s')
      \/ SAHM.DirectWriter.commitSlots w s size ts = Some (n, w', s')) ->
     Shm.objs s' !! cid = Some (SAHM.Control (SAHM.set_heartbeat ts h))
     /\ SAHM.DirectWriter.getReaderCount w' s' = Some (SAHM.num_readers h)).
Proof.
  split; [|split; [|split]].
  - intros w now. split; reflexivity.
  - intros rd isys s cid h ok rd1 s2 Hi Hn Ho Hne Hc.
    unfold SAHM.DirectReader.init, Shm.shm_open. rewrite Hi, Hn.
    destruct (negb (SAHM.DirectReader.control_mmap_ok isys)).
    { intros [= <- _ <-]. exists h. rewrite Z.add_0_r. repeat split; auto. discriminate. }
    unfold SAHM.load_control at 1. rewrite Ho.
    destruct (negb (SAHM.magic h =? SAHM.DIRECT_MAGIC)).
    { intros [= <- _ <-]. exists h. rewrite Z.add_0_r. repeat split; auto. discriminate. }
    destruct (SAHM.DirectReader.buffer_open_ok isys).
    2:{ unfold Shm.shm_open_creat. cbn [negb]. intros [= <- _ <-].
        exists h. rewrite Z.add_0_r. repeat split; auto. discriminate. }
    rewrite open_creat_after_unlink.
    destruct (negb _ || negb _).
    { intros [= <- _ <-]. exists h. rewrite Z.add_0_r. repeat split; auto. discriminate. }
    unfold SAHM.load_control, Shm.store. cbn [Shm.objs].
    rewrite lookup_insert_ne by (intros E; apply Hne; symmetry; exact E).
    rewrite Ho.
    destruct (SAHM.DirectReader.register rd h) as [r h4] eqn:Er.
    destruct (register_count rd h r h4 Hc Er) as [Hc4 Hr].
    destruct r as [i|].
    + destruct Hr as (Hlt & _ & Hact & Hnum).
      intros [= <- <- <-]. exists h4. cbn [Shm.objs].
      rewrite lookup_insert_eq. split; [reflexivity|]. split; [exact Hc4|].
      split; [exact Hnum|]. intros _.
      cbn [SAHM.DirectReader.my_slot_idx_ SAHM.DirectReader.set_handles].
      rewrite Nat2Z.id. exact Hact.
    + destruct Hr as [-> _].
      intros [= <- _ <-]. exists h. unfold Shm.shm_unlink. cbn [Shm.objs].
      rewrite lookup_insert_eq, Z.add_0_r. repeat split; auto. discriminate.
  - intros rd s cid h i Hi Hh Hidx Ho Hc Hact.
    apply count_consistent_iff in Hc as [Hlen Hnum].
    assert (Hlt : (i < length (SAHM.reader_active h))%nat).
    { apply lookup_lt_is_Some. unfold SAHM.at_idx in Hact.
      destruct (SAHM.reader_active h !! i); [eauto | discriminate]. }
    assert (Hcnt : Z.of_nat (length (List.filter (fun x : bool => x)
                                        (<[i := false]> (SAHM.reader_active h))))
                   = SAHM.active_count h - 1).
    { unfold SAHM.active_count. rewrite count_true_insert by exact Hlt.
      rewrite Hact. lia. }
    pose proof (count_true_bounds (<[i := false]> (SAHM.reader_active h))) as Hb.
    pose proof (count_true_bounds (SAHM.reader_active h)) as Hb0.
    rewrite Hlen in Hb0. unfold SAHM.MAX_READERS in Hb0.
    fold (SAHM.active_count h) in Hb0.
    unfold SAHM.DirectReader.destroy, SAHM.load_control. rewrite Hi, Hh, Hidx, Ho.
    destruct (Z.leb_spec 0 (Z.of_nat i)); [|lia]. cbn [negb].
    rewrite Nat2Z.id.
    assert (Hw : wrap32 (SAHM.num_readers h - 1) = SAHM.num_readers h - 1)
      by (apply wrap32_small; lia).
    eexists _, _. split; [reflexivity|].
    split.
    { destruct (SAHM.DirectReader.buffer_fd_ rd);
        unfold SAHM.store_at, Shm.store, Shm.shm_unlink; cbn [Shm.objs];
        apply lookup_insert_eq. }
    split.
    { apply count_consistent_iff. unfold SAHM.active_count.
      cbn [SAHM.reader_active SAHM.num_readers SAHM.set_num_readers SAHM.set_active].
      rewrite length_insert. split; [exact Hlen|]. rewrite Hcnt, Hw. lia. }
    cbn [SAHM.num_readers SAHM.set_num_readers]. exact Hw.
  - intros w sys s cid h data size ts n w' s' Hi Hsz Hh Ho Hrun.
    assert (Hpub : forall w1 d, SAHM.DirectWriter.header_ w1 = Some cid ->
              SAHM.DirectWriter.publish_all w1 d size ts s = Some (n, s') ->
              Shm.objs s' !! cid = Some (SAHM.Control (SAHM.set_heartbeat ts h))).
    { intros w1 d Hh1. unfold SAHM.DirectWriter.publish_all.
      destruct (SAHM.for_each _ _ _) as [[n1 sm]|] eqn:Ef; [|intros [=]].
      pose proof (for_each_publish_control w1 d size ts cid h _ _ _ _ _ Ho Ef) as Hom.
      unfold SAHM.load_control, SAHM.store_at. rewrite Hh1, Hom.
      intros [= _ <-]. cbn [Shm.store Shm.objs]. apply lookup_insert_eq. }
    assert (Hlt : (SAHM.DirectWriter.max_slot_size_ w <? size) = false)
      by (apply Z.ltb_ge; lia).
    destruct Hrun as [Hrun | Hrun].
    + unfold SAHM.DirectWriter.write in Hrun. rewrite Hi, Hlt in Hrun.
      cbn [negb orb] in Hrun.
      unfold SAHM.DirectWriter.discoverReaders, SAHM.load_control in Hrun.
      rewrite Hh, Ho in Hrun.
      destruct (SAHM.DirectWriter.publish_all _ _ _ _ _) as [[n1 sm]|] eqn:Ep;
        [|discriminate].
      injection Hrun as -> <- ->.
      pose proof Ep as Hs'. eapply Hpub in Hs'; [|exact Hh].
      split; [exact Hs'|].
      unfold SAHM.DirectWriter.getReaderCount, SAHM.load_control.
      cbn [SAHM.DirectWriter.header_ SAHM.DirectWriter.set_readers].
      rewrite Hh, Hs'. reflexivity.
    + unfold SAHM.DirectWriter.commitSlots in Hrun. rewrite Hi, Hlt in Hrun.
      cbn [negb orb] in Hrun.
      destruct (SAHM.DirectWriter.publish_all _ _ _ _ _) as [[n1 sm]|] eqn:Ep;
        [|discriminate].
      injection Hrun as -> <- ->.
      pose proof Ep as Hs'. eapply Hpub in Hs'; [|exact Hh].
      split; [exact Hs'|].
      unfold SAHM.DirectWriter.getReaderCount, SAHM.load_control.
      rewrite Hh, Hs'. reflexivity.
Qed.

Lemma reader_count_invariant_witness :
  let w0 := SAHM.DirectWriter.new "/chan" 4 in
  let wres := SAHM.DirectWriter.init w0 all_ok 100 Shm.empty in
  let rd0 := SAHM.DirectReader.new "/chan" 4 3 7 in
  let rres := default (false, rd0, snd wres)
                (SAHM.DirectReader.init rd0 SAHM.DirectReader.init_ok (snd wres)) in
  exists h2,
    Shm.objs (snd rres) !! 0%nat = Some (SAHM.Control h2)
    /\ SAHM.count_consistent h2 = true
    /\ SAHM.num_readers h2 = 1.
Proof.
  intros w0 wres rd0 rres.
  destruct (proj1 (proj2 reader_count_invariant) rd0 SAHM.DirectReader.init_ok
              (snd wres) 0%nat (SAHM.DirectWriter.init_header w0 100)
              true (snd (fst rres)) (snd rres))
    as (h2 & A & B & C & _).
  - reflexivity.
  - vm_compute. reflexivity.
  - vm_compute. reflexivity.
  - vm_compute. lia.
  - reflexivity.
  - vm_compute. reflexivity.
  - exists h2. split; [exact A|]. split; [exact B | exact C].
Defined.

(** ** Ring fan-out: names of the readers' rings *)

Lemma substring_length (s : string) :
  forall n, String.length (String.substring 0 n s) = Nat.min n (String.length s).
Proof.
  induction s as [|c s IH]; intros n.
  - destruct n; reflexivity.
  - destruct n as [|n]; [reflexivity|]. simpl. rewrite IH. reflexivity.
Qed.

Lemma substring_app_prefix (a b : string) :
  forall n, (n <= String.length a)%nat ->
  String.substring 0 n (a +:+ b) = String.substring 0 n a.
Proof.
  induction a as [|c a IH]; intros n Hn.
  - simpl in Hn. assert (n = 0%nat) as -> by lia. destruct b; reflexivity.
  - destruct n as [|n]; [reflexivity|]. simpl in Hn. simpl.
    rewrite IH by lia. reflexivity.
Qed.

(** X25. A reader's ring is named after the channel and the process id,
    so readers in different processes get different names, none equal to
    the channel's. The directory keeps the first 63 characters of the
    name: a name of at most 63 characters is stored as it is, a longer
    one is stored cut to 63 characters and is then not the name of the
    reader's ring; and on a channel whose own name has 63 characters or
    more, all readers leave the same entry name in the directory. *)
Theorem reader_ring_names :
  (forall chan cap1 n1 pid1 cap2 n2 pid2,
     pid1 <> pid2 ->
     SAHM.DirectReader.my_shm_name_ (SAHM.DirectReader.new chan cap1 n1 pid1)
     <> SAHM.DirectReader.my_shm_name_ (SAHM.DirectReader.new chan cap2 n2 pid2))
  /\
  (forall chan cap n pid,
     SAHM.DirectReader.my_shm_name_ (SAHM.DirectReader.new chan cap n pid) <> chan
     /\ (String.length chan + 8 <=
         String.length (SAHM.DirectReader.my_shm_name_
                          (SAHM.DirectReader.new chan cap n pid)))%nat)
  /\
  (forall name,
     String.length (SAHM.DirectReader.stored_name name)
     = Nat.min 63 (String.length name)
     /\ (SAHM.DirectReader.stored_name name = name <-> (String.length name <= 63)%nat))
  /\
  (forall chan cap1 n1 pid1 cap2 n2 pid2,
     (63 <= String.length chan)%nat ->
     SAHM.DirectReader.stored_name
       (SAHM.DirectReader.my_shm_name_ (SAHM.DirectReader.new chan cap1 n1 pid1))
     = SAHM.DirectReader.stored_name
         (SAHM.DirectReader.my_shm_name_ (SAHM.DirectReader.new chan cap2 n2 pid2))).
Proof.
  split; [|split; [|split]].
  - intros chan cap1 n1 pid1 cap2 n2 pid2 Hne E.
    cbn [SAHM.DirectReader.my_shm_name_ SAHM.DirectReader.new] in E.
    apply (inj (String.app chan)) in E.
    apply (inj (String.app "_reader_")) in E.
    apply (inj pretty) in E. contradiction.
  - intros chan cap n pid.
    cbn [SAHM.DirectReader.my_shm_name_ SAHM.DirectReader.new].
    split; [apply reader_name_ne_channel|].
    rewrite !string_length_app. simpl. lia.
  - intros name. unfold SAHM.DirectReader.stored_name.
    change (SAHM.SHM_NAME_LEN - 1)%nat with 63%nat.
    split; [apply substring_length|].
    split.
    + intros E. apply (f_equal String.length) in E.
      rewrite substring_length in E. lia.
    + apply substring_all.
  - intros chan cap1 n1 pid1 cap2 n2 pid2 Hlen.
    unfold SAHM.DirectReader.stored_name.
    cbn [SAHM.DirectReader.my_shm_name_ SAHM.DirectReader.new].
    change (SAHM.SHM_NAME_LEN - 1)%nat with 63%nat.
    rewrite !substring_app_prefix by exact Hlen. reflexivity.
Qed.

Lemma reader_ring_names_witness :
  SAHM.DirectReader.my_shm_name_ (SAHM.DirectReader.new "/chan" 4 3 7)
  <> SAHM.DirectReader.my_shm_name_ (SAHM.DirectReader.new "/chan" 4 3 8)
  /\ SAHM.DirectReader.stored_name "/chan_reader_7" = "/chan_reader_7"%string.
Proof.
  split.
  - apply (proj1 reader_ring_names). lia.
  - apply (proj1 (proj2 (proj2 reader_ring_names))). simpl. lia.
Defined.

(** ** Reading with a deadline *)

(** A [read] that finds no frame newer than the reader's last one. *)
Lemma casir_read_idle (rd : CASIR.Reader.t) (r : CASIR.Region) data size :
  CASIR.front_frame r = CASIR.Reader.last_frame_ rd ->
  CASIR.Reader.read rd r data size = (false, rd, data, size).
Proof.
  intros E. unfold CASIR.Reader.read.
  destruct (negb (CASIR.Reader.is_initialized_ rd)); [reflexivity|].
  fold (CASIR.front_frame r). rewrite E, Z.eqb_refl. reflexivity.
Qed.

(** X26. [readWithTimeout] of the cache-tuned reader polls [read] and
    looks at the clock only after a failed attempt. While the writer
    publishes nothing new it returns false at the first clock reading at
    or past the timeout, having changed neither the reader nor the
    caller's buffer and size; with timeout 0 it makes exactly one attempt.
    A frame that becomes available is returned by the next attempt
    whatever the clock says, also when the previous clock readings were
    just short of the timeout; nothing is returned before. *)
Theorem read_with_timeout :
  (forall pre r e rest rd data size timeout_ms,
     Forall (fun o => CASIR.front_frame (fst o) = CASIR.Reader.last_frame_ rd
                      /\ snd o < timeout_ms) pre ->
     CASIR.front_frame r = CASIR.Reader.last_frame_ rd ->
     timeout_ms <= e ->
     CASIR.Reader.readWithTimeout (pre ++ (r, e) :: rest) rd data size timeout_ms
     = Some (false, rd, data, size))
  /\
  (forall pre r e rest rd data size timeout_ms,
     Forall (fun o => CASIR.front_frame (fst o) = CASIR.Reader.last_frame_ rd
                      /\ snd o < timeout_ms) pre ->
     fst (fst (fst (CASIR.Reader.read rd r data size))) = true ->
     CASIR.Reader.readWithTimeout (pre ++ (r, e) :: rest) rd data size timeout_ms
     = Some (CASIR.Reader.read rd r data size))
  /\
  (forall r e rest rd data size,
     0 <= e ->
     CASIR.Reader.readWithTimeout ((r, e) :: rest) rd data size 0
     = Some (CASIR.Reader.read rd r data size))
  /\
  (forall obs rd data size timeout_ms,
     Forall (fun o => CASIR.front_frame (fst o) = CASIR.Reader.last_frame_ rd
                      /\ snd o < timeout_ms) obs ->
     CASIR.Reader.readWithTimeout obs rd data size timeout_ms = None).
Proof.
  assert (Hidle : forall pre tail rd data size timeout_ms,
            Forall (fun o => CASIR.front_frame (fst o) = CASIR.Reader.last_frame_ rd
                             /\ snd o < timeout_ms) pre ->
            CASIR.Reader.readWithTimeout (pre ++ tail) rd data size timeout_ms
            = CASIR.Reader.readWithTimeout tail rd data size timeout_ms).
  { induction pre as [|[r0 e0] pre IH]; intros tail rd data size t Hall; [reflexivity|].
    apply Forall_cons in Hall as [[Hf He] Hpre]. cbn [fst snd] in Hf, He.
    cbn [app CASIR.Reader.readWithTimeout].
    rewrite (casir_read_idle rd r0 data size Hf).
    destruct (Z.leb_spec t e0); [lia|]. apply IH. exact Hpre. }
  split; [|split; [|split]].
  - intros pre r e rest rd data size t Hpre Hf He.
    rewrite Hidle by exact Hpre. cbn [CASIR.Reader.readWithTimeout].
    rewrite (casir_read_idle rd r data size Hf).
    destruct (Z.leb_spec t e); [reflexivity | lia].
  - intros pre r e rest rd data size t Hpre Hok.
    rewrite Hidle by exact Hpre. cbn [CASIR.Reader.readWithTimeout].
    destruct (CASIR.Reader.read rd r data size) as [[[ok rd1] d1] s1].
    cbn [fst] in Hok. rewrite Hok. reflexivity.
  - intros r e rest rd data size He. cbn [CASIR.Reader.readWithTimeout].
    destruct (CASIR.Reader.read rd r data size) as [[[ok rd1] d1] s1].
    destruct ok; [reflexivity|].
    destruct (Z.leb_spec 0 e); [reflexivity | lia].
  - intros obs rd data size t Hall.
    rewrite <- (app_nil_r obs). rewrite Hidle by exact Hall. reflexivity.
Qed.

Lemma read_with_timeout_witness :
  let w0 := CASIR.Writer.new "/sensor" 8 SIM.portable default_cache in
  let res := CASIR.Writer.init w0 all_ok no_huge_pages Shm.empty in
  let r0 := CASIR.Writer.init_region w0 false 64 in
  let r1 := snd (CASIR.Writer.write (snd (fst res)) r0 [Byte.x0a] 1 110) in
  let rd := snd (CASIR.Reader.init
                   (CASIR.Reader.new "/sensor" 8 SIM.portable default_cache)
                   all_ok (snd res)) in
  let buf := [Byte.xff; Byte.xff] in
  CASIR.Reader.readWithTimeout [(r0, 3); (r0, 7); (r0, 10)] rd buf 0 10
    = Some (false, rd, buf, 0)
  /\ CASIR.Reader.readWithTimeout [(r0, 3); (r0, 9); (r1, 12)] rd buf 0 10
     = Some (CASIR.Reader.read rd r1 buf 0)
  /\ fst (fst (fst (CASIR.Reader.read rd r1 buf 0))) = true.
Proof.
  intros w0 res r0 r1 rd buf.
  assert (Hpre : forall e1 e2, e1 < 10 -> e2 < 10 ->
            Forall (fun o => CASIR.front_frame (fst o) = CASIR.Reader.last_frame_ rd
                             /\ snd o < 10) [(r0, e1); (r0, e2)]).
  { intros e1 e2 H1 H2.
    repeat constructor; first [vm_compute; reflexivity | assumption]. }
  split.
  - apply (proj1 read_with_timeout [(r0, 3); (r0, 7)] r0 10 [] rd buf 0 10).
    + apply Hpre; lia.
    + vm_compute. reflexivity.
    + lia.
  - split; [|vm_compute; reflexivity].
    apply (proj1 (proj2 read_with_timeout) [(r0, 3); (r0, 9)] r1 12 [] rd buf 0 10).
    + apply Hpre; lia.
    + vm_compute. reflexivity.
Defined.

(** ** Statistics of the cache-tuned tier *)

Lemma wrap64_add_l (a b : Z) : wrap64 (wrap64 a + b) = wrap64 (a + b).
Proof. unfold wrap64. apply Z.add_mod_idemp_l. lia. Qed.

(** The state a run ends in. *)
Lemma casir_run_last (ops : list CASIR.Writer.publish_op) :
  forall st st0,
  List.last (CASIR.Writer.run ops st) st0
  = fold_left (fun st op => (snd (fst (CASIR.Writer.publish op st)),
                             snd (CASIR.Writer.publish op st)))
              ops (match ops with [] => st0 | _ => st end).
Proof.
  induction ops as [|op ops IH]; intros st st0; [reflexivity|].
  cbn [CASIR.Writer.run fold_left].
  destruct (CASIR.Writer.publish op st) as [[ok w'] r'] eqn:E. cbn [fst snd].
  rewrite last_cons_default, IH. destruct ops; reflexivity.
Qed.

(** One publish of an initialised writer, with a size within capacity. *)
Lemma casir_publish_counts (op : CASIR.Writer.publish_op) w r :
  CASIR.Writer.is_initialized_ w = true ->
  CASIR.Writer.op_size op <= CASIR.Writer.max_size_ w ->
  exists w' r',
    CASIR.Writer.publish op (w, r) = (true, w', r')
    /\ CASIR.Writer.is_initialized_ w' = true
    /\ CASIR.Writer.max_size_ w' = CASIR.Writer.max_size_ w
    /\ CASIR.Writer.frame_count_ w' = wrap64 (CASIR.Writer.frame_count_ w + 1)
    /\ CASIR.total_writes (CASIR.hdr r')
       = (if CASIR.Writer.counted op
          then wrap64 (CASIR.total_writes (CASIR.hdr r) + 1)
          else CASIR.total_writes (CASIR.hdr r))
    /\ CASIR.total_bytes (CASIR.hdr r')
       = (if CASIR.Writer.counted op
          then wrap64 (CASIR.total_bytes (CASIR.hdr r) + CASIR.Writer.op_size op)
          else CASIR.total_bytes (CASIR.hdr r)).
Proof.
  intros Hi Hsz.
  destruct op as [data size now | fill size now | size now];
    cbn [CASIR.Writer.publish CASIR.Writer.op_size CASIR.Writer.counted fst snd] in *;
    unfold CASIR.Writer.write, CASIR.Writer.writeZeroCopy, CASIR.Writer.commitWrite;
    rewrite Hi; (destruct (Z.ltb_spec (CASIR.Writer.max_size_ w) size); [lia|]);
    cbn [negb orb]; eexists _, _; (split; [reflexivity|]);
    unfold CASIR.Writer.store_meta, CASIR.update_buffer;
    destruct (wrap32 (1 - CASIR.front_idx (CASIR.hdr r)) =? 0);
    try destruct (wrap32 (1 - CASIR.front_idx (CASIR.hdr r)) =? 1);
    repeat split; try reflexivity; exact Hi.
Qed.

(** X27. Statistics of the cache-tuned tier. After any run of publishes
    by an initialised writer on a region whose counters start at 0,
    [getStats] reports as total writes the number of [writeZeroCopy] and
    [commitWrite] calls only, and as bytes transferred the sum of their
    sizes, while the frame counter has advanced by the number of all
    publishes, [write] included; the writer's total reads are always 0.
    On the reader side, total reads is the number of the last frame read,
    not the number of frames read, and total writes and bytes are the
    writer's counters. *)
Theorem stats_counters :
  (forall ops w r,
     CASIR.Writer.is_initialized_ w = true ->
     Forall (fun op => CASIR.Writer.op_size op <= CASIR.Writer.max_size_ w) ops ->
     CASIR.total_writes (CASIR.hdr r) = 0 -> CASIR.total_bytes (CASIR.hdr r) = 0 ->
     0 <= CASIR.Writer.frame_count_ w < 2 ^ 64 ->
     let st := List.last (CASIR.Writer.run ops (w, r)) (w, r) in
     let commits := List.filter CASIR.Writer.counted ops in
     SIM.total_writes (CASIR.Writer.getStats (fst st) (snd st))
     = wrap64 (Z.of_nat (length commits))
     /\ SIM.bytes_transferred (CASIR.Writer.getStats (fst st) (snd st))
        = wrap64 (fold_right Z.add 0 (map CASIR.Writer.op_size commits))
     /\ SIM.total_reads (CASIR.Writer.getStats (fst st) (snd st)) = 0
     /\ CASIR.Writer.frame_count_ (fst st)
        = wrap64 (CASIR.Writer.frame_count_ w + Z.of_nat (length ops)))
  /\
  (forall rd r data size rd' data' size',
     CASIR.Reader.read rd r data size = (true, rd', data', size') ->
     SIM.total_reads (CASIR.Reader.getStats rd' r) = CASIR.front_frame r
     /\ SIM.total_writes (CASIR.Reader.getStats rd' r) = CASIR.total_writes (CASIR.hdr r)
     /\ SIM.bytes_transferred (CASIR.Reader.getStats rd' r)
        = CASIR.total_bytes (CASIR.hdr r)).
Proof.
  split.
  - intros ops w r Hi Hall Htw Htb Hfc st commits.
    assert (Hgen : forall ops w r a b c,
              CASIR.Writer.is_initialized_ w = true ->
              Forall (fun op => CASIR.Writer.op_size op <= CASIR.Writer.max_size_ w) ops ->
              CASIR.total_writes (CASIR.hdr r) = wrap64 a ->
              CASIR.total_bytes (CASIR.hdr r) = wrap64 b ->
              CASIR.Writer.frame_count_ w = wrap64 c ->
              let st := fold_left
                          (fun st op => (snd (fst (CASIR.Writer.publish op st)),
                                         snd (CASIR.Writer.publish op st))) ops (w, r) in
              let commits := List.filter CASIR.Writer.counted ops in
              CASIR.Writer.is_initialized_ (fst st) = true
              /\ CASIR.total_writes (CASIR.hdr (snd st))
                 = wrap64 (a + Z.of_nat (length commits))
              /\ CASIR.total_bytes (CASIR.hdr (snd st))
                 = wrap64 (b + fold_right Z.add 0 (map CASIR.Writer.op_size commits))
              /\ CASIR.Writer.frame_count_ (fst st) = wrap64 (c + Z.of_nat (length ops))).
    { clear. induction ops as [|op ops IH]; intros w r a b c Hi Hall Htw Htb Hfc.
      - cbn. rewrite !Z.add_0_r. repeat split; assumption.
      - apply Forall_cons in Hall as [Hop Hops].
        destruct (casir_publish_counts op w r Hi Hop)
          as (w' & r' & E & Hi' & Hmax' & Hfc' & Htw' & Htb').
        cbn [fold_left]. rewrite E. cbn [fst snd].
        rewrite <- Hmax' in Hops.
        cbn [List.filter]. destruct (CASIR.Writer.counted op).
        + rewrite Htw, wrap64_add_l in Htw'. rewrite Htb, wrap64_add_l in Htb'.
          rewrite Hfc, wrap64_add_l in Hfc'.
          destruct (IH w' r' _ _ _ Hi' Hops Htw' Htb' Hfc') as (A & B & C & D).
          split; [exact A|]. cbn [length map fold_right].
          split; [rewrite B; f_equal; lia|].
          split; [rewrite C; f_equal; lia|].
          rewrite D. f_equal. lia.
        + rewrite Htw in Htw'. rewrite Htb in Htb'.
          rewrite Hfc, wrap64_add_l in Hfc'.
          destruct (IH w' r' _ _ _ Hi' Hops Htw' Htb' Hfc') as (A & B & C & D).
          split; [exact A|]. split; [exact B|]. split; [exact C|].
          cbn [length]. rewrite D. f_equal. lia. }
    subst st. rewrite casir_run_last.
    replace (match ops with [] => (w, r) | _ :: _ => (w, r) end) with (w, r)
      by (destruct ops; reflexivity).
    destruct (Hgen ops w r 0 0 (CASIR.Writer.frame_count_ w) Hi Hall)
      as (A & B & C & D).
    + rewrite Htw. reflexivity.
    + rewrite Htb. reflexivity.
    + symmetry. apply wrap64_small. exact Hfc.
    + unfold CASIR.Writer.getStats. rewrite A. cbn [SIM.total_writes
        SIM.bytes_transferred SIM.total_reads].
      rewrite !Z.add_0_l in *. repeat split; assumption.
  - intros rd r data size rd' data' size'. unfold CASIR.Reader.read.
    destruct (negb (CASIR.Reader.is_initialized_ rd)) eqn:Hi; [intros [=]|].
    fold (CASIR.front_frame r).
    destruct (_ =? CASIR.Reader.last_frame_ rd); [intros [=]|].
    cbn zeta.
    destruct (CASIR.Reader.max_size_ rd <? _); [intros [=]|].
    intros [= <- _ _]. unfold CASIR.Reader.getStats.
    cbn [CASIR.Reader.set_cursor CASIR.Reader.is_initialized_ CASIR.Reader.last_frame_
         SIM.total_writes SIM.bytes_transferred SIM.total_reads].
    apply negb_false_iff in Hi. rewrite Hi. repeat split; reflexivity.
Qed.

Lemma stats_counters_witness :
  let w0 := CASIR.Writer.new "/sensor" 8 SIM.portable default_cache in
  let res := CASIR.Writer.init w0 all_ok no_huge_pages Shm.empty in
  let r0 := CASIR.Writer.init_region w0 false 64 in
  let ops := [CASIR.Writer.OpWrite [Byte.x01] 1 110;
              CASIR.Writer.OpCommitWrite 3 120;
              CASIR.Writer.OpWrite [Byte.x02; Byte.x03] 2 130;
              CASIR.Writer.OpCommitWrite 5 140] in
  let st := List.last (CASIR.Writer.run ops (snd (fst res), r0)) (snd (fst res), r0) in
  SIM.total_writes (CASIR.Writer.getStats (fst st) (snd st)) = 2
  /\ SIM.bytes_transferred (CASIR.Writer.getStats (fst st) (snd st)) = 8
  /\ CASIR.Writer.frame_count_ (fst st) = 4.
Proof.
  intros w0 res r0 ops st.
  destruct (proj1 stats_counters ops (snd (fst res)) r0) as (A & B & _ & D).
  - vm_compute. reflexivity.
  - repeat constructor; vm_compute; congruence.
  - reflexivity.
  - reflexivity.
  - vm_compute. split; congruence.
  - fold st in A, B, D. rewrite A, B, D. vm_compute. repeat split; reflexivity.
Defined.

(** ** Filling the back buffer in place *)

(** X28. Zero-copy publishing of the double-buffer writers.
    [getWriteBuffer] hands out the buffer that is not the front one; a
    commit with a size within capacity makes exactly that buffer the
    front without touching a payload byte, records the size for it, and
    the next [getWriteBuffer] hands out the other buffer. Filling the
    buffer handed out and then committing gives the writer and region
    that [writeZeroCopy] gives in one call, and that [write] gives apart
    from the two statistics counters, which only the commit path
    advances. *)
Theorem write_buffer_protocol :
  (forall w r b size now,
     (BARQ.front_idx (BARQ.hdr r) = 0 \/ BARQ.front_idx (BARQ.hdr r) = 1) ->
     BARQ.Writer.getWriteBuffer w r = Some b ->
     0 <= size <= BARQ.Writer.max_size_ w ->
     b = 1 - BARQ.front_idx (BARQ.hdr r)
     /\ exists w' r',
          BARQ.Writer.commit w r size now = (true, w', r')
          /\ BARQ.front_idx (BARQ.hdr r') = b
          /\ BARQ.buffer0 r' = BARQ.buffer0 r /\ BARQ.buffer1 r' = BARQ.buffer1 r
          /\ BARQ.slot_len b r' = size
          /\ BARQ.Writer.getWriteBuffer w' r' = Some (BARQ.front_idx (BARQ.hdr r))
          /\ forall data w1 r1,
               BARQ.Writer.write w r data size now = (true, w1, r1) ->
               BARQ.Writer.commit w (BARQ.copy_payload b data size r) size now
               = (true, w1, BARQ.with_hdr (BARQ.fetch_add_totals size (BARQ.hdr r1)) r1))
  /\
  (forall w r b size now,
     (CASIR.front_idx (CASIR.hdr r) = 0 \/ CASIR.front_idx (CASIR.hdr r) = 1) ->
     CASIR.Writer.getWriteBuffer w r = Some b ->
     0 <= size <= CASIR.Writer.max_size_ w ->
     b = 1 - CASIR.front_idx (CASIR.hdr r)
     /\ exists w' r',
          CASIR.Writer.commitWrite w r size now = (true, w', r')
          /\ CASIR.front_idx (CASIR.hdr r') = b
          /\ CASIR.buffer0 r' = CASIR.buffer0 r /\ CASIR.buffer1 r' = CASIR.buffer1 r
          /\ CASIR.published_length (CASIR.hdr r') = size
          /\ CASIR.Writer.getWriteBuffer w' r' = Some (CASIR.front_idx (CASIR.hdr r))
          /\ (forall fill,
                CASIR.Writer.writeZeroCopy w r fill size now
                = CASIR.Writer.commitWrite w (CASIR.update_buffer b fill r) size now)
          /\ forall data w1 r1,
               CASIR.Writer.write w r data size now = (true, w1, r1) ->
               CASIR.Writer.commitWrite w
                 (CASIR.update_buffer b (fun dst => memcpy dst data size) r) size now
               = (true, w1,
                  CASIR.with_hdr (CASIR.fetch_add_totals size (CASIR.hdr r1)) r1)).
Proof.
  split.
  - intros w r b size now Hf. unfold BARQ.Writer.getWriteBuffer.
    destruct (BARQ.Writer.initialized_ w) eqn:Hi; cbn [negb]; [|intros [=]].
    pose proof (back_of_front _ Hf) as [Hb _]. rewrite Hb.
    intros [= <-] Hsz. split; [reflexivity|].
    assert (Hlt : (BARQ.Writer.max_size_ w <? size) = false) by (apply Z.ltb_ge; lia).
    unfold BARQ.Writer.commit, BARQ.Writer.write. rewrite Hi, Hlt, Hb. cbn [negb orb].
    eexists _, _. split; [reflexivity|].
    destruct Hf as [E | E]; rewrite E;
      change (1 - 0) with 1; change (1 - 1) with 0;
      unfold BARQ.copy_payload, BARQ.slot_len; cbn; rewrite ?Hi, ?E; cbn;
      repeat split; try reflexivity; intros data w1 r1 [= <- <-]; reflexivity.
  - intros w r b size now Hf. unfold CASIR.Writer.getWriteBuffer.
    destruct (CASIR.Writer.is_initialized_ w) eqn:Hi; cbn [negb]; [|intros [=]].
    pose proof (back_of_front _ Hf) as [Hb _]. rewrite Hb.
    intros [= <-] Hsz. split; [reflexivity|].
    assert (Hlt : (CASIR.Writer.max_size_ w <? size) = false) by (apply Z.ltb_ge; lia).
    unfold CASIR.Writer.commitWrite, CASIR.Writer.write, CASIR.Writer.writeZeroCopy.
    rewrite Hi, Hlt, Hb. cbn [negb orb].
    eexists _, _. split; [reflexivity|].
    destruct Hf as [E | E]; rewrite E;
      change (1 - 0) with 1; change (1 - 1) with 0;
      unfold CASIR.update_buffer, CASIR.Writer.store_meta; cbn; rewrite ?Hi, ?E; cbn;
      repeat split; try reflexivity; intros data w1 r1 [= <- <-]; reflexivity.
Qed.

Lemma write_buffer_protocol_witness :
  let w0 := BARQ.Writer.new "/sensor" 8 false in
  let res := BARQ.Writer.init w0 all_ok 100 Shm.empty in
  let r0 := BARQ.Writer.init_region w0 false 64 100 in
  BARQ.Writer.getWriteBuffer (snd (fst res)) r0 = Some 1
  /\ exists w' r',
       BARQ.Writer.commit (snd (fst res)) r0 5 110 = (true, w', r')
       /\ BARQ.front_idx (BARQ.hdr r') = 1
       /\ BARQ.Writer.getWriteBuffer w' r' = Some 0.
Proof.
  intros w0 res r0.
  assert (G : BARQ.Writer.getWriteBuffer (snd (fst res)) r0 = Some 1)
    by (vm_compute; reflexivity).
  split; [exact G|].
  destruct (proj1 write_buffer_protocol (snd (fst res)) r0 1 5 110)
    as (_ & w' & r' & A & B & _ & _ & _ & C & _).
  - left. reflexivity.
  - exact G.
  - vm_compute. split; congruence.
  - exists w', r'. split; [exact A|]. split; [exact B | exact C].
Defined.

(** ** Ring fan-out: a writer that starts again *)

Section WriterRestart.

Import SAHM.

(** A successful reader [init] creates one object. *)
Lemma sahm_reader_init_next_id (rd rd1 : DirectReader.t) isys (s s2 : World) :
  DirectReader.is_initialized_ rd = false ->
  DirectReader.init rd isys s = Some (true, rd1, s2) ->
  Shm.next_id s2 = S (Shm.next_id s).
Proof.
  intros Hi. unfold DirectReader.init, Shm.shm_open. rewrite Hi.
  destruct (Shm.names s !! DirectReader.channel_name_ rd) as [cid|]; [|intros [=]].
  destruct (negb (DirectReader.control_mmap_ok isys)); [intros [=]|].
  destruct (load_control s (Some cid)) as [h|]; [|intros [=]].
  destruct (negb (magic h =? DIRECT_MAGIC)); [intros [=]|].
  destruct (DirectReader.buffer_open_ok isys);
    [|unfold Shm.shm_open_creat; cbn [negb]; intros [=]].
  rewrite open_creat_after_unlink.
  destruct (negb _ || negb _); [intros [=]|].
  destruct (load_control _ (Some cid)) as [h3|]; [|intros [=]].
  destruct (DirectReader.register rd h3) as [[i|] h4]; [|intros [=]].
  intros [= _ <-]. reflexivity.
Qed.

(** The handles a successful writer [init] leaves. *)
Lemma sahm_init_handles (w w1 : DirectWriter.t) sys now (s s1 : World) :
  DirectWriter.is_initialized_ w = false ->
  DirectWriter.init w sys now s = (true, w1, s1) ->
  DirectWriter.control_fd_ w1 = DirectWriter.header_ w1
  /\ DirectWriter.channel_name_ w1 = DirectWriter.channel_name_ w.
Proof.
  intros Hi. unfold DirectWriter.init. rewrite Hi.
  destruct (Shm.shm_open_creat _ _ _ _) as [[id|] s2]; [|intros [=]].
  destruct (negb (ftruncate_ok sys)); [intros [=]|].
  destruct (negb (mmap_ok sys)); [intros [=]|].
  intros [= <- _]. split; reflexivity.
Qed.

End WriterRestart.

(** X29. Ring fan-out, the writer is destroyed and initialised again
    while a reader stays attached. [destroy] unlinks the channel, so a
    new reader cannot attach until the writer is back. The second [init]
    creates a new, empty directory: the attached reader is not in it, the
    next [write] returns 0 with a reader count of 0, and the reader's ring
    receives nothing, while the reader itself is still initialised on the
    old directory, whose heartbeat nobody refreshes. *)
Theorem writer_restart_orphans_reader :
  forall chan cap (N : Z) pid sys now isys dsys (s : SAHM.World)
         w1 s1 rd1 s2 sys2 now2 pid2 isys2 data size ts sz0,
  0 < N ->
  (String.length (chan +:+ "_reader_" +:+ pretty pid) <= 63)%nat ->
  SAHM.DirectWriter.init (SAHM.DirectWriter.new chan cap) sys now s = (true, w1, s1) ->
  SAHM.DirectReader.init (SAHM.DirectReader.new chan cap N pid) isys s1
    = Some (true, rd1, s2) ->
  calls_succeed sys2 -> size <= cap ->
  let w2 := fst (SAHM.DirectWriter.destroy w1 s2) in
  let s3 := snd (SAHM.DirectWriter.destroy w1 s2) in
  SAHM.DirectWriter.is_initialized_ w2 = false
  /\ Shm.names s3 !! chan = None
  /\ SAHM.DirectReader.init (SAHM.DirectReader.new chan cap N pid2) isys2 s3
     = Some (false, SAHM.DirectReader.new chan cap N pid2, s3)
  /\ exists w3 s4 s5,
       SAHM.DirectWriter.init w2 sys2 now2 s3 = (true, w3, s4)
       /\ SAHM.DirectWriter.header_ w3 <> SAHM.DirectReader.header_ rd1
       /\ SAHM.DirectWriter.write w3 dsys s4 data size ts = Some (0, w3, s5)
       /\ SAHM.DirectWriter.getReaderCount w3 s5 = Some 0
       /\ SAHM.DirectReader.is_initialized_ rd1 = true
       /\ SAHM.DirectReader.getTotalWrites rd1 s5 = Some 0
       /\ SAHM.DirectReader.getLatest rd1 s5 sz0 = Some (None, sz0)
       /\ SAHM.load_control s5 (SAHM.DirectReader.header_ rd1)
          = SAHM.load_control s2 (SAHM.DirectReader.header_ rd1).
Proof.
  intros chan cap N pid sys now isys dsys s w1 s1 rd1 s2 sys2 now2 pid2 isys2
         data size ts sz0 HN Hname Hwinit Hrinit Hcalls Hsz w2 s3.
  destruct (sahm_init_success (SAHM.DirectWriter.new chan cap) _ _ _ _ _ eq_refl Hwinit)
    as (cid & Hh & Ho & Hi & Hm & Hr & Hn & Hnext & Hcid).
  cbn [SAHM.DirectWriter.max_slot_size_ SAHM.DirectWriter.channel_name_
       SAHM.DirectWriter.new] in Hm, Hn.
  destruct (fan_state_registered chan cap N pid sys now isys s w1 s1 rd1 s2
              HN Hname Hwinit Hrinit)
    as (cid' & bid & Hfan & _ & Hri & Hrh & Hrs & Hrhd & Hring).
  destruct Hfan as (_ & Hh' & Hne & (h & Ho2 & _ & _ & Hnames & _) & _ & _).
  assert (cid' = cid) as -> by congruence.
  pose proof (sahm_reader_init_next_id (SAHM.DirectReader.new chan cap N pid) rd1 isys
                s1 s2 eq_refl Hrinit) as Hnext2.
  destruct (sahm_reader_init_success (SAHM.DirectReader.new chan cap N pid) rd1 isys
              s1 s2 cid _ eq_refl Hn Ho ltac:(lia) eq_refl eq_refl eq_refl Hrinit)
    as (Hrh2 & _).
  assert (bid = S cid) as -> by congruence.
  destruct (sahm_init_handles (SAHM.DirectWriter.new chan cap) w1 sys now s s1
              eq_refl Hwinit) as [Hfd Hchan].
  cbn [SAHM.DirectWriter.channel_name_ SAHM.DirectWriter.new] in Hchan.
  rewrite Hh in Hfd.
  assert (Ed : SAHM.DirectWriter.destroy w1 s2
               = (SAHM.DirectWriter.set_control false (Some cid)
                    (SAHM.DirectWriter.control_ptr_ w1) (Some cid) [] w1,
                  Shm.shm_unlink chan s2)).
  { unfold SAHM.DirectWriter.destroy. rewrite Hi, Hfd, Hh, Hchan. reflexivity. }
  subst w2 s3. rewrite Ed. cbn [fst snd].
  set (w2 := SAHM.DirectWriter.set_control _ _ _ _ _ _).
  set (s3 := Shm.shm_unlink chan s2).
  split; [reflexivity|].
  assert (Hn3 : Shm.names s3 !! chan = None) by apply lookup_delete_eq.
  split; [exact Hn3|].
  split.
  { unfold SAHM.DirectReader.init, Shm.shm_open.
    cbn [SAHM.DirectReader.is_initialized_ SAHM.DirectReader.channel_name_
         SAHM.DirectReader.new].
    rewrite Hn3. reflexivity. }
  destruct (sahm_init_fresh w2 sys2 now2 s3 eq_refl Hcalls)
    as (w3 & Ei & Hi3 & Hh3 & Hm3 & Hr3).
  change (SAHM.DirectWriter.channel_name_ w2) with (SAHM.DirectWriter.channel_name_ w1)
    in Ei.
  change (Shm.next_id s3) with (Shm.next_id s2) in Ei, Hh3.
  change (Shm.objs s3) with (Shm.objs s2) in Ei.
  rewrite Hnext2, Hnext in Ei, Hh3.
  set (s4 := Shm.store _ _ _) in Ei.
  assert (Ho4 : Shm.objs s4 !! S (S cid)
                = Some (SAHM.Control (SAHM.DirectWriter.init_header w2 now2)))
    by apply lookup_insert_eq.
  destruct (publish_no_readers w3 dsys s4 (S (S cid)) _ data size ts Hi3
              ltac:(rewrite Hm3; change (SAHM.DirectWriter.max_slot_size_ w2)
                      with (SAHM.DirectWriter.max_slot_size_ w1); lia)
              Hh3 Ho4) as [Ew _].
  { intros i. apply at_idx_replicate_default. }
  { intros i. rewrite Hr3. rewrite (at_idx_replicate_default
                                      SAHM.DirectWriter.invalid_reader). reflexivity. }
  exists w3, s4. eexists. split; [exact Ei|].
  split; [rewrite Hh3, Hrhd; intros [= E]; lia|].
  split; [exact Ew|].
  assert (Hold : forall id, id <> S (S cid) ->
            Shm.objs (Shm.store (S (S cid))
                        (SAHM.Control (SAHM.set_heartbeat ts
                           (SAHM.DirectWriter.init_header w2 now2))) s4) !! id
            = Shm.objs s2 !! id).
  { intros id Hid. cbn [Shm.store Shm.objs s4].
    rewrite !lookup_insert_ne by congruence. reflexivity. }
  split.
  { unfold SAHM.DirectWriter.getReaderCount, SAHM.load_control. rewrite Hh3.
    cbn [Shm.store Shm.objs]. rewrite lookup_insert_eq. reflexivity. }
  split; [exact Hri|].
  unfold SAHM.DirectReader.getTotalWrites, SAHM.DirectReader.getLatest,
         SAHM.load_ring, SAHM.load_control.
  rewrite Hri, Hrh, Hrhd. rewrite !Hold by lia. rewrite Hring.
  repeat split; reflexivity.
Qed.

Lemma writer_restart_orphans_reader_witness :
  let wres := SAHM.DirectWriter.init (SAHM.DirectWriter.new "/chan" 4) all_ok 100 Shm.empty in
  let rd0 := SAHM.DirectReader.new "/chan" 4 3 7 in
  let rres := default (false, rd0, snd wres)
                (SAHM.DirectReader.init rd0 SAHM.DirectReader.init_ok (snd wres)) in
  let rd1 := snd (fst rres) in
  let d := SAHM.DirectWriter.destroy (snd (fst wres)) (snd rres) in
  exists w3 s4 s5,
    SAHM.DirectWriter.init (fst d) all_ok 200 (snd d) = (true, w3, s4)
    /\ SAHM.DirectWriter.write w3 SAHM.DirectWriter.discover_ok s4 [Byte.x01] 1 210
       = Some (0, w3, s5)
    /\ SAHM.DirectReader.is_initialized_ rd1 = true
    /\ SAHM.DirectReader.getTotalWrites rd1 s5 = Some 0.
Proof.
  intros wres rd0 rres rd1 d.
  destruct (writer_restart_orphans_reader "/chan"%string 4 3 7%N all_ok 100
              SAHM.DirectReader.init_ok SAHM.DirectWriter.discover_ok Shm.empty
              (snd (fst wres)) (snd wres) rd1 (snd rres) all_ok 200 8%N
              SAHM.DirectReader.init_ok [Byte.x01] 1 210 0)
    as (_ & _ & _ & w3 & s4 & s5 & A & _ & B & _ & C & D & _).
  - lia.
  - vm_compute. lia.
  - vm_compute. reflexivity.
  - vm_compute. reflexivity.
  - repeat split; reflexivity.
  - lia.
  - exists w3, s4, s5. split; [exact A|]. split; [exact B|]. split; [exact C | exact D].
Defined.

(** ** Refused publishes *)

(** X30. A publish of a double-buffer writer ([write], [commit],
    [writeZeroCopy], [commitWrite]) is refused exactly when the writer is
    not initialised or the size exceeds its maximum size; a refused
    publish changes neither the writer (its frame counter included) nor
    the region, and an accepted one, a publish of size 0 included,
    advances the frame counter by one. *)
Theorem publish_refused_iff :
  (forall op w r ok w' r',
     BARQ.Writer.publish op (w, r) = (ok, w', r') ->
     (ok = false <-> BARQ.Writer.initialized_ w = false
                     \/ BARQ.Writer.max_size_ w < BARQ.Writer.op_size op)
     /\ (ok = false -> w' = w /\ r' = r)
     /\ (ok = true ->
         BARQ.Writer.frame_count_ w' = wrap64 (BARQ.Writer.frame_count_ w + 1)
         /\ BARQ.Writer.initialized_ w' = true
         /\ BARQ.Writer.max_size_ w' = BARQ.Writer.max_size_ w))
  /\
  (forall op w r ok w' r',
     CASIR.Writer.publish op (w, r) = (ok, w', r') ->
     (ok = false <-> CASIR.Writer.is_initialized_ w = false
                     \/ CASIR.Writer.max_size_ w < CASIR.Writer.op_size op)
     /\ (ok = false -> w' = w /\ r' = r)
     /\ (ok = true ->
         CASIR.Writer.frame_count_ w' = wrap64 (CASIR.Writer.frame_count_ w + 1)
         /\ CASIR.Writer.is_initialized_ w' = true
         /\ CASIR.Writer.max_size_ w' = CASIR.Writer.max_size_ w)).
Proof.
  split.
  - intros op w r ok w' r'.
    destruct op as [data size now | size now];
      cbn [BARQ.Writer.publish BARQ.Writer.op_size fst snd];
      unfold BARQ.Writer.write, BARQ.Writer.commit;
      destruct (BARQ.Writer.initialized_ w) eqn:Hi;
      destruct (Z.ltb_spec (BARQ.Writer.max_size_ w) size);
      cbn [negb orb]; intros [= <- <- <-];
      (split; [split; [first [discriminate | intros _; auto]
                      | first [reflexivity | intros [? | ?]; first [discriminate | lia]]]|]);
      (split; [first [discriminate | intros _; split; reflexivity]|]);
      first [discriminate | intros _; repeat split; first [reflexivity | exact Hi]].
  - intros op w r ok w' r'.
    destruct op as [data size now | fill size now | size now];
      cbn [CASIR.Writer.publish CASIR.Writer.op_size fst snd];
      unfold CASIR.Writer.write, CASIR.Writer.writeZeroCopy, CASIR.Writer.commitWrite;
      destruct (CASIR.Writer.is_initialized_ w) eqn:Hi;
      destruct (Z.ltb_spec (CASIR.Writer.max_size_ w) size);
      cbn [negb orb]; intros [= <- <- <-];
      (split; [split; [first [discriminate | intros _; auto]
                      | first [reflexivity | intros [? | ?]; first [discriminate | lia]]]|]);
      (split; [first [discriminate | intros _; split; reflexivity]|]);
      first [discriminate | intros _; repeat split; first [reflexivity | exact Hi]].
Qed.

Lemma publish_refused_iff_witness :
  let w0 := BARQ.Writer.new "/sensor" 8 false in
  let res := BARQ.Writer.init w0 all_ok 100 Shm.empty in
  let r0 := BARQ.Writer.init_region w0 false 64 100 in
  let big := BARQ.Writer.OpCommit 9 110 in
  let empty := BARQ.Writer.OpCommit 0 120 in
  BARQ.Writer.publish big (snd (fst res), r0) = (false, snd (fst res), r0)
  /\ fst (fst (BARQ.Writer.publish empty (snd (fst res), r0))) = true.
Proof.
  intros w0 res r0 big empty.
  assert (E : BARQ.Writer.publish big (snd (fst res), r0)
              = (false, snd (fst (BARQ.Writer.publish big (snd (fst res), r0))),
                 snd (BARQ.Writer.publish big (snd (fst res), r0))))
    by (vm_compute; reflexivity).
  destruct (proj1 publish_refused_iff big (snd (fst res)) r0 _ _ _ E) as (_ & H & _).
  destruct (H eq_refl) as [Hw Hr].
  split; [rewrite E, Hw, Hr; reflexivity|].
  vm_compute. reflexivity.
Defined.
